(** * LLAMBO sampler of optunahub-registry: a shallow embedding

    The development follows three source files of the package
    [samplers/llambo]:

    - [llambo/generative_sm.py]      (module [GenerativeSM] below),
    - [raw_package/llambo/generative_sm_utils.py] (module [GenerativeSMUtils]),
    - [sampler_base.py]              (module [SamplerBase]).

    Conventions of the embedding.

    - Python exceptions are values of [exn]; a fallible computation returns
      [result A].  Code that talks to the language model or prints runs in the
      monad [M], which threads the history of observable events.
    - A Python [float] is a [pyfloat]: either [NaN] or a finite value carried
      by its exact rational.  Infinities and the sign of zero are not
      represented.  The product and the difference that the source takes of
      floats for the percentile of the labels, and the conversion of an
      integer cell to a float, are rounded to binary64 ([round_binary64]).
      Everything else is computed on the exact rationals: what numpy
      computes (the interpolation of a percentile, a mean), the value that
      [float] reads from a decimal text, the quotient of two integers and
      the sums of costs.
    - A Python [dict] whose iteration order is observable (a record of a
      data frame, the constraint dictionary) is an association list with the
      keys in insertion order.
    - A pandas data frame is the list of its records; its columns have the
      dtypes pandas infers from their cells ([float64], [int64], [object]).
    - Wall-clock measurements ([time.time()]) are left out: the components of
      the returned tuples that hold elapsed time are dropped. *)

From Stdlib Require Import Reals Lra.
From Stdlib Require Import ZArith QArith Qround Qabs Qpower Lia Lqa String Ascii List DecimalString.
From stdpp Require Import base list strings sorting.

Open Scope string_scope.

(** ** Python values, exceptions and the error monad *)

Module Py.

Inductive exn : Type :=
| KeyError (key : string)
| IndexError
| ValueError (msg : string)
| TypeError (msg : string)
| AttributeError (name : string)
| AssertionError (msg : string)
| ZeroDivisionError.

Inductive result (A : Type) : Type :=
| Ok (a : A)
| Raise (e : exn).
Arguments Ok {A} a.
Arguments Raise {A} e.

Definition rbind {A B : Type} (c : result A) (k : A -> result B) : result B :=
  match c with
  | Ok a => k a
  | Raise e => Raise e
  end.

(** [for x in l: acc = f(acc, x)] with a body that may raise. *)
Fixpoint rfold {A B : Type} (f : B -> A -> result B) (l : list A) (acc : B) : result B :=
  match l with
  | [] => Ok acc
  | x :: l' => rbind (f acc x) (rfold f l')
  end.

(** [[f(x) for x in l]] with a body that may raise. *)
Fixpoint rmap {A B : Type} (f : A -> result B) (l : list A) : result (list B) :=
  match l with
  | [] => Ok []
  | x :: l' => rbind (f x) (fun y => rbind (rmap f l') (fun ys => Ok (y :: ys)))
  end.

Inductive pyfloat : Type :=
| NaN
| Fin (q : Q).

Inductive pyval : Type :=
| VNone
| VInt (z : Z)
| VFloat (f : pyfloat)
| VStr (s : string).

Definition isnan (f : pyfloat) : bool :=
  match f with NaN => true | Fin _ => false end.

(** [x <= y] on floats: false as soon as one side is NaN. *)
Definition float_le (x y : pyfloat) : bool :=
  match x, y with
  | Fin a, Fin b => Qle_bool a b
  | _, _ => false
  end.

(** [x < y] on floats: false as soon as one side is NaN. *)
Definition float_lt (x y : pyfloat) : bool :=
  match x, y with
  | Fin a, Fin b => negb (Qle_bool b a)
  | _, _ => false
  end.

(** *** Strings *)

Definition is_digit (c : ascii) : bool :=
  (48 <=? nat_of_ascii c)%nat && (nat_of_ascii c <=? 57)%nat.

Definition digit_value (c : ascii) : Z := Z.of_nat (nat_of_ascii c - 48).

Fixpoint all_chars (p : ascii -> bool) (s : string) : bool :=
  match s with
  | EmptyString => true
  | String c s' => p c && all_chars p s'
  end.

(** Longest prefix of [s] made of characters satisfying [p], and the rest. *)
Fixpoint span (p : ascii -> bool) (s : string) : string * string :=
  match s with
  | EmptyString => (EmptyString, EmptyString)
  | String c s' =>
      if p c then let '(a, b) := span p s' in (String c a, b)
      else (EmptyString, s)
  end.

(** [s] without its prefix [p], when it has this prefix. *)
Fixpoint strip_prefix (p s : string) : option string :=
  match p, s with
  | EmptyString, _ => Some s
  | String a p', String b s' => if Ascii.eqb a b then strip_prefix p' s' else None
  | String _ _, EmptyString => None
  end.

(** Value of a string of decimal digits, most significant first. *)
Fixpoint digits_to_Z (s : string) (acc : Z) : Z :=
  match s with
  | EmptyString => acc
  | String c s' => digits_to_Z s' (10 * acc + digit_value c)
  end.

Definition Z_to_string (z : Z) : string := NilZero.string_of_int (Z.to_int z).

Fixpoint repeat_char (c : ascii) (n : nat) : string :=
  match n with
  | O => EmptyString
  | S n' => String c (repeat_char c n')
  end.


(** [s.rstrip("0")]. *)
Fixpoint rstrip0 (s : string) : string :=
  match s with
  | EmptyString => EmptyString
  | String c s' =>
      match rstrip0 s' with
      | EmptyString => if Ascii.eqb c "0" then EmptyString else String c EmptyString
      | t => String c t
      end
  end.

(** [s.split(".")[1]] when [s] contains a dot, i.e. the text between the first
    and the second dot. *)
Fixpoint after_dot (s : string) : option string :=
  match s with
  | EmptyString => None
  | String c s' =>
      if Ascii.eqb c "." then Some (fst (span (fun d => negb (Ascii.eqb d ".")) s'))
      else after_dot s'
  end.

(** *** The builtin [float(s)]

    The grammar accepted here is the part of Python's that a string over the
    characters [-], [.] and [0]..[9] can belong to: an optional sign, then
    digits with at most one dot and at least one digit.  Every other string
    over these characters makes [float] raise [ValueError].  (Exponents,
    [inf], [nan], underscores and surrounding blanks need other characters
    and are not represented: such strings never reach [float] from the
    pattern of [process_response].) *)

Definition parse_unsigned (s : string) : option Q :=
  let '(ip, rest) := span is_digit s in
  match rest with
  | EmptyString =>
      if String.eqb ip "" then None else Some (inject_Z (digits_to_Z ip 0))
  | String c fp =>
      if Ascii.eqb c "." && all_chars is_digit fp && negb (String.eqb (ip ++ fp) "")
      then Some (Qmake (digits_to_Z (ip ++ fp) 0) (Z.to_pos (10 ^ Z.of_nat (String.length fp))))
      else None
  end.

Definition py_float (s : string) : result pyfloat :=
  let '(neg, body) :=
    match s with
    | String "-" s' => (true, s')
    | String "+" s' => (false, s')
    | _ => (false, s)
    end in
  match parse_unsigned body with
  | Some q => Ok (Fin (if neg then Qopp q else q))
  | None => Raise (ValueError ("could not convert string to float: '" ++ s ++ "'"))
  end.

(** *** Formatting floats *)

(** Round to the nearest integer, ties to the even one. *)
Definition round_half_even (x : Q) : Z :=
  let f := Qfloor x in
  match Qcompare (x - inject_Z f) (1 # 2) with
  | Lt => f
  | Gt => (f + 1)%Z
  | Eq => if Z.even f then f else (f + 1)%Z
  end.

(** [format(q, ".<n>f")] for a finite float [q]. *)
Definition format_f (n : nat) (q : Q) : string :=
  let scale := (10 ^ Z.of_nat n)%Z in
  let r := round_half_even (Qabs q * inject_Z scale) in
  let ip := Z_to_string (r / scale) in
  let fp := Z_to_string (r mod scale) in
  let sign := if Qle_bool 0 q then "" else "-" in
  match n with
  | O => sign ++ ip
  | _ => sign ++ ip ++ "." ++ repeat_char "0" (n - String.length fp) ++ fp
  end.

Definition format_float_f (n : nat) (f : pyfloat) : string :=
  match f with
  | NaN => "nan"
  | Fin q => format_f n q
  end.

(** [x % 1 == 0] on a float. *)
Definition is_integral (f : pyfloat) : bool :=
  match f with
  | NaN => false
  | Fin q => Pos.eqb (Qden (Qred q)) 1
  end.

(** *** [repr] of a float

    Python prints a float with the shortest decimal string that reads back
    as the same binary64 value (and, among those, the closest to it), in
    positional notation when the decimal exponent lies between -4 and 16
    and in exponent notation otherwise.  The functions below compute that
    string from the exact value [q] of the float. *)

Definition pow2Q (e : Z) : Q :=
  if (0 <=? e)%Z then inject_Z (2 ^ e) else Qmake 1 (Z.to_pos (2 ^ (- e))).

Definition pow10Q (e : Z) : Q :=
  if (0 <=? e)%Z then inject_Z (10 ^ e) else Qmake 1 (Z.to_pos (10 ^ (- e))).

(** Largest [e] with [2^e <= x], for [x > 0]. *)
Definition floor_log2 (x : Q) : Z :=
  let e := (Z.log2 (Qnum x) - Z.log2 (Zpos (Qden x)))%Z in
  if Qle_bool (pow2Q e) x then e else (e - 1)%Z.

(** *** Rounding to binary64

    The product and the difference that the source itself computes on
    floats ([top_pct * 100], [100 - top_pct * 100]) are rounded:
    [round_binary64 x] is the binary64 value nearest to [x], ties to the
    even mantissa.  The values near [x > 0] are the multiples of
    [2^(e - 52)], with [e] the binary exponent of [x], and of [2^(-1074)]
    below the normal range.  Overflow to infinity is not represented. *)

Definition round_positive (x : Q) : Q :=
  let ulp := pow2Q (Z.max (floor_log2 x - 52) (-1074)) in
  Qred (inject_Z (round_half_even (x / ulp)) * ulp).

Definition round_binary64 (x : Q) : Q :=
  match Qcompare x 0 with
  | Eq => 0%Q
  | Gt => round_positive x
  | Lt => Qopp (round_positive (Qopp x))
  end.

(** [x * y] and [x - y] on floats. *)
Definition float_mul (x y : Q) : Q := round_binary64 (x * y).

Definition float_sub (x y : Q) : Q := round_binary64 (x - y).

Definition num_digits (z : Z) : Z := Z.of_nat (String.length (Z_to_string z)).

(** Largest [e] with [10^e <= x], for [x > 0]. *)
Definition floor_log10 (x : Q) : Z :=
  let e := (num_digits (Qnum x) - num_digits (Zpos (Qden x)))%Z in
  if Qle_bool (pow10Q (e + 1)) x then (e + 1)%Z
  else if Qle_bool (pow10Q e) x then e else (e - 1)%Z.

(** The set of reals that round to the binary64 value [x > 0]:
    lower end, upper end, and whether the ends belong to it. *)
Definition rounding_interval (x : Q) : Q * Q * bool :=
  let pe := Z.max (floor_log2 x - 52) (-1074) in
  let ulp := pow2Q pe in
  let mant := Qfloor (x / ulp) in
  let below :=
    if (mant =? 2 ^ 52)%Z && (-1074 <? pe)%Z then (ulp / 4)%Q else (ulp / 2)%Q in
  ((x - below)%Q, (x + ulp / 2)%Q, Z.even mant).

Definition in_interval (iv : Q * Q * bool) (c : Q) : bool :=
  let '(lo, hi, closed) := iv in
  if closed then Qle_bool lo c && Qle_bool c hi
  else negb (Qle_bool c lo) && negb (Qle_bool hi c).

(** Search for the shortest digit string: [k] significant digits are tried
    for [k = 18 - fuel, ...]; the result is the integer made of the digits
    and the power of ten that multiplies it. *)
Fixpoint shortest_digits (fuel : nat) (x : Q) (iv : Q * Q * bool) (e10 : Z) (k : Z)
  : Z * Z :=
  let step := pow10Q (e10 - k + 1) in
  let d := Qfloor (x / step) in
  let c_lo := (inject_Z d * step)%Q in
  let c_hi := (inject_Z (d + 1) * step)%Q in
  match fuel with
  | O => (d, (e10 - k + 1)%Z)
  | S fuel' =>
      match in_interval iv c_lo, in_interval iv c_hi with
      | true, true =>
          if Qle_bool (x - c_lo)%Q (c_hi - x)%Q then (d, (e10 - k + 1)%Z)
          else ((d + 1)%Z, (e10 - k + 1)%Z)
      | true, false => (d, (e10 - k + 1)%Z)
      | false, true => ((d + 1)%Z, (e10 - k + 1)%Z)
      | false, false => shortest_digits fuel' x iv e10 (k + 1)
      end
  end.

Definition string_take (n : nat) (s : string) : string := substring 0 n s.
Definition string_drop (n : nat) (s : string) : string := substring n (String.length s - n) s.

Definition repr_positive (x : Q) : string :=
  let '(d, e) := shortest_digits 17 x (rounding_interval x) (floor_log10 x) 1 in
  let all := Z_to_string d in
  let digits := match rstrip0 all with EmptyString => "0" | t => t end in
  let decpt := (Z.of_nat (String.length all) + e)%Z in
  let nd := Z.of_nat (String.length digits) in
  if (-4 <? decpt)%Z && (decpt <=? 16)%Z then
    if (decpt <=? 0)%Z then
      "0." ++ repeat_char "0" (Z.to_nat (- decpt)) ++ digits
    else if (nd <=? decpt)%Z then
      digits ++ repeat_char "0" (Z.to_nat (decpt - nd)) ++ ".0"
    else
      string_take (Z.to_nat decpt) digits ++ "." ++ string_drop (Z.to_nat decpt) digits
  else
    let ex := (decpt - 1)%Z in
    let mant :=
      match digits with
      | String c EmptyString => String c EmptyString
      | String c t => String c ("." ++ t)
      | EmptyString => EmptyString
      end in
    let exs := Z_to_string (Z.abs ex) in
    mant ++ "e" ++ (if (ex <? 0)%Z then "-" else "+")
         ++ (if (String.length exs <? 2)%nat then "0" else "") ++ exs.

Definition float_repr (f : pyfloat) : string :=
  match f with
  | NaN => "nan"
  | Fin q =>
      match Qcompare q 0 with
      | Eq => "0.0"
      | Gt => repr_positive q
      | Lt => "-" ++ repr_positive (Qopp q)
      end
  end.

(** The builtin [str(v)]. *)
Definition py_str (v : pyval) : string :=
  match v with
  | VNone => "None"
  | VInt z => Z_to_string z
  | VFloat f => float_repr f
  | VStr s => s
  end.

(** [l[i]] on a Python list, with negative indices counted from the end. *)
Definition py_index {A : Type} (l : list A) (i : Z) : result A :=
  let n := Z.of_nat (length l) in
  let j := if (i <? 0)%Z then (n + i)%Z else i in
  if (j <? 0)%Z then Raise IndexError
  else match l !! Z.to_nat j with
       | Some x => Ok x
       | None => Raise IndexError
       end.

(** [d[k]] and [d[k] = v] on a dictionary kept as an association list. *)
Fixpoint dict_get {A : Type} (k : string) (d : list (string * A)) : result A :=
  match d with
  | [] => Raise (KeyError k)
  | (k', v) :: d' => if String.eqb k k' then Ok v else dict_get k d'
  end.

Fixpoint dict_set {A : Type} (k : string) (v : A) (d : list (string * A))
  : list (string * A) :=
  match d with
  | [] => [(k, v)]
  | (k', v') :: d' =>
      if String.eqb k k' then (k', v) :: d' else (k', v') :: dict_set k v d'
  end.

End Py.

(** ** [generative_sm_utils.py]: labels and serialization of configurations *)

Module GenerativeSMUtils.
Import Py.

(** An entry of [hyperparameter_constraints], the list
    [[dtype, dist_type, bounds]] built by the sampler: index 1 is the scale
    and index 2 the bounds. *)
Record constraint : Type := {
  dtype : string;
  dist_type : string;
  bounds : list pyval
}.

(** A record of a data frame: the cells of one row, keyed by column name in
    column order. *)
Definition row (V : Type) : Type := list (string * V).

(** A few-shot example: the serialized configuration and, when fitness
    values were given, its label. *)
Record example : Type := {
  Q_text : string;
  A_text : option string
}.

(** [_count_decimal_places(n)].  [format(n, ".10f")] raises for a string and
    for [None]; for NaN it yields ["nan"], which has no dot. *)
Definition _count_decimal_places (n : pyval) : result nat :=
  rbind
    match n with
    | VInt z => Ok (format_f 10 (inject_Z z))
    | VFloat f => Ok (format_float_f 10 f)
    | VStr _ => Raise (ValueError "Unknown format code 'f' for object of type 'str'")
    | VNone => Raise (TypeError "unsupported format string passed to NoneType.__format__")
    end
    (fun s =>
       match after_dot s with
       | None => Ok 0%nat
       | Some frac =>
           let num_dp := String.length (rstrip0 frac) in
           if (num_dp =? 0)%nat then Ok 2%nat else Ok num_dp
       end).

(** *** [np.percentile] (default method, linear interpolation) *)

Definition Qleb_total (x y : Q) : Decision (Qle x y) :=
  match Qlt_le_dec y x with
  | left H => right (Qlt_not_le y x H)
  | right H => left H
  end.

(** The finite values of an array, in order. *)
Fixpoint fin_values (a : list pyfloat) : list Q :=
  match a with
  | [] => []
  | NaN :: a' => fin_values a'
  | Fin q :: a' => q :: fin_values a'
  end.

Definition lerp (a b t : Q) : Q := (a + (b - a) * t)%Q.

(** The value at virtual index [(n - 1) * q / 100] of the sorted data:
    the last element when that index reaches [n - 1], the interpolation
    between the two neighbours otherwise. *)
Definition quantile_sorted (s : list Q) (q : Z) : Q :=
  let n := length s in
  let virtual_index := (inject_Z (Z.of_nat n - 1) * (inject_Z q / 100))%Q in
  if Qle_bool (inject_Z (Z.of_nat n - 1)) virtual_index then
    nth (n - 1) s 0%Q
  else
    let previous := Z.to_nat (Qfloor virtual_index) in
    let gamma := (virtual_index - inject_Z (Qfloor virtual_index))%Q in
    lerp (nth previous s 0%Q) (nth (S previous) s 0%Q) gamma.

(** [np.percentile(a, q)] for an integer [q]: a percentile outside
    [0, 100] is rejected before the data is looked at, an empty array has
    no element to select, and a NaN in the data makes the result NaN. *)
Definition np_percentile (a : list pyfloat) (q : Z) : result pyfloat :=
  if (q <? 0)%Z || (100 <? q)%Z then
    Raise (ValueError "Percentiles must be in the range [0, 100]")
  else match a with
       | [] => Raise IndexError
       | _ =>
           if existsb isnan a then Ok NaN
           else Ok (Fin (quantile_sorted (merge_sort Qle (H := Qleb_total) (fin_values a)) q))
       end.

(** [int(x)] on a float: truncation toward zero. *)
Definition py_int (x : Q) : Z := Z.quot (Qnum x) (Zpos (Qden x)).

(** Lines 46-54: the 0/1 labels of the observed rows. *)
Definition assign_labels (lower_is_better : bool) (top_pct : Q)
  (observed_fvals : list pyfloat) : result (list Z) :=
  if lower_is_better then
    rbind (np_percentile observed_fvals (py_int (float_mul top_pct 100)))
      (fun p => Ok (map (fun x => if float_lt x p then 1%Z else 0%Z) observed_fvals))
  else
    rbind (np_percentile observed_fvals (py_int (float_sub 100 (float_mul top_pct 100))))
      (fun p => Ok (map (fun x => if float_lt p x then 1%Z else 0%Z) observed_fvals)).

(** Number of rows labelled 1. *)
Definition positive_count (labels : list Z) : nat :=
  length (filter (fun l => l = 1%Z) labels).

(** *** Serialization *)

(** The rendering of one cell (lines 64-68): fixed notation with [n_dp]
    decimals for a float that is not integer-valued, [str] otherwise. *)
Definition serialize_value (n_dp : nat) (v : pyval) : string :=
  match v with
  | VFloat f =>
      if negb (is_integral f) then format_float_f n_dp f else py_str v
  | _ => py_str v
  end.

(** [n_dp] for the column [name] (lines 60-63). *)
Definition column_precision (hyperparameter_constraints : list (string * constraint))
  (name : string) : result nat :=
  rbind (dict_get name hyperparameter_constraints) (fun c =>
  let lower_bound := bounds c in
  rbind (py_index lower_bound 0) (fun low =>
  rbind (_count_decimal_places low) (fun n => Ok (n + 2)%nat))).

(** The body of the loop over the cells of a row (lines 59-70), for the
    cell at position [i]. *)
Definition serialize_cell (hyperparameter_constraints : list (string * constraint))
  (len : nat) (row_string : string) (cell : nat * (string * pyval)) : result string :=
  let '(i, (name, v)) := cell in
  rbind (column_precision hyperparameter_constraints name) (fun n_dp =>
  let row_string := row_string ++ (name ++ ": " ++ serialize_value n_dp v) in
  Ok (if decide (i = (len - 1)%nat) then row_string else row_string ++ ", ")).

Definition serialize_row (hyperparameter_constraints : list (string * constraint))
  (r : row pyval) : result string :=
  rfold (serialize_cell hyperparameter_constraints (length r))
        (zip (seq 0 (length r)) r) "".

(** *** The rows of a data frame

    A frame is kept as the list of its records.  pandas stores it by
    columns, each with the dtype it infers from the cells: [float64] for a
    column of floats, [int64] for a column of integers, [object] for every
    other column.  [iterrows] hands out a row as a Series, which has one
    dtype for all its cells, the common dtype of the columns: when every
    column is numeric and one of them is [float64], the integers of a row
    arrive as floats.  Selecting or reordering rows keeps the dtypes. *)

Inductive np_dtype : Type := int64 | float64 | object.

Definition is_int (v : pyval) : bool := match v with VInt _ => true | _ => false end.

Definition is_float (v : pyval) : bool := match v with VFloat _ => true | _ => false end.

Definition column_dtype (cells : list pyval) : np_dtype :=
  if forallb is_int cells then int64
  else if forallb is_float cells then float64
  else object.

(** The cells of the column at position [j]. *)
Definition column (frame : list (row pyval)) (j : nat) : list pyval :=
  omap (fun r : row pyval => snd <$> r !! j) frame.

Definition common_dtype (a b : np_dtype) : np_dtype :=
  match a, b with
  | object, _ | _, object => object
  | int64, int64 => int64
  | _, _ => float64
  end.

(** The dtype of [frame.values], the array behind the rows of
    [iterrows]. *)
Definition values_dtype (frame : list (row pyval)) : np_dtype :=
  match frame with
  | [] => object
  | r :: _ =>
      foldr common_dtype int64
            (map (fun j => column_dtype (column frame j)) (seq 0 (length r)))
  end.

(** A cell in an array of dtype [t]. *)
Definition astype (t : np_dtype) (v : pyval) : pyval :=
  match t, v with
  | float64, VInt z => VFloat (Fin (round_binary64 (inject_Z z)))
  | _, _ => v
  end.

(** The Series of a record in a frame whose values have dtype [t]. *)
Definition series (t : np_dtype) (r : row pyval) : row pyval :=
  map (fun cell : string * pyval => (cell.1, astype t cell.2)) r.

(** [frame.iterrows()] after [reset_index]: the position and the Series
    of each row. *)
Definition iterrows (t : np_dtype) (frame : list (row pyval)) : list (nat * row pyval) :=
  zip (seq 0 (length frame)) (map (series t) frame).

(** [prepare_configurations].  [permutation seed index] stands for
    [np.random.seed(seed); np.random.permutation(index)]. *)
Definition prepare_configurations (permutation : nat -> list nat -> list nat)
  (hyperparameter_constraints : list (string * constraint))
  (lower_is_better : bool) (top_pct : Q)
  (observed_configs : list (row pyval)) (observed_fvals : option (list pyfloat))
  (seed : option nat) : result (list example) :=
  let index := seq 0 (length observed_configs) in
  let values := values_dtype observed_configs in
  let loc {A} (l : list A) (i : nat) : result A :=
    match l !! i with Some x => Ok x | None => Raise (KeyError (Z_to_string (Z.of_nat i))) end in
  rbind
    match seed with
    | Some s =>
        let shuffled_indices := permutation s index in
        rbind (rmap (loc observed_configs) shuffled_indices) (fun configs =>
        match observed_fvals with
        | Some fvals =>
            rbind (rmap (loc fvals) shuffled_indices) (fun fvals' => Ok (configs, Some fvals'))
        | None => Ok (configs, None)
        end)
    | None => Ok (observed_configs, observed_fvals)
    end
    (fun '(observed_configs, observed_fvals) =>
  rbind
    match observed_fvals with
    | Some fvals => rbind (assign_labels lower_is_better top_pct fvals) (fun l => Ok (Some l))
    | None => Ok None
    end
    (fun labels =>
  rmap (fun '(index, r) =>
          rbind (serialize_row hyperparameter_constraints r) (fun row_string =>
          match labels with
          | Some ls =>
              rbind (loc ls index) (fun label =>
              Ok {| Q_text := row_string;
                    A_text := Some ("## " ++ Z_to_string label ++ " ##") |})
          | None => Ok {| Q_text := row_string; A_text := None |}
          end))
       (iterrows values observed_configs))).

End GenerativeSMUtils.

(** ** [generative_sm.py]: the surrogate model *)

Module GenerativeSM.
Import Py GenerativeSMUtils.

(** *** Observable events and the monad of the query engine

    The history records, oldest first, what the surrogate did to its
    collaborators: text printed, the rate limiter's [acquire], and the
    messages sent through [OpenAI_instance.ask]. *)

Inductive event : Type :=
| Print (text : string)
| RateLimiterAcquire (tokens : Z)
| OpenAIAsk (message : list (string * string)).

Definition history : Type := list event.

Definition M (A : Type) : Type := history -> result A * history.

Definition ret {A : Type} (a : A) : M A := fun h => (Ok a, h).

Definition bind {A B : Type} (c : M A) (k : A -> M B) : M B :=
  fun h =>
    match c h with
    | (Ok a, h') => k a h'
    | (Raise e, h') => (Raise e, h')
    end.

Definition lift {A : Type} (r : result A) : M A := fun h => (r, h).

Definition emit (e : event) : M unit := fun h => (Ok tt, (h ++ [e])%list).

Declare Scope M_scope.
Delimit Scope M_scope with M.
Notation "x <- c ;; k" := (bind c (fun x => k))
  (at level 100, c at next level, right associativity) : M_scope.

(** [for x in l: acc = f(acc, x)] in [M]. *)
Fixpoint mfold {A B : Type} (f : B -> A -> M B) (l : list A) (acc : B) : M B :=
  match l with
  | [] => ret acc
  | x :: l' => bind (f acc x) (mfold f l')
  end.

(** [[f(x) for x in l]] in [M]. *)
Fixpoint mmap {A B : Type} (f : A -> M B) (l : list A) : M (list B) :=
  match l with
  | [] => ret []
  | x :: l' => bind (f x) (fun y => bind (mmap f l') (fun ys => ret (y :: ys)))
  end.

(** *** The instance *)

Record RateLimiter : Type := {
  max_tokens : Z;
  time_frame : Z;
  max_requests : Z
}.

Record LLMGenerativeSM : Type := {
  hyperparameter_constraints : list (string * constraint);
  n_gens : nat;
  lower_is_better : bool;
  top_pct : Q;
  n_templates : nat;
  rate_limiter : RateLimiter;
  verbose : bool
}.

(** [__init__]: the rate limiter is the one given, or a fresh one. *)
Definition init (hyperparameter_constraints : list (string * constraint))
  (n_gens : nat) (lower_is_better : bool) (top_pct : Q) (n_templates : nat)
  (rate_limiter : option RateLimiter) (verbose : bool) : LLMGenerativeSM :=
  {| hyperparameter_constraints := hyperparameter_constraints;
     n_gens := n_gens;
     lower_is_better := lower_is_better;
     top_pct := top_pct;
     n_templates := n_templates;
     rate_limiter :=
       match rate_limiter with
       | Some r => r
       | None => {| max_tokens := 240000; time_frame := 60; max_requests := 2900 |}
       end;
     verbose := verbose |}.

(** *** [re.findall(r"## (-?[\d.]+) ##", s)]

    [match_here s] is the match of the pattern at the start of [s]: the
    captured group and the length of the match.  Both quantifiers are greedy
    and neither can give a character back with success: after a dropped [-]
    the class [[\d.]] would have to match it, and after a shortened run the
    blank of [" ##"] would have to match a digit or a dot. *)

Definition is_token_char (c : ascii) : bool := is_digit c || Ascii.eqb c ".".

Definition match_here (s : string) : option (string * nat) :=
  match strip_prefix "## " s with
  | None => None
  | Some rest =>
      let '(sign, rest) :=
        match rest with
        | String "-" r => ("-", r)
        | _ => ("", rest)
        end in
      let '(run, rest) := span is_token_char rest in
      match run, strip_prefix " ##" rest with
      | String _ _, Some _ => Some (sign ++ run, (6 + String.length (sign ++ run))%nat)
      | _, _ => None
      end
  end.

(** The scan: positions covered by the previous match are skipped. *)
Fixpoint findall_from (skip : nat) (s : string) : list string :=
  match s with
  | EmptyString => []
  | String _ s' =>
      match skip with
      | S k => findall_from k s'
      | O =>
          match match_here s with
          | Some (group, len) => group :: findall_from (len - 1) s'
          | None => findall_from 0 s'
          end
      end
  end.

Definition re_findall (s : string) : list string := findall_from 0 s.

(** The body of the loop of [process_response]. *)
Definition process_one (raw_response : pyval) : M pyfloat :=
  match raw_response with
  | VStr s =>
      match re_findall s with
      | [gen_pred] => lift (py_float gen_pred)
      | _ =>
          (_ <- emit (Print "No valid numeric value found in raw_response, appending NaN") ;;
           ret NaN)%M
      end
  | _ =>
      (_ <- emit (Print "raw_response is not a string, appending NaN") ;;
       ret NaN)%M
  end.

Definition process_response (all_raw_response : list pyval) : M (list pyfloat) :=
  mmap process_one all_raw_response.

(** *** numpy on the predictions *)

(** [np.array(rows).astype(float)] for a list of lists of floats: the rows
    must have one length. *)
Definition np_array (rows : list (list pyfloat)) : result (list (list pyfloat)) :=
  match rows with
  | [] => Ok []
  | r :: _ =>
      if forallb (fun r' => (length r' =? length r)%nat) rows then Ok rows
      else Raise (ValueError "setting an array element with a sequence. The requested array has an inhomogeneous shape")
  end.

Definition Qsum (l : list Q) : Q := fold_right Qplus 0%Q l.

(** [np.nanmean] of one row: the mean of the entries that are not NaN, NaN
    when there is none. *)
Definition np_nanmean (r : list pyfloat) : pyfloat :=
  match fin_values r with
  | [] => NaN
  | vals => Fin (Qsum vals / inject_Z (Z.of_nat (length vals)))
  end.

(** [np.nanmean(a, axis=1)]; a one-dimensional (here: empty) array has no
    axis 1. *)
Definition np_nanmean_axis1 (a : list (list pyfloat)) : result (list pyfloat) :=
  match a with
  | [] => Raise (ValueError "axis 1 is out of bounds for array of dimension 1")
  | _ => Ok (map np_nanmean a)
  end.

(** [np.argmax] on floats.  The scan keeps the running maximum [mp] and
    moves to an element unless it is [<= mp]; a NaN is never [<=] anything,
    so the first NaN is taken and ends the scan. *)
Fixpoint argmax_loop (ip : list pyfloat) (i : nat) (mp : pyfloat) (max_ind : nat) : nat :=
  match ip with
  | [] => max_ind
  | x :: ip' =>
      if negb (float_le x mp) then
        if isnan x then i else argmax_loop ip' (S i) x i
      else argmax_loop ip' (S i) mp max_ind
  end.

Definition np_argmax (a : list pyfloat) : result nat :=
  match a with
  | [] => Raise (ValueError "attempt to get argmax of an empty sequence")
  | mp :: ip => if isnan mp then Ok 0%nat else Ok (argmax_loop ip 1 mp 0)
  end.

(** [a / b] on Python integers. *)
Definition py_truediv (a b : Z) : result Q :=
  if (b =? 0)%Z then Raise ZeroDivisionError else Ok (inject_Z a / inject_Z b)%Q.

(** [range(0, n, 5)]. *)
Definition chunk_starts (n : nat) : list nat :=
  map (fun k => (5 * k)%nat) (seq 0 ((n + 4) / 5)).

(** *** The query engine

    The collaborators are parameters: the prompt templates of langchain
    behind their [format(Q=...)], the client behind [OpenAI_instance.ask]
    (its answer may depend on everything that happened before), and the event
    loop of asyncio, which decides which of the pending tasks finishes
    next.  [ask] gives the answer of a call that returns; a call of the
    client that raises, which nothing in the engine handles, is not
    represented. *)

Section Engine.

Context {Template : Type}.
Variable template_format : Template -> string -> string.
Variable ask : history -> list (string * string) -> pyval * Q.
Variable next_done : history -> nat -> nat.

Definition openai_ask (message : list (string * string)) : M (pyval * Q) :=
  fun h => (Ok (ask h message), (h ++ [OpenAIAsk message])%list).

(** The messages built by [_async_generate] for a template and a query. *)
Definition build_message (few_shot_template : Template) (query_example : example)
  : list (string * string) :=
  let prompt := template_format few_shot_template (Q_text query_example) in
  [("system", "You are an AI assistant that helps people find information.");
   ("user", prompt)].

Definition _async_generate (few_shot_template : Template) (query_example : example)
  (query_idx : nat) : M (nat * pyval * Q * Z) :=
  (_ <- emit (Print "Sending inquiries to the LLM - generative surrogate model") ;;
   r <- openai_ask (build_message few_shot_template query_example) ;;
   let '(resp, tot_cost) := r in
   let tot_tokens := 1000%Z in
   ret (query_idx, resp, tot_cost, tot_tokens))%M.

(** [asyncio.gather] over the tasks: they finish one after the other in the
    order the event loop picks; each result lands in the slot of its task,
    whatever the order, and the first exception ends the wait. *)
Fixpoint event_loop {X : Type} (n : nat) (pending : list (nat * M X))
  (slots : list (option X)) : M (list (option X)) :=
  match n with
  | O => ret slots
  | S n' => fun h =>
      let chosen := (next_done h (length pending) mod length pending)%nat in
      match pending !! chosen with
      | None => (Ok slots, h)
      | Some (k, task) =>
          match task h with
          | (Ok r, h') => event_loop n' (delete chosen pending) (<[k := Some r]> slots) h'
          | (Raise e, h') => (Raise e, h')
          end
      end
  end.

Definition asyncio_gather {X : Type} (tasks : list (M X)) : M (list X) :=
  let n := length tasks in
  (slots <- event_loop n (zip (seq 0 n) tasks) (replicate n None) ;;
   ret (omap (fun slot : option X => slot) slots))%M.

(** [results[query_idx].append(x)]. *)
Definition append_at {A : Type} (results : list (list A)) (query_idx : nat) (x : A)
  : result (list (list A)) :=
  match results !! query_idx with
  | Some r => Ok (<[query_idx := (r ++ [x])%list]> results)
  | None => Raise IndexError
  end.

(** [_generate_concurrently].  A coroutine returns a tuple, so the test
    [response is not None] always holds and its [else] branch is absent. *)
Definition _generate_concurrently (few_shot_templates : list Template)
  (query_examples : list example) : M (list (list (pyval * Q * Z))) :=
  let coroutines :=
    flat_map (fun template =>
                map (fun '(query_idx, query_example) =>
                       _async_generate template query_example query_idx)
                    (zip (seq 0 (length query_examples)) query_examples))
             few_shot_templates in
  let results := replicate (length query_examples) [] in
  (llm_response <- asyncio_gather coroutines ;;
   lift (rfold (fun results '(query_idx, resp, tot_cost, tot_tokens) =>
                  append_at results query_idx (resp, tot_cost, tot_tokens))
               llm_response results))%M.

(** The raw text kept for one entry of [sample_response] (lines 257-266);
    an entry is a three-element list, so only the test on its first element
    is left. *)
Definition raw_of (template_response : pyval * Q * Z) : M pyval :=
  let '(llm_response, _, _) := template_response in
  match llm_response with
  | VStr s => ret (VStr s)
  | _ =>
      (_ <- emit (Print ("LLM response is not a string: " ++ py_str llm_response)) ;;
       ret (VFloat NaN))%M
  end.

(** The accumulators of [_predict]. *)
Record totals : Type := {
  all_preds : list (list pyfloat);
  tot_tokens : Z;
  tot_cost : Q;
  bool_pred_returned : list Z
}.

(** The body of the inner loop of [_predict] (lines 251-275). *)
Definition predict_sample (self : LLMGenerativeSM) (acc : totals)
  (sample_response : list (pyval * Q * Z)) : M totals :=
  match sample_response with
  | [] =>
      ret {| all_preds := (all_preds acc ++ [replicate (n_gens self) NaN])%list;
             tot_tokens := tot_tokens acc;
             tot_cost := tot_cost acc;
             bool_pred_returned := bool_pred_returned acc |}
  | _ =>
      (all_raw_response <- mmap raw_of sample_response ;;
       sample_preds <- process_response all_raw_response ;;
       ret {| all_preds := (all_preds acc ++ [sample_preds])%list;
              tot_tokens := (tot_tokens acc + fold_right Z.add 0 (map snd sample_response))%Z;
              tot_cost := (tot_cost acc + Qsum (map (fun x => snd (fst x)) sample_response))%Q;
              bool_pred_returned := bool_pred_returned acc |})%M
  end.

(** The body of the loop over the chunks (lines 242-275).  Each element of
    [chunk_results] is a list, hence never [None]: every candidate
    contributes a 1 to [bool_pred_returned]. *)
Definition predict_chunk (self : LLMGenerativeSM) (all_prompt_templates : list Template)
  (query_examples : list example) (acc : totals) (i : nat) : M totals :=
  let query_chunk := take 5 (drop i query_examples) in
  (chunk_results <- _generate_concurrently all_prompt_templates query_chunk ;;
   let acc :=
     {| all_preds := all_preds acc;
        tot_tokens := tot_tokens acc;
        tot_cost := tot_cost acc;
        bool_pred_returned :=
          (bool_pred_returned acc ++ map (fun _ => 1%Z) chunk_results)%list |} in
   mfold (predict_sample self) chunk_results acc)%M.

(** [_predict]: mean probabilities, success rate, total cost, total
    tokens. *)
Definition _predict (self : LLMGenerativeSM) (all_prompt_templates : list Template)
  (query_examples : list example) : M (list pyfloat * Q * Q * Z) :=
  (acc <- mfold (predict_chunk self all_prompt_templates query_examples)
                (chunk_starts (length query_examples))
                {| all_preds := []; tot_tokens := 0; tot_cost := 0;
                   bool_pred_returned := [] |} ;;
   success_rate <- lift (py_truediv (fold_right Z.add 0%Z (bool_pred_returned acc))
                                    (Z.of_nat (length (bool_pred_returned acc)))) ;;
   pred_probs <- lift (np_array (all_preds acc)) ;;
   mean_probs <- lift (np_nanmean_axis1 pred_probs) ;;
   ret (mean_probs, success_rate, tot_cost acc, tot_tokens acc))%M.

(** *** Warping, evaluation and selection

    The cells of a configuration table have type [V]; [np_log10] and
    [pow10] stand for [np.log10(x)] and [10 ** x] on a cell. *)

Context {V : Type}.
Variable np_log10 : V -> result V.
Variable pow10 : V -> result V.
Variable gen_prompt_tempates :
  list (string * constraint) -> list (row V) -> list pyfloat -> list (row V) ->
  bool -> Q -> nat -> result (list Template * list example).

(** The body of the loops of [_warp_candidate_points] and
    [_unwarp_candidate_points] over the constraints, for one record. *)
Definition transform_config (f : V -> result V)
  (hyperparameter_constraints : list (string * constraint)) (config : row V)
  : result (row V) :=
  rfold (fun config '(hyperparameter, constraint) =>
           if String.eqb (dist_type constraint) "log" then
             rbind (dict_get hyperparameter config) (fun x =>
             rbind (f x) (fun y => Ok (dict_set hyperparameter y config)))
           else Ok config)
        hyperparameter_constraints config.

Definition _warp_candidate_points (self : LLMGenerativeSM) (configurations : list (row V))
  : result (list (row V)) :=
  rmap (transform_config np_log10 (hyperparameter_constraints self)) configurations.

Definition _unwarp_candidate_points (self : LLMGenerativeSM) (configurations : list (row V))
  : result (list (row V)) :=
  rmap (transform_config pow10 (hyperparameter_constraints self)) configurations.

Definition _evaluate_candidate_points (self : LLMGenerativeSM)
  (observed_configs : list (row V)) (observed_fvals : list pyfloat)
  (candidate_configs : list (row V)) : M (list pyfloat * Q) :=
  (g <- lift (gen_prompt_tempates (hyperparameter_constraints self) observed_configs
                observed_fvals candidate_configs (lower_is_better self) (top_pct self)
                (n_templates self)) ;;
   let '(all_prompt_templates, query_examples) := g in
   _ <- emit (Print (repeat_char "*" 100)) ;;
   _ <- emit (Print ("Number of all_prompt_templates: "
                     ++ Z_to_string (Z.of_nat (length all_prompt_templates)))) ;;
   _ <- emit (Print ("Number of query_examples: "
                     ++ Z_to_string (Z.of_nat (length query_examples)))) ;;
   response <- _predict self all_prompt_templates query_examples ;;
   let '(pred_probs, success_rate, tot_cost, tot_tokens) := response in
   ret (pred_probs, (0 + tot_cost)%Q))%M.

(** [candidate_configs.iloc[[i], :]]: the frame made of row [i]. *)
Definition iloc_row {A : Type} (frame : list A) (i : nat) : result (list A) :=
  match frame !! i with
  | Some r => Ok [r]
  | None => Raise IndexError
  end.

(** [select_query_point]: the selected configuration, the raw predictions
    when asked for, and the cost. *)
Definition select_query_point (self : LLMGenerativeSM)
  (observed_configs : list (row V)) (observed_fvals : list pyfloat)
  (candidate_configs : list (row V)) (return_raw_preds : bool)
  : M (list (row V) * option (list pyfloat) * Q) :=
  (observed_configs <- lift (_warp_candidate_points self observed_configs) ;;
   candidate_configs <- lift (_warp_candidate_points self candidate_configs) ;;
   e <- _evaluate_candidate_points self observed_configs observed_fvals candidate_configs ;;
   let '(pred_probs, cost) := e in
   best_point_index <- lift (np_argmax pred_probs) ;;
   candidate_configs <- lift (_unwarp_candidate_points self candidate_configs) ;;
   best_point <- lift (iloc_row candidate_configs best_point_index) ;;
   ret (best_point, if return_raw_preds then Some pred_probs else None, cost))%M.

End Engine.

End GenerativeSM.

(** ** [sampler_base.py]: the adapter to the host framework *)

Module SamplerBase.
Import Py GenerativeSMUtils.

Inductive distribution : Type :=
| FloatDistribution (low high : Q) (log : bool)
| IntDistribution (low high : Z) (log : bool)
| CategoricalDistribution (choices : list pyval)
| OtherDistribution (type_name : string).

Inductive StudyDirection : Type := NOT_SET | MINIMIZE | MAXIMIZE.

Inductive TrialState : Type := RUNNING | COMPLETE | PRUNED | FAIL | WAITING.

Definition params : Type := list (string * pyval).

Record Study : Type := { direction : StudyDirection }.

Record FrozenTrial : Type := {
  number : Z;
  trial_params : params
}.

Record TaskContext : Type := {
  tc_custom_task_description : option string;
  tc_lower_is_better : bool;
  tc_hyperparameter_constraints : list (string * constraint)
}.

(** What the sampler asks of its collaborators, oldest first. *)
Inductive call : Type :=
| Printed (text : string)
| RandomSampleIndependent (param_name : string)
| LLAMBOCreated
| LLAMBOInitialize
| LLAMBOSampleConfigurations
| LLAMBOUpdateHistory.

Section Sampler.

(** [Rng] is the state of the [RandomSampler], [L] the state of the
    [LLAMBO] object and [Frame] the type of its observation tables. *)
Context {Rng L Frame : Type}.
Variable sample_independent : Rng -> string -> distribution -> pyval * Rng.
Variable LLAMBO : TaskContext -> string -> Z -> Z -> Z -> Q -> Z -> Z -> option Q ->
                  string -> string -> L.
Variable observed_configs : L -> Frame.
Variable observed_fvals : L -> Frame.
Variable _initialize : L -> list params -> Frame -> Frame -> L.
Variable sample_configurations : L -> params * L.
Variable update_history : L -> params -> pyfloat -> L.

(** The attributes that [__init__] copies from its arguments and that no
    method assigns afterwards. *)
Record Settings : Type := {
  debug : bool;
  custom_task_description : option string;
  n_initial_samples : Z;
  sm_mode : string;
  num_candidates : Z;
  n_templates : Z;
  n_gens : Z;
  alpha : Q;
  n_trials : Z;
  api_key : string;
  model : string
}.

(** The sampler object.  An attribute that [__init__] does not assign is
    [None] here until its first assignment; reading it before raises
    [AttributeError].  [calls] is the log of the calls made so far. *)
Record Sampler : Type := {
  settings : Settings;
  search_space : option (list (string * distribution));
  _random_sampler : Rng;
  init_observed_fvals : list params;
  init_observed_configs : list params;
  LLAMBO_instance : option L;
  lower_is_better : option bool;
  init_configs : option (list params);
  hyperparameter_constraints : option (list (string * constraint));
  calls : list call
}.

Definition set_search_space (v : list (string * distribution)) (self : Sampler) : Sampler :=
  {| settings := settings self; search_space := Some v;
     _random_sampler := _random_sampler self;
     init_observed_fvals := init_observed_fvals self;
     init_observed_configs := init_observed_configs self;
     LLAMBO_instance := LLAMBO_instance self; lower_is_better := lower_is_better self;
     init_configs := init_configs self;
     hyperparameter_constraints := hyperparameter_constraints self;
     calls := calls self |}.

Definition set_random_sampler (v : Rng) (self : Sampler) : Sampler :=
  {| settings := settings self; search_space := search_space self;
     _random_sampler := v;
     init_observed_fvals := init_observed_fvals self;
     init_observed_configs := init_observed_configs self;
     LLAMBO_instance := LLAMBO_instance self; lower_is_better := lower_is_better self;
     init_configs := init_configs self;
     hyperparameter_constraints := hyperparameter_constraints self;
     calls := calls self |}.

Definition set_LLAMBO_instance (v : L) (self : Sampler) : Sampler :=
  {| settings := settings self; search_space := search_space self;
     _random_sampler := _random_sampler self;
     init_observed_fvals := init_observed_fvals self;
     init_observed_configs := init_observed_configs self;
     LLAMBO_instance := Some v; lower_is_better := lower_is_better self;
     init_configs := init_configs self;
     hyperparameter_constraints := hyperparameter_constraints self;
     calls := calls self |}.

Definition set_lower_is_better (v : bool) (self : Sampler) : Sampler :=
  {| settings := settings self; search_space := search_space self;
     _random_sampler := _random_sampler self;
     init_observed_fvals := init_observed_fvals self;
     init_observed_configs := init_observed_configs self;
     LLAMBO_instance := LLAMBO_instance self; lower_is_better := Some v;
     init_configs := init_configs self;
     hyperparameter_constraints := hyperparameter_constraints self;
     calls := calls self |}.

Definition set_init_configs (v : list params) (self : Sampler) : Sampler :=
  {| settings := settings self; search_space := search_space self;
     _random_sampler := _random_sampler self;
     init_observed_fvals := init_observed_fvals self;
     init_observed_configs := init_observed_configs self;
     LLAMBO_instance := LLAMBO_instance self; lower_is_better := lower_is_better self;
     init_configs := Some v;
     hyperparameter_constraints := hyperparameter_constraints self;
     calls := calls self |}.

Definition set_hyperparameter_constraints (v : list (string * constraint))
  (self : Sampler) : Sampler :=
  {| settings := settings self; search_space := search_space self;
     _random_sampler := _random_sampler self;
     init_observed_fvals := init_observed_fvals self;
     init_observed_configs := init_observed_configs self;
     LLAMBO_instance := LLAMBO_instance self; lower_is_better := lower_is_better self;
     init_configs := init_configs self;
     hyperparameter_constraints := Some v;
     calls := calls self |}.

Definition log_call (c : call) (self : Sampler) : Sampler :=
  {| settings := settings self; search_space := search_space self;
     _random_sampler := _random_sampler self;
     init_observed_fvals := init_observed_fvals self;
     init_observed_configs := init_observed_configs self;
     LLAMBO_instance := LLAMBO_instance self; lower_is_better := lower_is_better self;
     init_configs := init_configs self;
     hyperparameter_constraints := hyperparameter_constraints self;
     calls := (calls self ++ [c])%list |}.

(** The monad of the methods: the object is threaded, and what a method
    assigned before raising stays assigned. *)
Definition S (A : Type) : Type := Sampler -> result A * Sampler.

Definition sret {A : Type} (a : A) : S A := fun self => (Ok a, self).

Definition sbind {A B : Type} (c : S A) (k : A -> S B) : S B :=
  fun self =>
    match c self with
    | (Ok a, self') => k a self'
    | (Raise e, self') => (Raise e, self')
    end.

Definition sraise {A : Type} (e : exn) : S A := fun self => (Raise e, self).

Definition get {A : Type} (field : Sampler -> A) : S A := fun self => (Ok (field self), self).

Definition update (f : Sampler -> Sampler) : S unit := fun self => (Ok tt, f self).

(** Reading an attribute that may not have been assigned yet, or calling a
    method on an attribute that may still be [None]; [name] is the name the
    [AttributeError] reports. *)
Definition read {A : Type} (name : string) (field : Sampler -> option A) : S A :=
  fun self =>
    match field self with
    | Some a => (Ok a, self)
    | None => (Raise (AttributeError name), self)
    end.

Declare Scope S_scope.
Delimit Scope S_scope with S.
Notation "x <- c ;; k" := (sbind c (fun x => k))
  (at level 100, c at next level, right associativity) : S_scope.

Fixpoint sfold {A B : Type} (f : B -> A -> S B) (l : list A) (acc : B) : S B :=
  match l with
  | [] => sret acc
  | x :: l' => sbind (f acc x) (sfold f l')
  end.

(** [__init__]. *)
Definition init (rng0 : Rng) (custom_task_description : option string)
  (n_initial_samples : Z) (sm_mode : string) (num_candidates n_templates n_gens : Z)
  (alpha : Q) (n_trials : Z) (api_key model : string)
  (search_space : option (list (string * distribution))) (debug : bool) : Sampler :=
  {| settings :=
       {| debug := debug; custom_task_description := custom_task_description;
          n_initial_samples := n_initial_samples; sm_mode := sm_mode;
          num_candidates := num_candidates; n_templates := n_templates;
          n_gens := n_gens; alpha := alpha; n_trials := n_trials;
          api_key := api_key; model := model |};
     search_space := search_space; _random_sampler := rng0;
     init_observed_fvals := []; init_observed_configs := [];
     LLAMBO_instance := None; lower_is_better := None; init_configs := None;
     hyperparameter_constraints := None; calls := [] |}.

(** The constraint entry of one distribution (the branches of the loop of
    [_initialize_llambo]). *)
Definition constraint_of (param_name : string) (d : distribution) : result constraint :=
  match d with
  | FloatDistribution low high log =>
      Ok {| dtype := "float"; dist_type := if log then "log" else "linear";
            bounds := [VFloat (Fin low); VFloat (Fin high)] |}
  | IntDistribution low high log =>
      Ok {| dtype := "int"; dist_type := if log then "log" else "linear";
            bounds := [VInt low; VInt high] |}
  | CategoricalDistribution choices =>
      Ok {| dtype := "categorical"; dist_type := "categorical"; bounds := choices |}
  | OtherDistribution type_name =>
      Raise (ValueError ("Unsupported distribution type " ++ type_name
                         ++ " for parameter " ++ param_name))
  end.

(** [_initialize_llambo]: the constraint dictionary is assigned empty and
    filled entry by entry, then the [LLAMBO] object is built. *)
Definition _initialize_llambo (search_space : list (string * distribution)) : S unit :=
  (_ <- update (set_hyperparameter_constraints []) ;;
   _ <- sfold (fun _ '(param_name, d) =>
                 match constraint_of param_name d with
                 | Ok c =>
                     cs <- read "hyperparameter_constraints" hyperparameter_constraints ;;
                     update (set_hyperparameter_constraints (dict_set param_name c cs))
                 | Raise e => sraise e
                 end)
              search_space tt ;;
   _ <- update (log_call (Printed "Hyperparameter constraints")) ;;
   lib <- read "lower_is_better" lower_is_better ;;
   cs <- read "hyperparameter_constraints" hyperparameter_constraints ;;
   st <- get settings ;;
   let task_context :=
     {| tc_custom_task_description := custom_task_description st;
        tc_lower_is_better := lib;
        tc_hyperparameter_constraints := cs |} in
   let top_pct := if String.eqb (sm_mode st) "generative" then Some (1 # 4) else None in
   _ <- update (log_call LLAMBOCreated) ;;
   update (set_LLAMBO_instance
             (LLAMBO task_context (sm_mode st) (num_candidates st) (n_templates st)
                     (n_gens st) (alpha st) (n_initial_samples st) (n_trials st)
                     top_pct (api_key st) (model st))))%S.

(** [_sample_parameters]. *)
Definition _sample_parameters : S params :=
  (l <- read "sample_configurations" LLAMBO_instance ;;
   _ <- update (log_call LLAMBOSampleConfigurations) ;;
   let '(sampled_configuration, l') := sample_configurations l in
   _ <- update (set_LLAMBO_instance l') ;;
   sret sampled_configuration)%S.

(** [self._random_sampler.sample_independent(None, None, param_name,
    distribution)].  The [RandomSampler] of optuna transforms the
    one-parameter search space before it draws; the transform knows the
    float, int and categorical distributions and fails its assertion on
    any other.  [sample_independent] is the draw on the distributions it
    knows. *)
Definition random_sampler_sample_independent (rng : Rng) (param_name : string)
  (d : distribution) : result (pyval * Rng) :=
  match d with
  | OtherDistribution _ =>
      Raise (AssertionError "Should not reach. Unexpected distribution.")
  | _ => Ok (sample_independent rng param_name d)
  end.

(** One sample of [generate_random_samples]: a draw per parameter. *)
Definition random_sample (search_space : list (string * distribution)) : S params :=
  sfold (fun (ps : params) '(param_name, d) =>
           (rng <- get _random_sampler ;;
            _ <- update (log_call (RandomSampleIndependent param_name)) ;;
            match random_sampler_sample_independent rng param_name d with
            | Ok (v, rng') =>
                _ <- update (set_random_sampler rng') ;;
                sret (dict_set param_name v ps)
            | Raise e => sraise e
            end)%S)
        search_space [].

(** [generate_random_samples]. *)
Definition generate_random_samples (search_space : list (string * distribution))
  (num_samples : Z) : S (list params) :=
  sfold (fun samples _ =>
           (ps <- random_sample search_space ;;
            sret (samples ++ [ps])%list)%S)
        (seq 0 (Z.to_nat num_samples)) [].

(** [sample_relative]. *)
Definition sample_relative (study : Study) (trial : FrozenTrial)
  (space : list (string * distribution)) : S params :=
  if (length space =? 0)%nat then sret []
  else
    (_ <- update (set_search_space space) ;;
     st <- get settings ;;
     if (number trial <=? n_initial_samples st)%Z then
       _ <- (if (number trial =? 1)%Z then
               _ <- update (set_lower_is_better
                              match direction study with
                              | MINIMIZE => true
                              | _ => false
                              end) ;;
               samples <- generate_random_samples space (n_initial_samples st) ;;
               _ <- update (set_init_configs samples) ;;
               _initialize_llambo space
             else sret tt) ;;
       configs <- read "init_configs" init_configs ;;
       fun self => (py_index configs (number trial - 1), self)
     else
       _ <- (if (number trial =? n_initial_samples st + 1)%Z then
               l <- read "_initialize" LLAMBO_instance ;;
               configs <- read "init_configs" init_configs ;;
               _ <- update (log_call LLAMBOInitialize) ;;
               update (set_LLAMBO_instance
                         (_initialize l configs (observed_configs l) (observed_fvals l)))
             else sret tt) ;;
       _sample_parameters)%S.

(** [after_trial]. *)
Definition after_trial (study : Study) (trial : FrozenTrial) (state : TrialState)
  (values : option (list pyfloat)) : S unit :=
  fun self =>
    match LLAMBO_instance self, state, values with
    | Some l, COMPLETE, Some vs =>
        match py_index vs 0 with
        | Ok v =>
            (Ok tt,
             set_LLAMBO_instance (update_history l (trial_params trial) v)
               (log_call LLAMBOUpdateHistory self))
        | Raise e => (Raise e, self)
        end
    | _, _, _ => (Ok tt, self)
    end.

(** *** The host's protocol

    The host asks for the parameters of a trial with [sample_relative],
    evaluates the objective and reports the outcome with [after_trial]. *)

Record outcome : Type := {
  o_state : TrialState;
  o_values : option (list pyfloat)
}.

(** One trial: the parameters returned and the calls that [sample_relative]
    made for it. *)
Definition run_trial (study : Study) (space : list (string * distribution))
  (n : Z) (o : outcome) : S (params * list call) :=
  (before <- get calls ;;
   p <- sample_relative study {| number := n; trial_params := [] |} space ;;
   after <- get calls ;;
   _ <- after_trial study {| number := n; trial_params := p |} (o_state o) (o_values o) ;;
   sret (p, drop (length before) after))%S.

(** Consecutive trials, numbered from [first]. *)
Fixpoint run_trials (study : Study) (space : list (string * distribution))
  (first : Z) (outcomes : list outcome) : S (list (params * list call)) :=
  match outcomes with
  | [] => sret []
  | o :: outcomes' =>
      (a <- run_trial study space first o ;;
       rest <- run_trials study space (first + 1) outcomes' ;;
       sret (a :: rest))%S
  end.

End Sampler.

End SamplerBase.

(** ** Concrete collaborators

    Instances of the parameters of the engine, used to run the definitions
    on explicit inputs. *)

Module Scenario.
Import Py GenerativeSMUtils GenerativeSM.

(** A template is its text; formatting appends the query. *)
Definition format_text (template : string) (q : string) : string := template ++ q.

(** A client that answers from a table keyed by the prompt, at no cost. *)
Definition scripted_ask (table : list (string * pyval)) (h : history)
  (message : list (string * string)) : pyval * Q :=
  match dict_get "user" message with
  | Ok prompt =>
      match dict_get prompt table with
      | Ok resp => (resp, 0%Q)
      | Raise _ => (VNone, 0%Q)
      end
  | Raise _ => (VNone, 0%Q)
  end.

(** A client that gives one reply to every query, at no cost. *)
Definition constant_ask (resp : pyval) (h : history) (message : list (string * string))
  : pyval * Q := (resp, 0%Q).

(** An event loop that finishes the most recently created task first. *)
Definition last_first (h : history) (pending : nat) : nat := (pending - 1)%nat.

(** An event loop that finishes the oldest task first. *)
Definition first_first (h : history) (pending : nat) : nat := 0%nat.

(** Cells on which no logarithm is ever taken. *)
Definition no_log (v : pyval) : result pyval :=
  Raise (TypeError "log10 is not represented on these cells").

Definition x_constraints : list (string * constraint) :=
  [("x", {| dtype := "float"; dist_type := "linear";
            bounds := [VFloat (Fin 0); VFloat (Fin 10)] |})].


Definition surrogate (n_templates : nat) : LLMGenerativeSM :=
  init x_constraints 3 true (1 # 2) n_templates None false.

(** Three candidates; the reply for the second one has no number in it. *)
Definition three_candidates : list (row pyval) :=
  [[("x", VFloat (Fin (1 # 2)))]; [("x", VFloat (Fin (3 # 2)))]; [("x", VFloat (Fin (5 # 2)))]].

Definition three_replies : list (string * pyval) :=
  [("Classify x: 0.5000", VStr "## 0.5 ##");
   ("Classify x: 1.5000", VStr "I cannot tell");
   ("Classify x: 2.5000", VStr "## 0.9 ##")].

(** Cells that hold real numbers: the logarithm in base ten and its
    inverse, exact.  (On a cell that is not positive numpy gives [-inf] or
    NaN; the function below is only meant for positive cells.) *)
Definition real_log10 (x : R) : result R := Ok (ln x / ln 10)%R.

Definition real_pow10 (y : R) : result R := Ok (Rpower 10 y)%R.

(** Two real cells within a relative tolerance of [1e-9]. *)
Definition real_close (z x : R) : Prop := (Rabs (z - x) <= / 1000000000 * Rabs x)%R.

(** A random sampler whose state is a counter: a draw picks a value of
    the distribution by the counter and advances it. *)
Definition counting_draw (rng : nat) (param_name : string) (d : SamplerBase.distribution)
  : pyval * nat :=
  (match d with
   | SamplerBase.FloatDistribution low high _ =>
       VFloat (Fin (Qred (low + (high - low) * (inject_Z (Z.of_nat (rng mod 4)) / 4))))
   | SamplerBase.IntDistribution low high _ =>
       VInt (low + Z.of_nat rng mod (high - low + 1))
   | SamplerBase.CategoricalDistribution choices =>
       nth (rng mod length choices) choices VNone
   | SamplerBase.OtherDistribution _ => VNone
   end,
   S rng).

(** A surrogate that only records: its state is the list of the
    configurations it was given, and it proposes their number. *)
Definition recorder_new (tc : SamplerBase.TaskContext) (sm_mode : string)
  (n_candidates n_templates n_gens : Z) (alpha : Q) (n_initial_samples n_trials : Z)
  (top_pct : option Q) (key model : string) : list SamplerBase.params := [].

Definition recorder_frame (l : list SamplerBase.params) : unit := tt.

Definition recorder_initialize (l : list SamplerBase.params)
  (init_configs : list SamplerBase.params) (observed_configs observed_fvals : unit)
  : list SamplerBase.params := (l ++ init_configs)%list.

Definition recorder_sample (l : list SamplerBase.params)
  : SamplerBase.params * list SamplerBase.params :=
  ([("x", VInt (Z.of_nat (length l)))], l).

Definition recorder_update (l : list SamplerBase.params) (p : SamplerBase.params)
  (value : pyfloat) : list SamplerBase.params := (l ++ [p])%list.

Definition x_space : list (string * SamplerBase.distribution) :=
  [("x", SamplerBase.FloatDistribution 0 10 false)].

(** A sampler as [__init__] leaves it, with [n_initial_samples] given and
    the other arguments at their defaults; [search_space] is the argument
    of that name. *)
Definition fresh_sampler (n_initial_samples : Z)
  (search_space : option (list (string * SamplerBase.distribution)))
  : @SamplerBase.Sampler nat (list SamplerBase.params) :=
  SamplerBase.init 0%nat None n_initial_samples "discriminative" 10 2 10 (1 # 10) 100
                   "" "gpt-4o-mini" search_space false.

Definition completed (v : Q) : SamplerBase.outcome :=
  {| SamplerBase.o_state := SamplerBase.COMPLETE; SamplerBase.o_values := Some [Fin v] |}.

End Scenario.

(** ** Vocabulary of the statements *)

Module Statements.
Import Py GenerativeSMUtils GenerativeSM.

(** The value [process_response] appends for one raw response, apart from
    what it prints. *)
Definition parse_reply (raw_response : pyval) : result pyfloat :=
  match raw_response with
  | VStr s =>
      match re_findall s with
      | [gen_pred] => py_float gen_pred
      | _ => Ok NaN
      end
  | _ => Ok NaN
  end.

(** The raw text [_predict] keeps for a reply. *)
Definition raw_value (llm_response : pyval) : pyval :=
  match llm_response with
  | VStr s => VStr s
  | _ => VFloat NaN
  end.

(** Every query is sent after an acquisition of its own: [permits] counts
    the acquisitions not yet used by a query. *)
Fixpoint acquired_before_each_query (permits : nat) (h : history) : bool :=
  match h with
  | [] => true
  | Print _ :: h' => acquired_before_each_query permits h'
  | RateLimiterAcquire _ :: h' => acquired_before_each_query (S permits) h'
  | OpenAIAsk _ :: h' =>
      match permits with
      | O => false
      | S p => acquired_before_each_query p h'
      end
  end.


(** The body of the loop that files the responses of the queries
    (lines 169-172 of [generative_sm.py]). *)
Definition file_response (results : list (list (pyval * Q * Z)))
  (response : nat * pyval * Q * Z) : result (list (list (pyval * Q * Z))) :=
  let '(query_idx, resp, tot_cost, tot_tokens) := response in
  append_at results query_idx (resp, tot_cost, tot_tokens).

(** [x] is a result of the task, run at some moment. *)
Definition result_of {X : Type} (task : M X) (x : X) : Prop :=
  exists h, (task h).1 = Ok x.

Section Estimates.

Context {Template : Type}.
Variable template_format : Template -> string -> string.
Variable ask : history -> list (string * string) -> pyval * Q.

(** [entry] is what the engine records for the query built from template
    [t] and candidate [q]: the reply and cost the client gave for these
    messages at some moment, and the token count. *)
Definition answers (q : example) (t : Template) (entry : pyval * Q * Z) : Prop :=
  exists h,
    entry = ((ask h (build_message template_format t q)).1,
             (ask h (build_message template_format t q)).2, 1000%Z).

(** The predictions [_predict] derives from the entries of one candidate:
    [n_gens] NaN when there is no entry, one value per entry otherwise. *)
Definition predictions_of (n_gens : nat) (entries : list (pyval * Q * Z))
  (preds : list pyfloat) : Prop :=
  match entries with
  | [] => preds = replicate n_gens NaN
  | _ => Forall2 (fun e y => parse_reply (raw_value e.1.1) = Ok y) entries preds
  end.

(** [preds] are the predictions of candidate [q]: those derived from the
    replies to the queries about [q], one per template, in template
    order. *)
Definition sample_preds_of (n_gens : nat) (templates : list Template) (q : example)
  (preds : list pyfloat) : Prop :=
  exists entries,
    Forall2 (answers q) templates entries /\
    predictions_of n_gens entries preds.

(** [p] is the probability estimate of candidate [q]: the NaN-ignoring mean
    of its predictions. *)
Definition estimate_of (n_gens : nat) (templates : list Template) (q : example)
  (p : pyfloat) : Prop :=
  exists preds, sample_preds_of n_gens templates q preds /\ p = np_nanmean preds.

(** No reply of the client makes [float] raise. *)
Definition never_malformed : Prop :=
  forall h m, exists y, parse_reply (raw_value (ask h m).1) = Ok y.

End Estimates.

(** *** Warping *)

(** The hyperparameter [k] is flagged log-scale in the constraint set. *)
Definition log_scaled (hyperparameter_constraints : list (string * constraint))
  (k : string) : bool :=
  existsb (fun nc => String.eqb nc.1 k && String.eqb (dist_type nc.2) "log")
          hyperparameter_constraints.

(** The fields that are not log-scaled are the same in both records. *)
Definition same_linear_fields {V : Type}
  (hyperparameter_constraints : list (string * constraint)) (config config' : row V)
  : Prop :=
  forall k, log_scaled hyperparameter_constraints k = false ->
            dict_get k config' = dict_get k config.

(** [config'] is [config] with [f] applied to its log-scaled fields: the
    columns are the same, a log-scaled field holds the image of its value
    and every other field its value. *)
Definition log_fields_mapped {V : Type} (f : V -> result V)
  (hyperparameter_constraints : list (string * constraint)) (config config' : row V)
  : Prop :=
  map fst config' = map fst config /\
  forall k x, dict_get k config = Ok x ->
    if log_scaled hyperparameter_constraints k
    then exists y, f x = Ok y /\ dict_get k config' = Ok y
    else dict_get k config' = Ok x.

(** [config'] is [config] up to [close] on the log-scaled fields: the
    columns are the same, a log-scaled field is close to its value in
    [config] and every other field is equal to it. *)
Definition same_within {V : Type} (close : V -> V -> Prop)
  (hyperparameter_constraints : list (string * constraint)) (config config' : row V)
  : Prop :=
  map fst config' = map fst config /\
  forall k x, dict_get k config = Ok x ->
    exists z, dict_get k config' = Ok z /\
              if log_scaled hyperparameter_constraints k then close z x else z = x.

(** *** Serialization *)


(** *** The sampler *)

(** A call of the surrogate's sampling path. *)
Definition is_surrogate_call (c : SamplerBase.call) : bool :=
  match c with
  | SamplerBase.LLAMBOInitialize | SamplerBase.LLAMBOSampleConfigurations => true
  | _ => false
  end.

(** A draw of the random sampler. *)
Definition is_random_draw (c : SamplerBase.call) : bool :=
  match c with
  | SamplerBase.RandomSampleIndependent _ => true
  | _ => false
  end.

(** No call of the surrogate's sampling path among [cs]. *)
Definition surrogate_free (cs : list SamplerBase.call) : Prop :=
  forallb (fun c => negb (is_surrogate_call c)) cs = true.

(** The distribution is one [_initialize_llambo] knows. *)
Definition supported (d : SamplerBase.distribution) : bool :=
  match d with
  | SamplerBase.OtherDistribution _ => false
  | _ => true
  end.

(** An outcome the host can report: a completed trial has a value. *)
Definition reportable (o : SamplerBase.outcome) : bool :=
  match SamplerBase.o_state o, SamplerBase.o_values o with
  | SamplerBase.COMPLETE, Some [] => false
  | _, _ => true
  end.

Section SamplerStatements.

Context {Rng L : Type}.

(** [s'] has the attributes of [s], apart from the random state and the
    log of calls. *)
Definition same_attributes (s s' : @SamplerBase.Sampler Rng L) : Prop :=
  SamplerBase.settings s' = SamplerBase.settings s /\
  SamplerBase.search_space s' = SamplerBase.search_space s /\
  SamplerBase.init_observed_fvals s' = SamplerBase.init_observed_fvals s /\
  SamplerBase.init_observed_configs s' = SamplerBase.init_observed_configs s /\
  SamplerBase.LLAMBO_instance s' = SamplerBase.LLAMBO_instance s /\
  SamplerBase.lower_is_better s' = SamplerBase.lower_is_better s /\
  SamplerBase.init_configs s' = SamplerBase.init_configs s /\
  SamplerBase.hyperparameter_constraints s' = SamplerBase.hyperparameter_constraints s.

(** What random draws leave behind: the attributes are the same and the
    log has grown by draws only. *)
Definition drew (s s' : @SamplerBase.Sampler Rng L) : Prop :=
  same_attributes s s' /\
  exists cs, SamplerBase.calls s' = (SamplerBase.calls s ++ cs)%list /\
             forallb is_random_draw cs = true.

(** The state of the sampler once trial 1 has been answered: the pool of
    [N] random configurations is stored and the surrogate exists. *)
Definition warmed_up (N : Z) (pool : list SamplerBase.params)
  (s : @SamplerBase.Sampler Rng L) : Prop :=
  SamplerBase.n_initial_samples (SamplerBase.settings s) = N /\
  SamplerBase.init_configs s = Some pool /\
  length pool = Z.to_nat N /\
  is_Some (SamplerBase.LLAMBO_instance s).

End SamplerStatements.

End Statements.

(** ** What a run leaves in the history *)

Module Observations.
Import Py GenerativeSMUtils GenerativeSM.

Definition is_print (e : event) : bool :=
  match e with Print _ => true | _ => false end.

(** The messages sent to the client, oldest first. *)
Fixpoint asked (h : history) : list (list (string * string)) :=
  match h with
  | [] => []
  | OpenAIAsk m :: h' => m :: asked h'
  | _ :: h' => asked h'
  end.

(** A text without the character [#]. *)
Definition hash_free (s : string) : bool :=
  all_chars (fun c => negb (Ascii.eqb c "#")) s.

(** A text the pattern of [process_response] captures: an optional minus
    sign, then one or more digits and dots. *)
Definition is_token (tok : string) : bool :=
  match tok with
  | String "-" run => negb (String.eqb run "") && all_chars is_token_char run
  | _ => negb (String.eqb tok "") && all_chars is_token_char tok
  end.

(** What [np.argmax] selects in a vector: the first NaN when there is
    one, the first position of the largest value otherwise. *)
Definition first_best (pred_probs : list pyfloat) (i : nat) : Prop :=
  match pred_probs !! i with
  | Some NaN => forall j, (j < i)%nat -> pred_probs !! j <> Some NaN
  | Some (Fin best) =>
      forall j y, pred_probs !! j = Some y ->
        exists v, y = Fin v /\ (v <= best)%Q /\ ((j < i)%nat -> (v < best)%Q)
  | None => False
  end.

Section Messages.

Context {Template : Type}.
Variable template_format : Template -> string -> string.

(** The messages of the queries about one candidate, one per template. *)
Definition messages_for (templates : list Template) (q : example)
  : list (list (string * string)) :=
  map (fun t => build_message template_format t q) templates.

(** The messages of the queries about the candidates: one per pair of a
    candidate and a template. *)
Definition all_messages (templates : list Template) (query_examples : list example)
  : list (list (string * string)) :=
  flat_map (messages_for templates) query_examples.

End Messages.

End Observations.

(** ** What the sampler reports to the surrogate *)

Module Reports.
Import Py GenerativeSMUtils SamplerBase.

(** A call of the surrogate's [update_history]. *)
Definition is_update (c : call) : bool :=
  match c with LLAMBOUpdateHistory => true | _ => false end.

(** The outcome of a completed trial that comes with a value. *)
Definition completed_with_value (o : outcome) : bool :=
  match o_state o, o_values o with
  | COMPLETE, Some (_ :: _) => true
  | _, _ => false
  end.

Definition update_count (cs : list call) : nat := length (List.filter is_update cs).

Definition completed_count (outcomes : list outcome) : nat :=
  length (List.filter completed_with_value outcomes).

(** The flag [log] of a distribution; a categorical one has none. *)
Definition log_flag (d : distribution) : bool :=
  match d with
  | FloatDistribution _ _ log | IntDistribution _ _ log => log
  | _ => false
  end.

End Reports.

(** ** [generative_sm_utils.py]: the prompt templates *)

Module Prompts.
Import Py GenerativeSMUtils.

(** The prompt templates of [langchain], as the records of the arguments
    they are built from; rendering them is [langchain]'s business. *)
Record PromptTemplate : Type := {
  pt_input_variables : list string;
  pt_template : string
}.

Record FewShotPromptTemplate : Type := {
  examples : list example;
  example_prompt : PromptTemplate;
  prefix : string;
  suffix : string;
  input_variables : list string;
  example_separator : string
}.

(** The keys of the dictionary [task_context] that [gen_prompt_tempates]
    reads; [None] stands for an absent key (for
    [custom_task_description], read with [get], also for the value
    [None]). *)
Record task_context : Type := {
  metric : option string;
  custom_task_description : option string;
  hyperparameter_constraints : option (list (string * constraint))
}.

Definition newline : string := String "010"%char EmptyString.

Definition example_template : string :=
  newline ++ "Hyperparameter configuration: {Q}" ++ newline ++ "Classification: {A}".

Definition suffix_template : string :=
  newline ++ "Hyperparameter configuration: {Q}" ++ newline ++ "Classification: ".

(** The prefix of a template; [top_pct * 100] is written as [str] writes
    the float product. *)
Definition prefix_text (description : option string) (top_pct : Q) : string :=
  let prefix :=
    "The following are examples of hyperparameter configurations for a black-box optimization task. " in
  let prefix :=
    match description with
    | Some text => prefix ++ "Below is a description of the task:" ++ newline ++ text ++ newline
    | None => prefix
    end in
  let prefix :=
    prefix ++ " The performance classification is 1 if the configuration is in the best-performing "
           ++ float_repr (Fin (float_mul top_pct 100))
           ++ "% of all configurations and 0 otherwise. " in
  prefix ++ " Your response should only contain the predicted performance classification in the format ## performance classification ##.".

Definition lookup_constraints (tc : task_context) : result (list (string * constraint)) :=
  match hyperparameter_constraints tc with
  | Some cs => Ok cs
  | None => Raise (KeyError "hyperparameter_constraints")
  end.

(** [gen_prompt_tempates]: one template per seed [0 .. n_prompts - 1],
    each with the observed rows shuffled by its seed; the candidates are
    serialized in their own order, without label.  The metric must be
    there; its value is renamed and not used afterwards. *)
Definition gen_prompt_tempates (permutation : nat -> list nat -> list nat)
  (tc : task_context) (observed_configs : list (row pyval))
  (observed_fvals : option (list pyfloat)) (candidate_configs : list (row pyval))
  (lower_is_better : bool) (top_pct : Q) (n_prompts : nat)
  : result (list FewShotPromptTemplate * list example) :=
  match metric tc with
  | None => Raise (KeyError "metric")
  | Some _ =>
      let description := custom_task_description tc in
      rbind (rmap (fun i =>
                     rbind (lookup_constraints tc) (fun cs =>
                     rbind (prepare_configurations permutation cs lower_is_better top_pct
                              observed_configs observed_fvals (Some i))
                       (fun few_shot_examples =>
                          Ok {| examples := few_shot_examples;
                                example_prompt :=
                                  {| pt_input_variables := ["Q"; "A"];
                                     pt_template := example_template |};
                                prefix := prefix_text description top_pct;
                                suffix := suffix_template;
                                input_variables := ["Q"];
                                example_separator := "" |})))
                  (seq 0 n_prompts))
        (fun all_prompt_templates =>
      rbind (lookup_constraints tc) (fun cs =>
      rbind (prepare_configurations permutation cs lower_is_better top_pct
               candidate_configs None None)
        (fun query_examples => Ok (all_prompt_templates, query_examples))))
  end.

(** The list [l] read at the positions [positions], in their order. *)
Definition taken_at {A : Type} (l : list A) (positions : list nat) : list A :=
  omap (fun i => l !! i) positions.

(** The prompts of [gen_prompt_tempates] for a surrogate whose task
    context has the given metric and description. *)
Definition prompts_for (permutation : nat -> list nat -> list nat)
  (metric_name : option string) (description : option string)
  (cs : list (string * constraint)) (observed_configs : list (row pyval))
  (observed_fvals : list pyfloat) (candidate_configs : list (row pyval))
  (lower_is_better : bool) (top_pct : Q) (n_prompts : nat)
  : result (list FewShotPromptTemplate * list example) :=
  gen_prompt_tempates permutation
    {| metric := metric_name; custom_task_description := description;
       hyperparameter_constraints := Some cs |}
    observed_configs (Some observed_fvals) candidate_configs lower_is_better top_pct n_prompts.

End Prompts.

(** ** A concrete round with prompt templates *)

Module PromptScenario.
Import Py GenerativeSMUtils GenerativeSM Prompts Scenario.

(** A rendering of a template that writes its prefix, its suffix and the
    query. *)
Definition plain_format (t : FewShotPromptTemplate) (q : string) : string :=
  prefix t ++ suffix t ++ q.

(** A shuffle that reverses the rows, whatever the seed. *)
Definition reversed (seed : nat) (index : list nat) : list nat := rev index.

Definition two_observed : list (row pyval) :=
  [[("x", VFloat (Fin (1 # 2)))]; [("x", VFloat (Fin (7 # 2)))]].

Definition two_fvals : list pyfloat := [Fin 3; Fin 1].

(** Whether [s] ends with [ending]. *)
Fixpoint ends_with (ending s : string) : bool :=
  String.eqb ending s
  || match s with
     | EmptyString => false
     | String _ s' => ends_with ending s'
     end.

(** A client that answers from a table keyed by the configuration a
    prompt ends with, at no cost. *)
Definition answer_by_query (table : list (string * pyval)) (h : history)
  (message : list (string * string)) : pyval * Q :=
  match dict_get "user" message with
  | Ok prompt =>
      match List.find (fun entry : string * pyval => ends_with entry.1 prompt) table with
      | Some entry => (entry.2, 0%Q)
      | None => (VNone, 0%Q)
      end
  | Raise _ => (VNone, 0%Q)
  end.

(** The replies for [three_candidates]; the reply for the second one has
    no number in it. *)
Definition three_answers : list (string * pyval) :=
  [("x: 0.5000", VStr "## 0.5 ##");
   ("x: 1.5000", VStr "I cannot tell");
   ("x: 2.5000", VStr "## 0.9 ##")].

End PromptScenario.

(** * Properties *)

(** ** The error monad and the monad of the engine *)

Module MonadFacts.
Import Py GenerativeSM.

Lemma Forall2_map_l {A B C : Type} (P : B -> C -> Prop) (f : A -> B) (l : list A)
  (k : list C) :
  Forall2 P (map f l) k <-> Forall2 (fun x => P (f x)) l k.
Proof. change (map f l) with (f <$> l). apply Forall2_fmap_l. Qed.

Lemma Forall2_map_r {A B C : Type} (P : A -> C -> Prop) (f : B -> C) (l : list A)
  (k : list B) :
  Forall2 P l (map f k) <-> Forall2 (fun x y => P x (f y)) l k.
Proof. change (map f k) with (f <$> k). apply Forall2_fmap_r. Qed.

Lemma rfold_app {A B : Type} (f : B -> A -> result B) (l1 l2 : list A) (acc : B) :
  rfold f (l1 ++ l2)%list acc = rbind (rfold f l1 acc) (rfold f l2).
Proof.
  revert acc. induction l1 as [|x l1 IH]; intros acc; simpl; [reflexivity|].
  destruct (f acc x) as [b|e]; simpl; [apply IH | reflexivity].
Qed.

Lemma rmap_length {A B : Type} (f : A -> result B) (l : list A) (ys : list B) :
  rmap f l = Ok ys -> length ys = length l.
Proof.
  revert ys. induction l as [|x l IH]; intros ys; simpl.
  - intros [= <-]. reflexivity.
  - destruct (f x) as [y|e]; simpl; [|discriminate].
    destruct (rmap f l) as [ys'|e]; simpl; [|discriminate].
    intros [= <-]. simpl. f_equal. apply IH. reflexivity.
Qed.


(** A map that succeeds has succeeded on every element. *)
Lemma rmap_Ok_Forall2 {A B : Type} (f : A -> result B) (l : list A) (ys : list B) :
  rmap f l = Ok ys -> Forall2 (fun x y => f x = Ok y) l ys.
Proof.
  revert ys. induction l as [|x l IH]; intros ys; simpl.
  - intros [= <-]. constructor.
  - destruct (f x) as [y|e] eqn:E; simpl; [|discriminate].
    destruct (rmap f l) as [ys'|e]; simpl; [|discriminate].
    intros [= <-]. constructor; [assumption | apply IH; reflexivity].
Qed.

(** A loop in [M] whose body keeps an invariant indexed by the number of
    iterations done. *)
Lemma mfold_invariant {A B : Type} (I : nat -> B -> Prop) (f : B -> A -> M B)
  (l : list A) :
  (forall i x acc h, l !! i = Some x -> I i acc ->
     exists acc' h', f acc x h = (Ok acc', h') /\ I (S i) acc') ->
  forall acc h, I 0%nat acc ->
  exists acc' h', mfold f l acc h = (Ok acc', h') /\ I (length l) acc'.
Proof.
  revert I. induction l as [|x l IH]; intros I Hstep acc h H0; simpl.
  - exists acc, h. split; [reflexivity | assumption].
  - destruct (Hstep 0%nat x acc h eq_refl H0) as (acc1 & h1 & E1 & I1).
    unfold bind. rewrite E1.
    apply (IH (fun i => I (S i))); [|assumption].
    intros i y a hh Hl Hi. apply (Hstep (S i) y a hh Hl Hi).
Qed.

(** A map in [M] whose body succeeds on every element. *)
Lemma mmap_Forall2 {A B : Type} (f : A -> M B) (P : A -> B -> Prop) (l : list A) :
  (forall x h, x ∈ l -> exists y h', f x h = (Ok y, h') /\ P x y) ->
  forall h, exists ys h', mmap f l h = (Ok ys, h') /\ Forall2 P l ys.
Proof.
  induction l as [|x l IH]; intros Hf h; simpl.
  - exists [], h. split; [reflexivity | constructor].
  - destruct (Hf x h) as (y & h1 & E1 & P1); [left|].
    destruct (IH (fun z hh Hz => Hf z hh (list_elem_of_further _ _ _ Hz)) h1)
      as (ys & h2 & E2 & P2).
    exists (y :: ys), h2. unfold bind. rewrite E1, E2. split; [reflexivity | by constructor].
Qed.

(** The same two facts for a loop and a map that are known to have
    succeeded. *)
Lemma mfold_Ok_invariant {A B : Type} (I : nat -> B -> Prop) (f : B -> A -> M B)
  (l : list A) :
  (forall i x acc h acc' h', l !! i = Some x -> I i acc ->
     f acc x h = (Ok acc', h') -> I (S i) acc') ->
  forall acc h acc' h', I 0%nat acc ->
  mfold f l acc h = (Ok acc', h') -> I (length l) acc'.
Proof.
  revert I. induction l as [|x l IH]; intros I Hstep acc h acc' h' H0 E; simpl in *.
  - injection E as <- _. assumption.
  - unfold bind in E. destruct (f acc x h) as [[acc1|e] h1] eqn:E1; [|discriminate].
    apply (IH (fun i => I (S i))) with (acc := acc1) (h := h1) (h' := h'); [| |assumption].
    + intros i y a hh a' hh' Hl Hi. apply (Hstep (S i) y a hh a' hh' Hl Hi).
    + apply (Hstep 0%nat x acc h acc1 h1 eq_refl H0 E1).
Qed.

Lemma mmap_Ok_Forall2 {A B : Type} (f : A -> M B) (P : A -> B -> Prop) (l : list A) :
  (forall x h y h', f x h = (Ok y, h') -> P x y) ->
  forall h ys h', mmap f l h = (Ok ys, h') -> Forall2 P l ys.
Proof.
  intros Hf. induction l as [|x l IH]; intros h ys h' E; simpl in E.
  - injection E as <- _. constructor.
  - unfold bind in E. destruct (f x h) as [[y|e] h1] eqn:E1; [|discriminate].
    destruct (mmap f l h1) as [[ys'|e] h2] eqn:E2; [|discriminate].
    injection E as <- _. constructor; [apply (Hf x h y h1 E1) | apply (IH h1 ys' h2 E2)].
Qed.

End MonadFacts.

(** ** [process_response] *)

Module ResponseFacts.
Import Py GenerativeSM Statements MonadFacts.

(** What one raw response contributes does not depend on the history. *)
Lemma process_one_value (raw_response : pyval) (h : history) :
  (process_one raw_response h).1 = parse_reply raw_response.
Proof.
  destruct raw_response as [|z|f|s]; try reflexivity.
  unfold process_one, parse_reply.
  destruct (re_findall s) as [|tok [|tok' rest]]; reflexivity.
Qed.

(** A response that is not a string contributes NaN. *)
Lemma parse_reply_not_a_string (raw_response : pyval) :
  (forall s, raw_response <> VStr s) -> parse_reply raw_response = Ok NaN.
Proof. destruct raw_response; intros H; try reflexivity. destruct (H s eq_refl). Qed.

(** A string with no match or with several contributes NaN. *)
Lemma parse_reply_no_single_match (s : string) :
  length (re_findall s) <> 1%nat -> parse_reply (VStr s) = Ok NaN.
Proof.
  unfold parse_reply. destruct (re_findall s) as [|tok [|tok' rest]]; simpl; intros H;
    try reflexivity. destruct H. reflexivity.
Qed.

(** A string with exactly one match contributes what [float] makes of the
    captured text. *)
Lemma parse_reply_single_match (s tok : string) :
  re_findall s = [tok] -> parse_reply (VStr s) = py_float tok.
Proof. unfold parse_reply. intros ->. reflexivity. Qed.

(** When no response makes [float] raise, there is one value per
    response. *)
Lemma process_response_total (all_raw_response : list pyval) (h : history) :
  Forall (fun raw => exists y, parse_reply raw = Ok y) all_raw_response ->
  exists ys h', process_response all_raw_response h = (Ok ys, h') /\
    Forall2 (fun raw y => parse_reply raw = Ok y) all_raw_response ys.
Proof.
  intros Hall. apply mmap_Forall2. intros x hx Hx.
  rewrite Forall_forall in Hall. destruct (Hall x Hx) as (y & Hy).
  exists y, (process_one x hx).2. split; [|assumption].
  rewrite <- Hy, <- (process_one_value x hx). destruct (process_one x hx); reflexivity.
Qed.

(** C4. [process_response] raises on a response whose single delimited
    token is not a number: for ["## 1.2.3 ##"] the pattern captures
    ["1.2.3"] and [float] raises [ValueError], which nothing catches. *)
Theorem process_response_raises_on_malformed_number (h : history) :
  process_response [VStr "## 1.2.3 ##"] h
  = (Raise (ValueError "could not convert string to float: '1.2.3'"), h).
Proof. reflexivity. Qed.

End ResponseFacts.

(** ** [np.argmax] and the selection *)

Module SelectionFacts.
Import Py GenerativeSMUtils GenerativeSM Statements Scenario.

Lemma float_le_Fin (a b : Q) : float_le (Fin a) (Fin b) = true <-> (a <= b)%Q.
Proof. simpl. apply Qle_bool_iff. Qed.

(** The scan returns an index of the scanned part or the index it was
    given. *)
Lemma argmax_loop_range (ip : list pyfloat) (i : nat) (mp : pyfloat) (max_ind : nat) :
  argmax_loop ip i mp max_ind = max_ind \/
  (i <= argmax_loop ip i mp max_ind < i + length ip)%nat.
Proof.
  revert i mp max_ind. induction ip as [|x ip IH]; intros i mp max_ind; simpl.
  - left. reflexivity.
  - destruct (negb (float_le x mp)).
    + destruct (isnan x); [right; lia|].
      destruct (IH (S i) x i) as [-> | H]; right; lia.
    + destruct (IH (S i) mp max_ind) as [-> | H]; [left; reflexivity | right; lia].
Qed.

(** With a NaN among the elements still to scan, the scan stops at the
    first of them. *)
Lemma argmax_loop_first_nan (ip : list pyfloat) (i : nat) (m : Q) (max_ind k : nat) :
  ip !! k = Some NaN ->
  (forall j, (j < k)%nat -> ip !! j <> Some NaN) ->
  argmax_loop ip i (Fin m) max_ind = (i + k)%nat.
Proof.
  revert i m max_ind k. induction ip as [|x ip IH]; intros i m max_ind k Hk Hfirst.
  - discriminate.
  - destruct k as [|k]; simpl in Hk.
    + injection Hk as ->. simpl. lia.
    + assert (Hx : x <> NaN) by (intros ->; apply (Hfirst 0%nat); [lia | reflexivity]).
      destruct x as [|q]; [congruence|]. simpl.
      assert (Hrest : forall j, (j < k)%nat -> ip !! j <> Some NaN)
        by (intros j Hj; apply (Hfirst (S j)); lia).
      destruct (negb (Qle_bool q m)).
      * rewrite (IH (S i) q i k Hk Hrest). lia.
      * rewrite (IH (S i) m max_ind k Hk Hrest). lia.
Qed.

(** [np.argmax] returns the position of the first NaN as soon as there is
    one, whatever the other values are. *)
Lemma np_argmax_first_nan (a : list pyfloat) (k : nat) :
  a !! k = Some NaN ->
  (forall j, (j < k)%nat -> a !! j <> Some NaN) ->
  np_argmax a = Ok k.
Proof.
  destruct a as [|mp ip]; [discriminate|].
  intros Hk Hfirst. destruct k as [|k]; simpl in Hk.
  - injection Hk as ->. reflexivity.
  - assert (Hmp : mp <> NaN) by (intros ->; apply (Hfirst 0%nat); [lia | reflexivity]).
    destruct mp as [|m]; [congruence|]. simpl. f_equal.
    apply (argmax_loop_first_nan ip 1 m 0 k Hk).
    intros j Hj. apply (Hfirst (S j)). lia.
Qed.

(** On finite values the scan ends on the first position that holds the
    largest value seen, the given one included. *)
Lemma argmax_loop_finite (ip : list Q) (i : nat) (m : Q) (max_ind : nat) :
  let r := argmax_loop (map Fin ip) i (Fin m) max_ind in
  (r = max_ind /\ Forall (fun x => (x <= m)%Q) ip) \/
  (exists k mx, r = (i + k)%nat /\ ip !! k = Some mx /\ (m < mx)%Q /\
     (forall j y, ip !! j = Some y -> (y <= mx)%Q /\ ((j < k)%nat -> (y < mx)%Q))).
Proof.
  revert i m max_ind. induction ip as [|x ip IH]; intros i m max_ind; simpl.
  - left. split; [reflexivity | constructor].
  - destruct (Qle_bool x m) eqn:E; simpl.
    + apply Qle_bool_iff in E.
      destruct (IH (S i) m max_ind) as [(Hr & Hall) | (k & mx & Hr & Hk & Hlt & Hmax)].
      * left. split; [exact Hr | by constructor].
      * right. exists (S k), mx. split; [rewrite Hr; lia|]. split; [exact Hk|].
        split; [exact Hlt|]. intros [|j] y Hy; simpl in Hy.
        -- injection Hy as <-. split; [|intros _]; lra.
        -- destruct (Hmax j y Hy) as (H1 & H2). split; [exact H1 | intros; apply H2; lia].
    + assert (Hlt : (m < x)%Q).
      { apply Qnot_le_lt. intros H. apply Qle_bool_iff in H. congruence. }
      destruct (IH (S i) x i) as [(Hr & Hall) | (k & mx & Hr & Hk & Hlt' & Hmax)].
      * right. exists 0%nat, x. split; [rewrite Hr; lia|]. split; [reflexivity|].
        split; [exact Hlt|]. intros [|j] y Hy; simpl in Hy.
        -- injection Hy as <-. split; [lra | lia].
        -- rewrite Forall_forall in Hall. split; [|lia].
           apply Hall. apply list_elem_of_lookup. eauto.
      * right. exists (S k), mx. split; [rewrite Hr; lia|]. split; [exact Hk|].
        split; [lra|]. intros [|j] y Hy; simpl in Hy.
        -- injection Hy as <-. split; [|intros _]; lra.
        -- destruct (Hmax j y Hy) as (H1 & H2). split; [exact H1 | intros; apply H2; lia].
Qed.

(** On a vector without NaN, [np.argmax] is the first position of the
    maximum. *)
Lemma np_argmax_finite (a : list Q) :
  a <> [] ->
  exists k mx, np_argmax (map Fin a) = Ok k /\ a !! k = Some mx /\
    (forall j y, a !! j = Some y -> (y <= mx)%Q /\ ((j < k)%nat -> (y < mx)%Q)).
Proof.
  destruct a as [|m ip]; [congruence|]. intros _. simpl.
  destruct (argmax_loop_finite ip 1 m 0) as [(Hr & Hall) | (k & mx & Hr & Hk & Hlt & Hmax)].
  - exists 0%nat, m. rewrite Hr. split; [reflexivity|]. split; [reflexivity|].
    intros [|j] y Hy; simpl in Hy.
    + injection Hy as <-. split; [lra | lia].
    + rewrite Forall_forall in Hall. split; [|lia].
      apply Hall. apply list_elem_of_lookup. eauto.
  - exists (S k), mx. rewrite Hr. split; [reflexivity|]. split; [exact Hk|].
    intros [|j] y Hy; simpl in Hy.
    + injection Hy as <-. split; [|intros _]; lra.
    + destruct (Hmax j y Hy) as (H1 & H2). split; [exact H1 | intros; apply H2; lia].
Qed.

(** C1. [select_query_point] hands back a candidate whose aggregated
    probability is NaN although other candidates have a number: with two
    observed rows and the prompts of [gen_prompt_tempates], of three
    candidates with probabilities [0.5], NaN and [0.9] it returns the
    second, because [np.argmax] stops at the first NaN. *)
Theorem select_query_point_returns_nan_candidate :
  (select_query_point PromptScenario.plain_format
     (PromptScenario.answer_by_query PromptScenario.three_answers) last_first
     no_log no_log (Prompts.prompts_for PromptScenario.reversed (Some "accuracy") None)
     (surrogate 1) PromptScenario.two_observed PromptScenario.two_fvals
     three_candidates true []).1
  = Ok ([[("x", VFloat (Fin (3 # 2)))]], Some [Fin (5 # 10); NaN; Fin (9 # 10)], 0%Q).
Proof. vm_compute. reflexivity. Qed.

End SelectionFacts.

(** ** The rate limiter *)

Module RateLimiterFacts.
Import Py GenerativeSMUtils GenerativeSM Statements.

Section WithEngine.

Context {Template : Type}.
Variable template_format : Template -> string -> string.
Variable ask : history -> list (string * string) -> pyval * Q.

(** What a query does: it prints, then sends its messages. *)
Lemma _async_generate_run (t : Template) (q : example) (i : nat) (h : history) :
  let h1 := (h ++ [Print "Sending inquiries to the LLM - generative surrogate model"])%list in
  let m := build_message template_format t q in
  _async_generate template_format ask t q i h
  = (Ok (i, (ask h1 m).1, (ask h1 m).2, 1000%Z), (h1 ++ [OpenAIAsk m])%list).
Proof.
  simpl. unfold _async_generate, bind, emit, openai_ask, ret.
  destruct (ask _ _) as [resp c]. reflexivity.
Qed.

(** C8. A query is sent without any acquisition on the rate limiter: the
    events of [_async_generate] are a print and the call to the client. *)
Theorem _async_generate_never_acquires (t : Template) (q : example) (i : nat) :
  (_async_generate template_format ask t q i []).2
  = [Print "Sending inquiries to the LLM - generative surrogate model";
     OpenAIAsk (build_message template_format t q)]
  /\ acquired_before_each_query 0 (_async_generate template_format ask t q i []).2 = false.
Proof. rewrite _async_generate_run. split; reflexivity. Qed.

End WithEngine.

End RateLimiterFacts.

(** ** The event loop and [asyncio.gather] *)

Module GatherFacts.
Import Py GenerativeSMUtils GenerativeSM Statements MonadFacts.

Section WithLoop.

Variable next_done : history -> nat -> nat.

Lemma event_loop_step {X : Type} (n : nat) (pending : list (nat * M X))
  (slots : list (option X)) (h : history) :
  event_loop next_done (S n) pending slots h
  = let chosen := (next_done h (length pending) mod length pending)%nat in
    match pending !! chosen with
    | None => (Ok slots, h)
    | Some (k, task) =>
        match task h with
        | (Ok r, h') =>
            event_loop next_done n (delete chosen pending) (<[k := Some r]> slots) h'
        | (Raise e, h') => (Raise e, h')
        end
    end.
Proof. reflexivity. Qed.

(** Whatever order the event loop picks, every slot ends up holding a
    result of its own task. *)
Lemma event_loop_fills_slots {X : Type} (P : nat -> X -> Prop) (size : nat) :
  forall (n : nat) (pending : list (nat * M X)) (slots : list (option X)) (h : history),
    length pending = n ->
    NoDup pending.*1 ->
    (forall k t hh, (k, t) ∈ pending ->
       (k < size)%nat /\ exists x h', t hh = (Ok x, h') /\ P k x) ->
    length slots = size ->
    (forall k, (k < size)%nat -> k ∉ pending.*1 ->
       exists x, slots !! k = Some (Some x) /\ P k x) ->
    exists slots' h',
      event_loop next_done n pending slots h = (Ok slots', h') /\
      length slots' = size /\
      forall k, (k < size)%nat -> exists x, slots' !! k = Some (Some x) /\ P k x.
Proof.
  induction n as [|n IH]; intros pending slots h Hlen Hnd Hrun Hsize Hdone.
  - exists slots, h. split; [reflexivity|]. split; [assumption|].
    intros k Hk. apply Hdone; [assumption|].
    apply length_zero_iff_nil in Hlen. subst pending. apply not_elem_of_nil.
  - rewrite event_loop_step.
    set (c := (next_done h (length pending) mod length pending)%nat). cbv zeta.
    assert (Hc : (c < length pending)%nat).
    { apply Nat.mod_upper_bound. lia. }
    destruct (lookup_lt_is_Some_2 pending c Hc) as [[k t] Hkt].
    unfold M in *. rewrite Hkt.
    destruct (list_elem_of_split_length pending c (k, t) Hkt) as (l1 & l2 & -> & Hc').
    destruct (Hrun k t h) as (Hk & x & h1 & Ex & Px).
    { apply elem_of_app. right. left. }
    rewrite Ex. rewrite Hc', delete_middle.
    rewrite fmap_app, fmap_cons in Hnd. simpl in Hnd.
    apply NoDup_app in Hnd as (Hnd1 & Hnd12 & Hnd2).
    apply NoDup_cons in Hnd2 as (Hk2 & Hnd2).
    assert (Hk1 : k ∉ l1.*1).
    { intros Hin. apply (Hnd12 k Hin). left. }
    apply IH.
    + rewrite length_app in *. simpl in Hlen. lia.
    + rewrite fmap_app. apply NoDup_app. split; [assumption|]. split; [|assumption].
      intros y Hy Hy2. apply (Hnd12 y Hy). right. assumption.
    + intros k' t' hh Hin. apply Hrun.
      apply elem_of_app in Hin as [Hin | Hin]; apply elem_of_app;
        [left | right; right]; assumption.
    + rewrite length_insert. assumption.
    + intros k' Hk' Hnot. destruct (decide (k' = k)) as [-> | Hne].
      * exists x. split; [|assumption]. apply list_lookup_insert_eq. lia.
      * rewrite list_lookup_insert_ne by congruence. apply Hdone; [assumption|].
        rewrite fmap_app, fmap_cons. simpl. intros Hin.
        apply elem_of_app in Hin as [Hin | Hin].
        -- apply Hnot. rewrite fmap_app. apply elem_of_app. left. assumption.
        -- apply elem_of_cons in Hin as [Hin | Hin]; [congruence|].
           apply Hnot. rewrite fmap_app. apply elem_of_app. right. assumption.
Qed.

Lemma omap_all_Some {X : Type} (P : nat -> X -> Prop) (slots : list (option X)) :
  (forall k, (k < length slots)%nat -> exists x, slots !! k = Some (Some x) /\ P k x) ->
  length (omap (fun slot : option X => slot) slots) = length slots /\
  forall k x, omap (fun slot : option X => slot) slots !! k = Some x -> P k x.
Proof.
  revert P. induction slots as [|o slots IH]; intros P Hall.
  - split; [reflexivity | intros k x; discriminate].
  - destruct (Hall 0%nat) as (x0 & E0 & P0); [simpl; lia|].
    simpl in E0. injection E0 as ->. simpl.
    destruct (IH (fun k => P (S k))) as (Hlen & Hlook).
    { intros k Hk. apply (Hall (S k)). simpl. lia. }
    split; [simpl; f_equal; assumption|].
    intros [|k] x Hx; simpl in Hx.
    + injection Hx as <-. assumption.
    + apply Hlook. assumption.
Qed.

(** [asyncio.gather] returns the results in the order of the tasks,
    whatever the order in which they finish. *)
Lemma asyncio_gather_in_task_order {X : Type} (R : M X -> X -> Prop) (tasks : list (M X)) :
  (forall t hh, t ∈ tasks -> exists x h', t hh = (Ok x, h') /\ R t x) ->
  forall h, exists xs h',
    asyncio_gather next_done tasks h = (Ok xs, h') /\ Forall2 R tasks xs.
Proof.
  intros Hrun h. unfold asyncio_gather, bind.
  set (n := length tasks).
  destruct (event_loop_fills_slots
              (fun k x => exists t, tasks !! k = Some t /\ R t x) n n
              (zip (seq 0 n) tasks) (replicate n None) h)
    as (slots & h' & E & Hlen & Hfilled).
  - rewrite length_zip_with, length_seq. unfold n. lia.
  - rewrite fst_zip by (rewrite length_seq; unfold n; lia). apply NoDup_seq.
  - intros k t hh Hin. apply list_elem_of_lookup in Hin as (i & Hi).
    apply lookup_zip_with_Some in Hi as (a & b & [= -> ->] & Ha & Hb).
    apply lookup_seq in Ha as (-> & Hi). simpl. split; [assumption|].
    destruct (Hrun b hh) as (x & h1 & Ex & Rx); [apply list_elem_of_lookup; eauto|].
    exists x, h1. split; [assumption|]. exists b. split; assumption.
  - apply length_replicate.
  - intros k Hk Hnot. exfalso. apply Hnot.
    rewrite fst_zip by (rewrite length_seq; unfold n; lia).
    apply list_elem_of_lookup. exists k. apply lookup_seq. split; [reflexivity | assumption].
  - rewrite E. eexists _, h'. split; [reflexivity|].
    destruct (omap_all_Some (fun k x => exists t, tasks !! k = Some t /\ R t x) slots)
      as (Hl & Hlook).
    { rewrite Hlen. assumption. }
    apply Forall2_same_length_lookup. split; [rewrite Hl, Hlen; reflexivity|].
    intros i t x Ht Hx. destruct (Hlook i x Hx) as (t' & Ht' & Rx). congruence.
Qed.

End WithLoop.

End GatherFacts.

(** ** The query engine: results are regrouped by candidate *)

Module EngineFacts.
Import Py GenerativeSMUtils GenerativeSM Statements MonadFacts GatherFacts.

Section WithEngine.

Context {Template : Type}.
Variable template_format : Template -> string -> string.
Variable ask : history -> list (string * string) -> pyval * Q.
Variable next_done : history -> nat -> nat.

Local Abbreviation run_query := (_async_generate template_format ask).
Local Abbreviation answers_to := (answers template_format ask).

Lemma run_query_total (t : Template) (q : example) (i : nat) (h : history) :
  exists entry h',
    run_query t q i h = (Ok (i, entry.1.1, entry.1.2, entry.2), h') /\ answers_to q t entry.
Proof.
  set (h1 := (h ++ [Print "Sending inquiries to the LLM - generative surrogate model"])%list).
  set (m := build_message template_format t q).
  exists ((ask h1 m).1, (ask h1 m).2, 1000%Z), (h1 ++ [OpenAIAsk m])%list.
  split; [|exists h1; reflexivity].
  unfold _async_generate, bind, emit, openai_ask, ret. fold h1 m.
  destruct (ask h1 m) as [resp c]. reflexivity.
Qed.

(** Filing the responses of one template, which come in candidate order,
    appends one entry to every row. *)
Lemma file_one_template (xs : list (nat * pyval * Q * Z))
  (pre results : list (list (pyval * Q * Z))) :
  length xs = length results ->
  (forall j x, xs !! j = Some x -> x.1.1.1 = (length pre + j)%nat) ->
  rfold file_response xs (pre ++ results)%list
  = Ok (pre ++ zip_with (fun r x => r ++ [(x.1.1.2, x.1.2, x.2)]) results xs)%list.
Proof.
  revert pre results.
  induction xs as [|x xs IH]; intros pre [|r results] Hlen Hidx; try discriminate.
  - reflexivity.
  - simpl in Hlen. injection Hlen as Hlen.
    destruct x as [[[i resp] c] tk].
    pose proof (Hidx 0%nat _ eq_refl) as Hi. simpl in Hi. subst i.
    cbn [rfold file_response]. unfold append_at.
    rewrite Nat.add_0_r, list_lookup_middle by reflexivity.
    rewrite insert_app_r_alt by lia. rewrite Nat.sub_diag. cbn [rbind].
    change (<[0%nat:=(r ++ [(resp, c, tk)])%list]> (r :: results))
      with ((r ++ [(resp, c, tk)])%list :: results).
    rewrite (cons_middle _ pre results), app_assoc.
    rewrite IH.
    + rewrite <- app_assoc. reflexivity.
    + assumption.
    + intros j y Hy. rewrite (Hidx (S j) y Hy), length_app. simpl. lia.
Qed.

Lemma file_all_templates (query_examples : list example) :
  forall (templates : list Template) (xs : list (nat * pyval * Q * Z))
         (results : list (list (pyval * Q * Z))),
    length results = length query_examples ->
    Forall2 result_of
      (flat_map (fun template =>
                   map (fun '(query_idx, query_example) =>
                          run_query template query_example query_idx)
                       (zip (seq 0 (length query_examples)) query_examples))
                templates) xs ->
    exists results',
      rfold file_response xs results = Ok results' /\
      length results' = length query_examples /\
      forall i q r, query_examples !! i = Some q -> results !! i = Some r ->
        exists entries, results' !! i = Some (r ++ entries)%list /\
                        Forall2 (answers_to q) templates entries.
Proof.
  induction templates as [|t templates IH]; intros xs results Hlen HF.
  - simpl in HF. apply Forall2_nil_inv_l in HF as ->.
    exists results. split; [reflexivity|]. split; [assumption|].
    intros i q r _ Hr. exists []. rewrite app_nil_r. split; [assumption | constructor].
  - simpl in HF. apply Forall2_app_inv_l in HF as (xs1 & xs2 & HF1 & HF2 & ->).
    apply (proj1 (Forall2_map_l _ _ _ _)) in HF1.
    assert (Hlen1 : length xs1 = length results).
    { pose proof (Forall2_length _ _ _ HF1) as HL.
      rewrite length_zip_with, length_seq in HL. lia. }
    assert (Hshape : forall j x, xs1 !! j = Some x ->
              x.1.1.1 = j /\ exists q, query_examples !! j = Some q /\
                                       answers_to q t (x.1.1.2, x.1.2, x.2)).
    { intros j x Hx.
      destruct (Forall2_lookup_r _ _ _ _ _ HF1 Hx) as ([i q] & Hiq & (h & Hh)).
      apply lookup_zip_with_Some in Hiq as (a & b & [= -> ->] & Ha & Hb).
      apply lookup_seq in Ha as (-> & _). simpl in Hh.
      destruct (run_query_total t b j h) as (entry & h' & E & Hans).
      rewrite E in Hh. simpl in Hh. injection Hh as <-. simpl.
      split; [reflexivity|]. exists b. split; [assumption|].
      destruct entry as [[resp c] tk]. exact Hans. }
    rewrite rfold_app.
    pose proof (file_one_template xs1 [] results Hlen1) as E1. cbn [app] in E1.
    rewrite E1 by (intros j x Hx; apply (Hshape j x Hx)).
    cbn [rbind].
    destruct (IH xs2 (zip_with (fun r x => r ++ [(x.1.1.2, x.1.2, x.2)])%list results xs1))
      as (results' & E & Hlen' & Hrows).
    + rewrite length_zip_with. lia.
    + assumption.
    + exists results'. split; [assumption|]. split; [assumption|].
      intros i q r Hq Hr.
      assert (Hi : (i < length xs1)%nat).
      { rewrite Hlen1. apply lookup_lt_Some in Hr. assumption. }
      destruct (lookup_lt_is_Some_2 xs1 i Hi) as [x Hx].
      destruct (Hshape i x Hx) as (_ & q' & Hq' & Hans).
      assert (q' = q) by congruence. subst q'.
      destruct (Hrows i q (r ++ [(x.1.1.2, x.1.2, x.2)])%list Hq) as (entries & Hres & HFe).
      { apply lookup_zip_with_Some. exists r, x. split; [reflexivity|]. split; assumption. }
      exists ((x.1.1.2, x.1.2, x.2) :: entries). split.
      * rewrite Hres, <- app_assoc. reflexivity.
      * constructor; assumption.
Qed.

(** [_generate_concurrently] returns one row per candidate, in candidate
    order; the row of a candidate holds the replies to its queries, one per
    template in template order, whatever the order in which the queries
    finished. *)
Lemma _generate_concurrently_regroups (templates : list Template)
  (query_examples : list example) (h : history) :
  exists results h',
    _generate_concurrently template_format ask next_done templates query_examples h
    = (Ok results, h') /\
    Forall2 (fun q row => Forall2 (answers_to q) templates row) query_examples results.
Proof.
  unfold _generate_concurrently, bind.
  match goal with
  | |- context [asyncio_gather next_done ?tasks h] =>
      destruct (asyncio_gather_in_task_order next_done result_of tasks) with (h := h)
        as (xs & h' & E & HF)
  end.
  - intros task hh Hin. apply list_elem_of_In, in_flat_map in Hin as (t & _ & Hin).
    apply in_map_iff in Hin as ([i q] & <- & _).
    destruct (run_query_total t q i hh) as (entry & h' & E & _).
    eexists _, h'. split; [exact E|]. exists hh. rewrite E. reflexivity.
  - rewrite E.
    destruct (file_all_templates query_examples templates xs
                (replicate (length query_examples) []))
      as (results & Er & Hlen & Hrows).
    + apply length_replicate.
    + exact HF.
    + exists results, h'. unfold lift.
      change (rfold _ xs _) with
        (rfold file_response xs (replicate (length query_examples) [])).
      rewrite Er. split; [reflexivity|].
      apply Forall2_same_length_lookup. split; [symmetry; assumption|].
      intros i q row Hq Hrow.
      destruct (Hrows i q [] Hq) as (entries & Hres & HFe).
      { apply lookup_replicate. split; [reflexivity|]. apply lookup_lt_Some in Hq. assumption. }
      simpl in Hres. assert (row = entries) by congruence. subst row. assumption.
Qed.

End WithEngine.

End EngineFacts.

(** ** [_predict]: one estimate per candidate, in candidate order *)

Module PredictFacts.
Import Py GenerativeSMUtils GenerativeSM Statements MonadFacts ResponseFacts EngineFacts.

Lemma sum_of_ones (n : nat) : fold_right Z.add 0%Z (replicate n 1%Z) = Z.of_nat n.
Proof. induction n as [|n IH]; simpl replicate; simpl fold_right; [reflexivity | lia]. Qed.

Lemma map_const_replicate {A B : Type} (b : B) (l : list A) :
  map (fun _ => b) l = replicate (length l) b.
Proof. induction l as [|x l IH]; simpl; [reflexivity | f_equal; assumption]. Qed.

Lemma np_nanmean_all_nan (n : nat) : np_nanmean (replicate n NaN) = NaN.
Proof.
  unfold np_nanmean.
  assert (H : fin_values (replicate n NaN) = []) by (induction n; simpl; auto).
  rewrite H. reflexivity.
Qed.

(** A frame whose rows have one length is accepted by [np.array]. *)
Lemma np_array_rectangular (rows : list (list pyfloat)) (len : nat) :
  Forall (fun r => length r = len) rows -> np_array rows = Ok rows.
Proof.
  intros Hall. destruct rows as [|r rows]; [reflexivity|].
  unfold np_array.
  assert (H : forallb (fun r' => (length r' =? length r)%nat) (r :: rows) = true).
  { apply forallb_forall. intros r' Hin. apply Nat.eqb_eq.
    rewrite Forall_forall in Hall.
    rewrite (Hall r') by (apply list_elem_of_In; assumption).
    rewrite (Hall r) by left. reflexivity. }
  rewrite H. reflexivity.
Qed.

Section WithEngine.

Context {Template : Type}.
Variable template_format : Template -> string -> string.
Variable ask : history -> list (string * string) -> pyval * Q.
Variable next_done : history -> nat -> nat.
Variable self : LLMGenerativeSM.
Variable templates : list Template.

Hypothesis well_formed_replies : never_malformed ask.

Local Abbreviation answers_to := (answers template_format ask).

Local Abbreviation sample_preds_of :=
  (sample_preds_of template_format ask (n_gens self) templates).

Lemma raw_of_value (entry : pyval * Q * Z) (h : history) :
  exists h', raw_of entry h = (Ok (raw_value entry.1.1), h').
Proof.
  destruct entry as [[resp c] tk]. destruct resp; simpl; eexists; reflexivity.
Qed.

Lemma predict_sample_appends (q : example) (sample_response : list (pyval * Q * Z))
  (acc : totals) (h : history) :
  Forall2 (answers_to q) templates sample_response ->
  exists acc' h' preds,
    predict_sample self acc sample_response h = (Ok acc', h') /\
    all_preds acc' = (all_preds acc ++ [preds])%list /\
    bool_pred_returned acc' = bool_pred_returned acc /\
    sample_preds_of q preds.
Proof.
  intros Hrow. remember sample_response as row eqn:Erow0.
  destruct sample_response as [|e rest] eqn:Erow; subst row.
  - eexists _, h, (replicate (n_gens self) NaN). split; [reflexivity|].
    repeat split. exists []. split; [assumption | reflexivity].
  - set (row := e :: rest) in *. unfold predict_sample.
    change (match row with [] => _ | _ :: _ => ?k end h) with (k h).
    unfold bind.
    destruct (mmap_Forall2 raw_of (fun entry raw => raw = raw_value entry.1.1) row) with (h := h)
      as (raws & h1 & E1 & HF1).
    { intros x hx _. destruct (raw_of_value x hx) as (h' & E). eauto. }
    rewrite E1.
    destruct (process_response_total raws h1) as (preds & h2 & E2 & HF2).
    { apply Forall_forall. intros raw Hin.
      apply list_elem_of_lookup in Hin as (i & Hi).
      destruct (Forall2_lookup_r _ _ _ _ _ HF1 Hi) as (entry & Hentry & ->).
      destruct (Forall2_lookup_r _ _ _ _ _ Hrow Hentry) as (t & _ & (hh & ->)).
      simpl. apply well_formed_replies. }
    rewrite E2. eexists _, h2, preds. split; [reflexivity|]. simpl.
    repeat split. exists row. split; [assumption|].
    change (Forall2 (fun e y => parse_reply (raw_value e.1.1) = Ok y) row preds).
    apply Forall2_same_length_lookup. split.
    + rewrite (Forall2_length _ _ _ HF1). apply (Forall2_length _ _ _ HF2).
    + intros i entry y Hentry Hy.
      destruct (Forall2_lookup_l _ _ _ _ _ HF1 Hentry) as (raw & Hraw & ->).
      apply (Forall2_lookup_lr _ _ _ _ _ _ HF2 Hraw Hy).
Qed.

(** One chunk: a list of predictions per candidate of the chunk, in the
    order of the chunk, and a 1 per candidate. *)
Lemma predict_chunk_appends (query_examples : list example) (acc : totals) (i : nat)
  (h : history) :
  exists acc' h' chunk_preds,
    predict_chunk template_format ask next_done self templates query_examples acc i h
    = (Ok acc', h') /\
    all_preds acc' = (all_preds acc ++ chunk_preds)%list /\
    bool_pred_returned acc'
    = (bool_pred_returned acc
       ++ replicate (length (take 5 (drop i query_examples))) 1%Z)%list /\
    Forall2 sample_preds_of (take 5 (drop i query_examples)) chunk_preds.
Proof.
  unfold predict_chunk, bind.
  set (chunk := take 5 (drop i query_examples)).
  destruct (_generate_concurrently_regroups template_format ask next_done templates chunk h)
    as (results & h1 & E1 & HF).
  rewrite E1.
  set (acc1 := {| all_preds := all_preds acc; tot_tokens := tot_tokens acc;
                  tot_cost := tot_cost acc;
                  bool_pred_returned :=
                    (bool_pred_returned acc ++ map (fun _ => 1%Z) results)%list |}).
  destruct (mfold_invariant
              (fun k a => exists cp, all_preds a = (all_preds acc ++ cp)%list /\
                                     bool_pred_returned a = bool_pred_returned acc1 /\
                                     Forall2 sample_preds_of (take k chunk) cp)
              (predict_sample self) results) with (acc := acc1) (h := h1)
    as (acc' & h' & E & (cp & Hall & Hbool & Hcp)).
  - intros k row a hh Hrow (cp & Hall & Hbool & Hcp).
    destruct (Forall2_lookup_r _ _ _ _ _ HF Hrow) as (q & Hq & Hans).
    destruct (predict_sample_appends q row a hh Hans) as (a' & hh' & preds & E & Ha & Hb & Hp).
    exists a', hh'. split; [assumption|]. exists (cp ++ [preds])%list.
    split; [rewrite Ha, Hall, app_assoc; reflexivity|].
    split; [congruence|].
    rewrite (take_S_r _ _ _ Hq). apply Forall2_app; [assumption|].
    constructor; [assumption | constructor].
  - exists []. rewrite app_nil_r. repeat split. rewrite take_0. constructor.
  - exists acc', h', cp. split; [assumption|]. split; [assumption|].
    rewrite <- (Forall2_length _ _ _ HF) in Hcp. rewrite take_ge in Hcp by lia.
    split; [|assumption].
    rewrite Hbool. unfold acc1. simpl. rewrite map_const_replicate.
    rewrite (Forall2_length _ _ _ HF). reflexivity.
Qed.

Lemma chunk_starts_lookup (n i x : nat) : chunk_starts n !! i = Some x -> x = (5 * i)%nat.
Proof.
  unfold chunk_starts. change (map ?f ?l) with (f <$> l).
  rewrite list_lookup_fmap. intros H.
  apply fmap_Some in H as (k & Hk & ->). apply lookup_seq in Hk as (-> & _). reflexivity.
Qed.

Lemma chunk_starts_cover (n : nat) : (n <= 5 * length (chunk_starts n))%nat.
Proof.
  unfold chunk_starts. rewrite length_map, length_seq.
  pose proof (Nat.div_mod_eq (n + 4) 5) as H.
  pose proof (Nat.mod_upper_bound (n + 4) 5) as H'. lia.
Qed.

(** The loop over the chunks: a list of predictions per candidate, in
    candidate order, and a 1 per candidate. *)
Lemma predict_loop (query_examples : list example) (h : history) :
  exists acc h',
    mfold (predict_chunk template_format ask next_done self templates query_examples)
          (chunk_starts (length query_examples))
          {| all_preds := []; tot_tokens := 0; tot_cost := 0; bool_pred_returned := [] |} h
    = (Ok acc, h') /\
    Forall2 sample_preds_of query_examples (all_preds acc) /\
    bool_pred_returned acc = replicate (length query_examples) 1%Z.
Proof.
  set (n := length query_examples).
  destruct (mfold_invariant
              (fun k a => Forall2 sample_preds_of (take (5 * k) query_examples) (all_preds a) /\
                          bool_pred_returned a = replicate (Nat.min (5 * k) n) 1%Z)
              (predict_chunk template_format ask next_done self templates query_examples)
              (chunk_starts n))
    with (acc := {| all_preds := []; tot_tokens := 0%Z; tot_cost := 0%Q;
                    bool_pred_returned := [] |}) (h := h)
    as (acc & h' & E & HF & Hbool).
  - intros k x a hh Hx (HF & Hbool). apply chunk_starts_lookup in Hx as ->.
    destruct (predict_chunk_appends query_examples a (5 * k) hh)
      as (a' & hh' & cp & E & Ha & Hb & Hcp).
    exists a', hh'. split; [assumption|]. split.
    + rewrite Ha. replace (5 * S k)%nat with (5 * k + 5)%nat by lia.
      rewrite <- take_take_drop. apply Forall2_app; assumption.
    + rewrite Hb, Hbool, <- replicate_add. f_equal.
      rewrite length_take, length_drop. fold n. lia.
  - simpl. split; [constructor | reflexivity].
  - exists acc, h'. split; [assumption|].
    pose proof (chunk_starts_cover n) as Hcover.
    rewrite take_ge in HF by (fold n; lia). split; [assumption|].
    rewrite Hbool. f_equal. lia.
Qed.

(** The predictions of a candidate have as many entries as there are
    templates, or [n_gens] when there is no template. *)
Lemma sample_preds_length (q : example) (preds : list pyfloat) :
  sample_preds_of q preds ->
  length preds = match templates with [] => n_gens self | _ => length templates end.
Proof.
  intros (entries & HF & Hp). pose proof (Forall2_length _ _ _ HF) as Hlen.
  unfold predictions_of in Hp. destruct entries as [|e entries].
  - destruct templates; [|discriminate]. rewrite Hp. apply length_replicate.
  - destruct templates as [|t ts]; [discriminate|].
    rewrite <- (Forall2_length _ _ _ Hp). symmetry. assumption.
Qed.

(** The whole of [_predict] on a non-empty candidate list. *)
Lemma _predict_returns (query_examples : list example) (h : history) :
  query_examples <> [] ->
  exists probs sr cost tok h',
    _predict template_format ask next_done self templates query_examples h
    = (Ok (probs, sr, cost, tok), h') /\
    Forall2 (estimate_of template_format ask (n_gens self) templates) query_examples probs /\
    sr = (inject_Z (Z.of_nat (length query_examples))
          / inject_Z (Z.of_nat (length query_examples)))%Q.
Proof.
  intros Hne. unfold _predict, bind.
  destruct (predict_loop query_examples h) as (acc & h' & E & HF & Hbool).
  rewrite E. unfold lift. rewrite Hbool, sum_of_ones, length_replicate.
  unfold py_truediv.
  destruct (Z.eqb_spec (Z.of_nat (length query_examples)) 0) as [H0 | _].
  { destruct query_examples; [congruence | discriminate]. }
  rewrite (np_array_rectangular (all_preds acc)
             match templates with [] => n_gens self | _ => length templates end).
  2:{ apply Forall_forall. intros preds Hin.
      apply list_elem_of_lookup in Hin as (i & Hi).
      destruct (Forall2_lookup_r _ _ _ _ _ HF Hi) as (q & _ & Hq).
      apply (sample_preds_length q preds Hq). }
  assert (Hrows : np_nanmean_axis1 (all_preds acc) = Ok (map np_nanmean (all_preds acc))).
  { unfold np_nanmean_axis1. destruct (all_preds acc); [|reflexivity].
    apply Forall2_nil_inv_r in HF. congruence. }
  rewrite Hrows. unfold ret.
  eexists _, _, _, _, h'. split; [reflexivity|]. split; [|reflexivity].
  apply Forall2_map_r.
  eapply Forall2_impl; [exact HF|].
  intros q preds Hp. exists preds. auto.
Qed.

End WithEngine.

(** *** Every vector [_predict] returns

    The same facts without any assumption on the replies, for a call that
    has returned. *)

Section Returned.

Context {Template : Type}.
Variable template_format : Template -> string -> string.
Variable ask : history -> list (string * string) -> pyval * Q.
Variable next_done : history -> nat -> nat.
Variable self : LLMGenerativeSM.
Variable templates : list Template.

Local Abbreviation answers_to := (answers template_format ask).
Local Abbreviation sample_preds_of :=
  (sample_preds_of template_format ask (n_gens self) templates).

Lemma raw_of_returned (entry : pyval * Q * Z) (h : history) (raw : pyval) (h' : history) :
  raw_of entry h = (Ok raw, h') -> raw = raw_value entry.1.1.
Proof.
  destruct entry as [[resp c] tk]. destruct resp; simpl; intros [= <- _]; reflexivity.
Qed.

Lemma process_one_returned (raw : pyval) (h : history) (y : pyfloat) (h' : history) :
  process_one raw h = (Ok y, h') -> parse_reply raw = Ok y.
Proof. intros E. rewrite <- (process_one_value raw h), E. reflexivity. Qed.

Lemma predict_sample_returned (q : example) (sample_response : list (pyval * Q * Z))
  (acc : totals) (h : history) (acc' : totals) (h' : history) :
  Forall2 (answers_to q) templates sample_response ->
  predict_sample self acc sample_response h = (Ok acc', h') ->
  exists preds,
    all_preds acc' = (all_preds acc ++ [preds])%list /\
    bool_pred_returned acc' = bool_pred_returned acc /\
    sample_preds_of q preds.
Proof.
  intros Hrow E. destruct sample_response as [|e rest] eqn:Erow.
  - injection E as <- _. exists (replicate (n_gens self) NaN).
    repeat split. exists []. split; [assumption | reflexivity].
  - set (entries := e :: rest) in *. unfold predict_sample in E.
    change (match entries with [] => _ | _ :: _ => ?k end h) with (k h) in E.
    unfold bind in E.
    destruct (mmap raw_of entries h) as [[raws|err] h1] eqn:E1; [|discriminate].
    destruct (process_response raws h1) as [[preds|err] h2] eqn:E2; [|discriminate].
    injection E as <- _. exists preds. cbn. repeat split.
    exists entries. split; [assumption|].
    pose proof (mmap_Ok_Forall2 raw_of (fun entry raw => raw = raw_value entry.1.1) entries
                  raw_of_returned h raws h1 E1) as HF1.
    pose proof (mmap_Ok_Forall2 process_one (fun raw y => parse_reply raw = Ok y) raws
                  process_one_returned h1 preds h2 E2) as HF2.
    change (Forall2 (fun e y => parse_reply (raw_value e.1.1) = Ok y) entries preds).
    apply Forall2_same_length_lookup. split.
    + rewrite (Forall2_length _ _ _ HF1). apply (Forall2_length _ _ _ HF2).
    + intros i entry y Hentry Hy.
      destruct (Forall2_lookup_l _ _ _ _ _ HF1 Hentry) as (raw & Hraw & ->).
      apply (Forall2_lookup_lr _ _ _ _ _ _ HF2 Hraw Hy).
Qed.

Lemma predict_chunk_returned (query_examples : list example) (acc : totals) (i : nat)
  (h : history) (acc' : totals) (h' : history) :
  predict_chunk template_format ask next_done self templates query_examples acc i h
  = (Ok acc', h') ->
  exists chunk_preds,
    all_preds acc' = (all_preds acc ++ chunk_preds)%list /\
    bool_pred_returned acc'
    = (bool_pred_returned acc
       ++ replicate (length (take 5 (drop i query_examples))) 1%Z)%list /\
    Forall2 sample_preds_of (take 5 (drop i query_examples)) chunk_preds.
Proof.
  unfold predict_chunk, bind.
  set (chunk := take 5 (drop i query_examples)).
  destruct (_generate_concurrently_regroups template_format ask next_done templates chunk h)
    as (results & h1 & E1 & HF).
  rewrite E1. intros E.
  set (acc1 := {| all_preds := all_preds acc; tot_tokens := tot_tokens acc;
                  tot_cost := tot_cost acc;
                  bool_pred_returned :=
                    (bool_pred_returned acc ++ map (fun _ => 1%Z) results)%list |}) in E.
  pose proof (mfold_Ok_invariant
                (fun k a => exists cp, all_preds a = (all_preds acc ++ cp)%list /\
                                       bool_pred_returned a = bool_pred_returned acc1 /\
                                       Forall2 sample_preds_of (take k chunk) cp)
                (predict_sample self) results) as Hinv.
  destruct (Hinv) with (acc := acc1) (h := h1) (acc' := acc') (h' := h')
    as (cp & Hall & Hbool & Hcp).
  - intros k sample a hh a' hh' Hsample (cp & Hall & Hbool & Hcp) Estep.
    destruct (Forall2_lookup_r _ _ _ _ _ HF Hsample) as (q & Hq & Hans).
    destruct (predict_sample_returned q sample a hh a' hh' Hans Estep) as (preds & Ha & Hb & Hp).
    exists (cp ++ [preds])%list.
    split; [rewrite Ha, Hall, app_assoc; reflexivity|].
    split; [congruence|].
    rewrite (take_S_r _ _ _ Hq). apply Forall2_app; [assumption|].
    constructor; [assumption | constructor].
  - exists []. rewrite app_nil_r. repeat split. rewrite take_0. constructor.
  - exact E.
  - exists cp. split; [assumption|].
    rewrite <- (Forall2_length _ _ _ HF) in Hcp. rewrite take_ge in Hcp by lia.
    split; [|assumption].
    rewrite Hbool. unfold acc1. simpl. rewrite map_const_replicate.
    rewrite (Forall2_length _ _ _ HF). reflexivity.
Qed.

Lemma predict_loop_returned (query_examples : list example) (h : history)
  (acc : totals) (h' : history) :
  mfold (predict_chunk template_format ask next_done self templates query_examples)
        (chunk_starts (length query_examples))
        {| all_preds := []; tot_tokens := 0; tot_cost := 0; bool_pred_returned := [] |} h
  = (Ok acc, h') ->
  Forall2 sample_preds_of query_examples (all_preds acc) /\
  bool_pred_returned acc = replicate (length query_examples) 1%Z.
Proof.
  intros E. set (n := length query_examples) in *.
  pose proof (mfold_Ok_invariant
                (fun k a => Forall2 sample_preds_of (take (5 * k) query_examples) (all_preds a) /\
                            bool_pred_returned a = replicate (Nat.min (5 * k) n) 1%Z)
                (predict_chunk template_format ask next_done self templates query_examples)
                (chunk_starts n)) as Hinv.
  destruct (Hinv) with (acc := {| all_preds := []; tot_tokens := 0%Z; tot_cost := 0%Q;
                                  bool_pred_returned := [] |})
                       (h := h) (acc' := acc) (h' := h') as (HF & Hbool).
  - intros k x a hh a' hh' Hx (HF & Hbool) Estep. apply chunk_starts_lookup in Hx as ->.
    destruct (predict_chunk_returned query_examples a (5 * k) hh a' hh' Estep)
      as (cp & Ha & Hb & Hcp).
    split.
    + rewrite Ha. replace (5 * S k)%nat with (5 * k + 5)%nat by lia.
      rewrite <- take_take_drop. apply Forall2_app; assumption.
    + rewrite Hb, Hbool, <- replicate_add. f_equal.
      rewrite length_take, length_drop. fold n. lia.
  - simpl. split; [constructor | reflexivity].
  - exact E.
  - pose proof (chunk_starts_cover n) as Hcover.
    rewrite take_ge in HF by (fold n; lia). split; [assumption|].
    rewrite Hbool. f_equal. lia.
Qed.

(** Every vector [_predict] returns matches the candidates position by
    position, and the success rate that comes with it is [n / n]. *)
Lemma _predict_returned (query_examples : list example) (h : history)
  (probs : list pyfloat) (sr cost : Q) (tok : Z) (h' : history) :
  _predict template_format ask next_done self templates query_examples h
  = (Ok (probs, sr, cost, tok), h') ->
  Forall2 (estimate_of template_format ask (n_gens self) templates) query_examples probs /\
  sr = (inject_Z (Z.of_nat (length query_examples))
        / inject_Z (Z.of_nat (length query_examples)))%Q /\
  query_examples <> [].
Proof.
  unfold _predict, bind. intros E.
  destruct (mfold _ _ _ h) as [[acc|err] h1] eqn:Eloop; [|discriminate].
  destruct (predict_loop_returned query_examples h acc h1 Eloop) as (HF & Hbool).
  unfold lift in E. rewrite Hbool, sum_of_ones, length_replicate in E.
  unfold py_truediv in E.
  destruct (Z.eqb_spec (Z.of_nat (length query_examples)) 0) as [H0 | Hn0]; [discriminate|].
  destruct (np_array (all_preds acc)) as [rows|err] eqn:Earr; [|discriminate].
  assert (rows = all_preds acc) as ->.
  { unfold np_array in Earr. destruct (all_preds acc) as [|r rs]; [congruence|].
    destruct (forallb _ _); congruence. }
  destruct (np_nanmean_axis1 (all_preds acc)) as [means|err] eqn:Emean; [|discriminate].
  assert (means = map np_nanmean (all_preds acc)) as ->.
  { unfold np_nanmean_axis1 in Emean. destruct (all_preds acc); congruence. }
  unfold ret in E. injection E as <- <- _ _ _. split; [|split].
  - apply Forall2_map_r. eapply Forall2_impl; [exact HF|].
    intros q preds Hp. exists preds. auto.
  - reflexivity.
  - intros ->. apply Hn0. reflexivity.
Qed.

End Returned.

End PredictFacts.

(** ** Candidate order and success rate of [_predict] *)

Module PredictProperties.
Import Py GenerativeSMUtils GenerativeSM Statements PredictFacts Scenario.

(** C2. For every list of templates and every candidate list, whatever the
    order in which the event loop lets the queries finish, the probability
    vector [_predict] returns has exactly one entry per candidate, and the
    entry at a position is the estimate of the candidate at that position:
    the NaN-ignoring mean of the predictions derived from the replies to
    the queries about that very candidate (NaN when none of them yields a
    number).  And [_predict] does return such a vector when the candidate
    list is not empty and no reply makes [float] raise. *)
Theorem _predict_keeps_candidate_order {Template : Type}
  (template_format : Template -> string -> string)
  (ask : history -> list (string * string) -> pyval * Q)
  (next_done : history -> nat -> nat)
  (self : LLMGenerativeSM) (templates : list Template)
  (query_examples : list example) (h : history) :
  (forall probs sr cost tok h',
     _predict template_format ask next_done self templates query_examples h
     = (Ok (probs, sr, cost, tok), h') ->
     length probs = length query_examples /\
     Forall2 (estimate_of template_format ask (n_gens self) templates) query_examples probs) /\
  (query_examples <> [] ->
   never_malformed ask ->
   exists probs sr cost tok h',
     _predict template_format ask next_done self templates query_examples h
     = (Ok (probs, sr, cost, tok), h')).
Proof.
  split.
  - intros probs sr cost tok h' E.
    destruct (_predict_returned template_format ask next_done self templates
                query_examples h probs sr cost tok h' E) as (HF & _ & _).
    split; [|assumption]. symmetry. apply (Forall2_length _ _ _ HF).
  - intros Hne Hask.
    destruct (_predict_returns template_format ask next_done self templates Hask
                query_examples h Hne) as (probs & sr & cost & tok & h' & E & _).
    eauto 6.
Qed.

(** The scripted client of the scenario never makes [float] raise. *)
Lemma three_replies_never_malformed : never_malformed (scripted_ask three_replies).
Proof.
  intros h m. unfold scripted_ask.
  destruct (dict_get "user" m) as [prompt|e]; [|eexists; reflexivity].
  unfold three_replies, dict_get. cbn [find fst snd].
  repeat match goal with
         | |- context [String.eqb ?a ?b] => destruct (String.eqb a b)
         | |- context [bool_decide ?P] => destruct (bool_decide P)
         end;
  eexists; vm_compute; reflexivity.
Qed.

Lemma _predict_keeps_candidate_order_witness :
  let query_examples :=
    map (fun s => {| Q_text := s; A_text := None |}) ["x: 0.5000"; "x: 1.5000"] in
  let templates := ["Classify "; "Rate "] in
  let ask := scripted_ask three_replies in
  let run := _predict format_text ask last_first (surrogate 2) templates query_examples [] in
  run = (Ok ([Fin (5 # 10); NaN], 2 # 2, 0%Q, 4000%Z), run.2) /\
  query_examples <> [] /\
  never_malformed ask /\
  length [Fin (5 # 10); NaN] = length query_examples /\
  Forall2 (estimate_of format_text ask 3 templates) query_examples [Fin (5 # 10); NaN] /\
  exists probs sr cost tok h', run = (Ok (probs, sr, cost, tok), h').
Proof.
  pose proof (_predict_keeps_candidate_order format_text (scripted_ask three_replies)
                last_first (surrogate 2) ["Classify "; "Rate "]
                (map (fun s => {| Q_text := s; A_text := None |}) ["x: 0.5000"; "x: 1.5000"])
                []) as [Hreturned Hreturns].
  assert (Hrun :
    _predict format_text (scripted_ask three_replies) last_first (surrogate 2)
      ["Classify "; "Rate "]
      (map (fun s => {| Q_text := s; A_text := None |}) ["x: 0.5000"; "x: 1.5000"]) []
    = (Ok ([Fin (5 # 10); NaN], 2 # 2, 0%Q, 4000%Z),
       (_predict format_text (scripted_ask three_replies) last_first (surrogate 2)
          ["Classify "; "Rate "]
          (map (fun s => {| Q_text := s; A_text := None |}) ["x: 0.5000"; "x: 1.5000"]) []).2))
    by (vm_compute; reflexivity).
  split; [exact Hrun|]. split; [discriminate|].
  split; [exact three_replies_never_malformed|].
  destruct (Hreturned _ _ _ _ _ Hrun) as [Hlen Hest].
  split; [exact Hlen|]. split; [exact Hest|].
  apply Hreturns; [discriminate | exact three_replies_never_malformed].
Defined.

(** With an empty candidate list [_predict] raises: the success rate
    divides by the number of candidates. *)
Lemma _predict_no_candidate {Template : Type}
  (template_format : Template -> string -> string)
  (ask : history -> list (string * string) -> pyval * Q)
  (next_done : history -> nat -> nat)
  (self : LLMGenerativeSM) (templates : list Template) (h : history) :
  _predict template_format ask next_done self templates [] h = (Raise ZeroDivisionError, h).
Proof. reflexivity. Qed.

(** Whenever [_predict] returns, its success rate is 1: every candidate is
    counted, whatever it received. *)
Lemma _predict_success_rate_is_one {Template : Type}
  (template_format : Template -> string -> string)
  (ask : history -> list (string * string) -> pyval * Q)
  (next_done : history -> nat -> nat)
  (self : LLMGenerativeSM) (templates : list Template)
  (query_examples : list example) (h : history)
  (probs : list pyfloat) (sr cost : Q) (tok : Z) (h' : history) :
  _predict template_format ask next_done self templates query_examples h
  = (Ok (probs, sr, cost, tok), h') ->
  (sr == 1)%Q.
Proof.
  intros E.
  destruct (_predict_returned template_format ask next_done self templates
              query_examples h probs sr cost tok h' E) as (_ & -> & Hne).
  apply Qmult_inv_r. intros H. destruct query_examples; [congruence|].
  unfold Qeq in H. simpl in H. lia.
Qed.

(** C5. With no template, the only candidate receives no response at all,
    and [_predict] still reports a success rate of 1 instead of
    0 = (1 - 1) / 1: the test [x is not None] holds for every row of
    [chunk_results], empty or not. *)
Theorem _predict_success_rate_ignores_missing_responses {Template : Type}
  (template_format : Template -> string -> string)
  (ask : history -> list (string * string) -> pyval * Q)
  (next_done : history -> nat -> nat)
  (self : LLMGenerativeSM) (q : example) (h : history) :
  _generate_concurrently template_format ask next_done [] [q] h = (Ok [[]], h) /\
  exists sr,
    _predict template_format ask next_done self [] [q] h = (Ok ([NaN], sr, 0%Q, 0%Z), h) /\
    (sr == 1)%Q.
Proof.
  split; [reflexivity|].
  exists (inject_Z 1 / inject_Z 1)%Q. split; [|reflexivity].
  unfold _predict, bind.
  change (mfold _ (chunk_starts (length [q])) _ h)
    with (Ok {| all_preds := [replicate (n_gens self) NaN]; tot_tokens := 0%Z;
                tot_cost := 0%Q; bool_pred_returned := [1%Z] |}, h).
  cbn [lift bool_pred_returned all_preds fold_right length tot_cost tot_tokens].
  unfold np_array. cbn [forallb]. rewrite Nat.eqb_refl. cbn [andb].
  cbn [np_nanmean_axis1 map]. rewrite np_nanmean_all_nan. reflexivity.
Qed.

End PredictProperties.

(** ** The sampler *)

Module SamplerFacts.
Import Py GenerativeSMUtils SamplerBase Statements.

Lemma py_index_nonneg {A : Type} (l : list A) (i : Z) :
  (0 <= i)%Z ->
  py_index l i = match l !! Z.to_nat i with Some x => Ok x | None => Raise IndexError end.
Proof.
  intros Hi. unfold py_index.
  destruct (Z.ltb_spec i 0); [lia|]. destruct (Z.ltb_spec i 0); [lia|]. reflexivity.
Qed.

Section WithCollaborators.

Context {Rng L Frame : Type}.
Variable sample_independent : Rng -> string -> distribution -> pyval * Rng.
Variable LLAMBO : TaskContext -> string -> Z -> Z -> Z -> Q -> Z -> Z -> option Q ->
                  string -> string -> L.
Variable observed_configs : L -> Frame.
Variable observed_fvals : L -> Frame.
Variable _initialize : L -> list params -> Frame -> Frame -> L.
Variable sample_configurations : L -> params * L.
Variable update_history : L -> params -> pyfloat -> L.

Local Abbreviation Sampler := (@Sampler Rng L).
Local Abbreviation S := (@S Rng L).
Local Abbreviation sample_relative :=
  (sample_relative sample_independent LLAMBO observed_configs observed_fvals
                   _initialize sample_configurations).
Local Abbreviation run_trials :=
  (run_trials sample_independent LLAMBO observed_configs observed_fvals
              _initialize sample_configurations update_history).
Local Abbreviation run_trial :=
  (run_trial sample_independent LLAMBO observed_configs observed_fvals
             _initialize sample_configurations update_history).

(** C10. With an empty search space [sample_relative] returns the empty
    assignment and the sampler is left exactly as it was - attributes,
    random state, surrogate instance and log of calls: neither the random
    nor the surrogate path is entered. *)
Theorem sample_relative_empty_search_space (self : Sampler) (study : Study)
  (trial : FrozenTrial) :
  sample_relative study trial [] self = (Ok [], self).
Proof. reflexivity. Qed.

(** A loop of a method whose body keeps an invariant indexed by the number
    of iterations done. *)
Lemma sfold_invariant {A B : Type} (I : nat -> B -> Sampler -> Prop) (f : B -> A -> S B)
  (l : list A) :
  (forall i x acc s, l !! i = Some x -> I i acc s ->
     exists acc' s', f acc x s = (Ok acc', s') /\ I (Datatypes.S i) acc' s') ->
  forall acc s, I 0%nat acc s ->
  exists acc' s', sfold f l acc s = (Ok acc', s') /\ I (length l) acc' s'.
Proof.
  revert I. induction l as [|x l IH]; intros I Hstep acc s H0; simpl.
  - exists acc, s. split; [reflexivity | assumption].
  - destruct (Hstep 0%nat x acc s eq_refl H0) as (acc1 & s1 & E1 & I1).
    unfold sbind. rewrite E1.
    apply (IH (fun i => I (Datatypes.S i))); [|assumption].
    intros i y a ss Hl Hi. apply (Hstep (Datatypes.S i) y a ss Hl Hi).
Qed.

Lemma sfold_cons {A B : Type} (f : B -> A -> S B) (x : A) (l : list A) (acc : B)
  (s : Sampler) :
  sfold f (x :: l) acc s
  = match f acc x s with
    | (Ok a, s') => sfold f l a s'
    | (Raise e, s') => (Raise e, s')
    end.
Proof. reflexivity. Qed.

Lemma sbind_run {A B : Type} (c : S A) (k : A -> S B) (s : Sampler) :
  sbind c k s
  = match c s with
    | (Ok a, s') => k a s'
    | (Raise e, s') => (Raise e, s')
    end.
Proof. reflexivity. Qed.

Lemma update_run (f : Sampler -> Sampler) (s : Sampler) : update f s = (Ok tt, f s).
Proof. reflexivity. Qed.

Lemma get_run {A : Type} (field : Sampler -> A) (s : Sampler) : get field s = (Ok (field s), s).
Proof. reflexivity. Qed.

Lemma sret_run {A : Type} (a : A) (s : Sampler) : sret a s = (Ok a, s).
Proof. reflexivity. Qed.

Lemma read_run {A : Type} (name : string) (field : Sampler -> option A) (s : Sampler) (a : A) :
  field s = Some a -> read name field s = (Ok a, s).
Proof. unfold read. intros ->. reflexivity. Qed.

Lemma drew_refl (s : Sampler) : drew s s.
Proof.
  split; [repeat split|]. exists []. rewrite app_nil_r. split; reflexivity.
Qed.

Lemma drew_trans (s1 s2 s3 : Sampler) : drew s1 s2 -> drew s2 s3 -> drew s1 s3.
Proof.
  intros (A1 & cs1 & C1 & D1) (A2 & cs2 & C2 & D2). split.
  - unfold same_attributes in *. intuition congruence.
  - exists (cs1 ++ cs2)%list. rewrite C2, C1, app_assoc. split; [reflexivity|].
    rewrite forallb_app, D1, D2. reflexivity.
Qed.

(** One random configuration: a draw per parameter. *)
Lemma random_sample_draws (space : list (string * distribution)) (s : Sampler) :
  forallb (fun nd => supported nd.2) space = true ->
  exists ps s', random_sample sample_independent space s = (Ok ps, s') /\ drew s s'.
Proof.
  intros Hsup. unfold random_sample.
  apply (sfold_invariant (fun _ _ s' => drew s s')).
  - intros i [name d] acc s1 Hi Hd.
    assert (Hdraw : random_sampler_sample_independent sample_independent
                      (_random_sampler s1) name d
                    = Ok (sample_independent (_random_sampler s1) name d)).
    { rewrite forallb_forall in Hsup.
      specialize (Hsup (name, d) (proj1 (list_elem_of_In _ _) (list_elem_of_lookup_2 _ _ _ Hi))).
      destruct d; try discriminate; reflexivity. }
    unfold sbind, get, update, sret. cbn beta iota. cbn [_random_sampler log_call].
    rewrite Hdraw.
    destruct (sample_independent (_random_sampler s1) name d) as [v rng'] eqn:Ev.
    eexists _, _. split; [reflexivity|].
    apply (drew_trans _ _ _ Hd). split; [repeat split|].
    exists [RandomSampleIndependent name]. split; reflexivity.
  - apply drew_refl.
Qed.

(** The pool: [num_samples] random configurations, drawn one after the
    other. *)
Lemma generate_random_samples_draws (space : list (string * distribution))
  (num_samples : Z) (s : Sampler) :
  forallb (fun nd => supported nd.2) space = true ->
  exists pool s',
    generate_random_samples sample_independent space num_samples s = (Ok pool, s') /\
    length pool = Z.to_nat num_samples /\ drew s s'.
Proof.
  intros Hsup. unfold generate_random_samples.
  destruct (sfold_invariant (fun i (pool : list params) s' => length pool = i /\ drew s s')
              (fun samples (_ : nat) =>
                 sbind (random_sample sample_independent space)
                       (fun ps => sret (samples ++ [ps])%list))
              (seq 0 (Z.to_nat num_samples))) with (acc := @nil params) (s := s)
    as (pool & s' & E & Hlen & Hd).
  - intros i x acc s1 _ (Hlen & Hd).
    destruct (random_sample_draws space s1 Hsup) as (ps & s2 & E & Hd2).
    unfold sbind, sret. rewrite E. eexists _, _. split; [reflexivity|].
    split; [rewrite length_app; simpl; lia | apply (drew_trans _ _ _ Hd Hd2)].
  - split; [reflexivity | apply drew_refl].
  - rewrite length_seq in Hlen. exists pool, s'. auto.
Qed.

(** The constraint dictionary of a search space whose distributions are all
    known is built without error; the log gets the print and the creation
    of the surrogate. *)
Lemma constraints_loop (space : list (string * distribution)) (s : Sampler)
  (cs0 : list (string * constraint)) :
  forallb (fun nd => supported nd.2) space = true ->
  hyperparameter_constraints s = Some cs0 ->
  exists cs,
    sfold (fun (_ : unit) '(param_name, d) =>
             match constraint_of param_name d with
             | Ok c =>
                 sbind (read "hyperparameter_constraints" hyperparameter_constraints)
                   (fun cs => update (set_hyperparameter_constraints
                                        (dict_set param_name c cs)))
             | Raise e => sraise e
             end) space tt s
    = (Ok tt, set_hyperparameter_constraints cs s).
Proof.
  revert s cs0. induction space as [|[name d] space IH]; intros s cs0 Hsup Hcs.
  - exists cs0. simpl. unfold sret. f_equal. destruct s. simpl in Hcs. subst. reflexivity.
  - simpl in Hsup. apply andb_true_iff in Hsup as (Hd & Hsup).
    assert (Hc : exists c, constraint_of name d = Ok c).
    { destruct d; try discriminate; eexists; reflexivity. }
    destruct Hc as (c & Hc).
    destruct (IH (set_hyperparameter_constraints (dict_set name c cs0) s)
                (dict_set name c cs0) Hsup eq_refl) as (cs & E).
    exists cs. rewrite sfold_cons. cbn beta iota. rewrite Hc.
    unfold sbind, read, update. rewrite Hcs. exact E.
Qed.

Lemma _initialize_llambo_creates (space : list (string * distribution)) (s : Sampler) (b : bool) :
  forallb (fun nd => supported nd.2) space = true ->
  lower_is_better s = Some b ->
  exists s',
    _initialize_llambo LLAMBO space s = (Ok tt, s') /\
    settings s' = settings s /\
    init_configs s' = init_configs s /\
    is_Some (LLAMBO_instance s') /\
    calls s' = (calls s ++ [Printed "Hyperparameter constraints"; LLAMBOCreated])%list.
Proof.
  intros Hsup Hb. unfold _initialize_llambo.
  unfold sbind at 1, update at 1.
  destruct (constraints_loop space (set_hyperparameter_constraints [] s) [] Hsup eq_refl)
    as (cs & E).
  unfold sbind at 1. rewrite E.
  unfold sbind, update, read, get. simpl. rewrite Hb. simpl.
  eexists. split; [reflexivity|]. simpl.
  repeat split; [eexists; reflexivity | rewrite <- app_assoc; reflexivity].
Qed.

(** Trial 1: the pool is drawn, the surrogate is created, and the first
    configuration of the pool is the answer. *)
Lemma sample_relative_first_trial (study : Study) (space : list (string * distribution))
  (trial : FrozenTrial) (s : Sampler) :
  space <> [] ->
  forallb (fun nd => supported nd.2) space = true ->
  number trial = 1%Z ->
  (1 <= n_initial_samples (settings s))%Z ->
  exists pool p s' cs,
    sample_relative study trial space s = (Ok p, s') /\
    (generate_random_samples sample_independent space (n_initial_samples (settings s))
       (set_lower_is_better match direction study with MINIMIZE => true | _ => false end
          (set_search_space space s))).1 = Ok pool /\
    pool !! 0%nat = Some p /\
    warmed_up (n_initial_samples (settings s)) pool s' /\
    calls s' = (calls s ++ cs)%list /\ surrogate_free cs.
Proof.
  intros Hne Hsup Hnum HN. unfold sample_relative.
  destruct space as [|nd space']; [congruence|].
  cbn [length Nat.eqb].
  rewrite sbind_run, update_run. cbn beta iota.
  rewrite sbind_run, get_run. cbn beta iota.
  cbn [settings set_search_space]. rewrite Hnum.
  destruct (Z.leb_spec 1 (n_initial_samples (settings s))); [|lia].
  cbn [Z.eqb Pos.eqb].
  rewrite sbind_run. rewrite sbind_run, update_run. cbn beta iota.
  set (s1 := set_lower_is_better _ (set_search_space (nd :: space') s)).
  destruct (generate_random_samples_draws (nd :: space') (n_initial_samples (settings s)) s1
              Hsup)
    as (pool & s2 & E2 & Hlen & (Hattr & cs2 & Hcalls2 & Hdraws)).
  rewrite sbind_run, E2. cbn beta iota.
  rewrite sbind_run, update_run. cbn beta iota.
  destruct Hattr as (Hset & _ & _ & _ & _ & Hlib & _ & _).
  destruct (_initialize_llambo_creates (nd :: space') (set_init_configs pool s2)
              match direction study with MINIMIZE => true | _ => false end Hsup)
    as (s3 & E3 & Hset3 & Hinit3 & Hl3 & Hcalls3).
  { simpl. rewrite Hlib. reflexivity. }
  rewrite E3. cbn beta iota.
  rewrite sbind_run, (read_run _ _ _ pool) by (rewrite Hinit3; reflexivity).
  cbn beta iota.
  rewrite py_index_nonneg by lia. change (Z.to_nat (1 - 1)) with 0%nat.
  destruct (lookup_lt_is_Some_2 pool 0%nat) as (p & Hp); [lia|]. rewrite Hp.
  exists pool, p, s3, (cs2 ++ [Printed "Hyperparameter constraints"; LLAMBOCreated])%list.
  split; [reflexivity|]. split; [reflexivity|].
  split; [exact Hp|]. split.
  - unfold warmed_up. rewrite Hset3, Hinit3. cbn [settings set_init_configs init_configs].
    rewrite Hset. auto.
  - rewrite Hcalls3. cbn [calls set_init_configs]. rewrite Hcalls2.
    split; [rewrite app_assoc; reflexivity|].
    unfold surrogate_free. rewrite forallb_app. apply andb_true_iff. split; [|reflexivity].
    apply forallb_forall. intros c Hc.
    rewrite forallb_forall in Hdraws. specialize (Hdraws c Hc). destruct c; try discriminate.
    reflexivity.
Qed.

(** Trials 2 to N: the answer is the stored configuration of that rank and
    nothing is called. *)
Lemma sample_relative_warmup (study : Study) (space : list (string * distribution))
  (trial : FrozenTrial) (s : Sampler) (pool : list params) :
  space <> [] ->
  warmed_up (n_initial_samples (settings s)) pool s ->
  (1 < number trial <= n_initial_samples (settings s))%Z ->
  exists p,
    sample_relative study trial space s = (Ok p, set_search_space space s) /\
    pool !! Z.to_nat (number trial - 1) = Some p.
Proof.
  intros Hne (_ & Hpool & Hlen & _) Hnum. unfold sample_relative.
  destruct space as [|nd space']; [congruence|].
  cbn [length Nat.eqb].
  rewrite sbind_run, update_run. cbn beta iota.
  rewrite sbind_run, get_run. cbn beta iota.
  cbn [settings set_search_space].
  destruct (Z.leb_spec (number trial) (n_initial_samples (settings s))); [|lia].
  destruct (Z.eqb_spec (number trial) 1); [lia|].
  rewrite sbind_run, sret_run. cbn beta iota.
  rewrite sbind_run, (read_run _ _ _ pool) by exact Hpool. cbn beta iota.
  rewrite py_index_nonneg by lia.
  destruct (lookup_lt_is_Some_2 pool (Z.to_nat (number trial - 1))) as (p & Hp); [lia|].
  rewrite Hp. exists p. split; reflexivity.
Qed.

(** Trials after the N-th: the answer comes from the surrogate's
    [sample_configurations], after its [_initialize] on trial N + 1. *)
Lemma sample_relative_guided (study : Study) (space : list (string * distribution))
  (trial : FrozenTrial) (s : Sampler) (pool : list params) :
  space <> [] ->
  warmed_up (n_initial_samples (settings s)) pool s ->
  (n_initial_samples (settings s) < number trial)%Z ->
  exists l s',
    sample_relative study trial space s = (Ok (sample_configurations l).1, s') /\
    warmed_up (n_initial_samples (settings s)) pool s' /\
    calls s' = (calls s
                ++ (if (number trial =? n_initial_samples (settings s) + 1)%Z
                    then [LLAMBOInitialize] else [])
                ++ [LLAMBOSampleConfigurations])%list.
Proof.
  intros Hne (HN & Hpool & Hlen & (l0 & Hl0)) Hnum. unfold sample_relative.
  destruct space as [|nd space']; [congruence|].
  cbn [length Nat.eqb].
  rewrite sbind_run, update_run. cbn beta iota.
  rewrite sbind_run, get_run. cbn beta iota.
  cbn [settings set_search_space].
  destruct (Z.leb_spec (number trial) (n_initial_samples (settings s))); [lia|].
  rewrite sbind_run.
  destruct (Z.eqb_spec (number trial) (n_initial_samples (settings s) + 1)).
  - rewrite sbind_run, (read_run _ _ _ l0) by exact Hl0. cbn beta iota.
    rewrite sbind_run, (read_run _ _ _ pool) by exact Hpool. cbn beta iota.
    rewrite sbind_run, update_run. cbn beta iota. rewrite update_run. cbn beta iota.
    unfold _sample_parameters.
    set (l := _initialize l0 pool (observed_configs l0) (observed_fvals l0)).
    rewrite sbind_run, (read_run _ _ _ l) by reflexivity. cbn beta iota.
    rewrite sbind_run, update_run. cbn beta iota.
    destruct (sample_configurations l) as [p l'] eqn:El.
    rewrite sbind_run, update_run. cbn beta iota. rewrite sret_run.
    exists l. rewrite El. eexists. split; [reflexivity|]. split.
    + unfold warmed_up. cbn. rewrite Hpool. eauto.
    + cbn. rewrite <- !app_assoc. reflexivity.
  - rewrite sret_run. cbn beta iota. unfold _sample_parameters.
    rewrite sbind_run, (read_run _ _ _ l0) by exact Hl0. cbn beta iota.
    rewrite sbind_run, update_run. cbn beta iota.
    destruct (sample_configurations l0) as [p l'] eqn:El.
    rewrite sbind_run, update_run. cbn beta iota. rewrite sret_run.
    exists l0. rewrite El. eexists. split; [reflexivity|]. split.
    + unfold warmed_up. cbn. rewrite Hpool. eauto.
    + cbn. reflexivity.
Qed.

(** Reporting an outcome keeps the pool and the surrogate in place. *)
Lemma after_trial_keeps_warm (study : Study) (trial : FrozenTrial) (o : outcome)
  (s : Sampler) (N : Z) (pool : list params) :
  reportable o = true ->
  warmed_up N pool s ->
  exists s',
    after_trial update_history study trial (o_state o) (o_values o) s = (Ok tt, s') /\
    warmed_up N pool s'.
Proof.
  intros Hrep (HN & Hpool & Hlen & (l & Hl)). unfold after_trial. rewrite Hl.
  unfold reportable in Hrep.
  destruct (o_state o); try (exists s; split; [reflexivity | unfold warmed_up; eauto]).
  destruct (o_values o) as [[|v vs]|]; try discriminate;
    try (exists s; split; [reflexivity | unfold warmed_up; eauto]).
  cbn. eexists. split; [reflexivity|]. unfold warmed_up. cbn. eauto.
Qed.

Lemma set_search_space_keeps_warm (space : list (string * distribution)) (s : Sampler)
  (N : Z) (pool : list params) :
  warmed_up N pool s -> warmed_up N pool (set_search_space space s).
Proof. intros H. exact H. Qed.

(** The trials that follow trial 1. *)
Lemma run_trials_after_first (study : Study) (space : list (string * distribution))
  (N : Z) (pool : list params) :
  space <> [] ->
  forall (outcomes : list outcome) (first : Z) (s : Sampler),
    (2 <= first)%Z ->
    warmed_up N pool s ->
    forallb reportable outcomes = true ->
    exists answers s',
      run_trials study space first outcomes s = (Ok answers, s') /\
      length answers = length outcomes /\
      forall j p cs, answers !! j = Some (p, cs) ->
        ((first + Z.of_nat j <= N)%Z ->
           pool !! Z.to_nat (first + Z.of_nat j - 1) = Some p /\ cs = []) /\
        ((N < first + Z.of_nat j)%Z ->
           (exists l, p = (sample_configurations l).1) /\
           cs = ((if (first + Z.of_nat j =? N + 1)%Z then [LLAMBOInitialize] else [])
                 ++ [LLAMBOSampleConfigurations])%list).
Proof.
  intros Hne. induction outcomes as [|o outcomes IH]; intros first s Hfirst Hwarm Hrep.
  - exists [], s. split; [reflexivity|]. split; [reflexivity|]. intros j p cs; discriminate.
  - simpl in Hrep. apply andb_true_iff in Hrep as (Ho & Hrep).
    pose proof Hwarm as (HN & _).
    cbn [SamplerBase.run_trials]. rewrite sbind_run. unfold SamplerBase.run_trial.
    rewrite sbind_run, get_run. cbn beta iota.
    destruct (Z_le_gt_dec first N) as [Hle | Hgt].
    + destruct (sample_relative_warmup study space {| number := first; trial_params := [] |}
                  s pool Hne) as (p & E & Hp).
      { rewrite HN. exact Hwarm. }
      { rewrite HN. simpl. lia. }
      rewrite sbind_run, E. cbn beta iota.
      rewrite sbind_run, get_run. cbn beta iota.
      destruct (after_trial_keeps_warm study {| number := first; trial_params := p |} o
                  (set_search_space space s) N pool Ho Hwarm) as (s2 & E2 & Hwarm2).
      rewrite sbind_run, E2. cbn beta iota. rewrite sret_run.
      destruct (IH (first + 1)%Z s2) as (answers & s' & E3 & Hlen & Hall); [lia | assumption..|].
      rewrite sbind_run, E3. cbn beta iota. rewrite sret_run.
      eexists _, s'. split; [reflexivity|]. split; [simpl; f_equal; assumption|].
      intros [|j] q cs Hj.
      * injection Hj as <- <-. cbn [calls set_search_space]. rewrite drop_all.
        simpl in Hp. rewrite Z.add_0_r. split; [auto | lia].
      * specialize (Hall j q cs Hj).
        replace (first + Z.of_nat (Datatypes.S j))%Z with (first + 1 + Z.of_nat j)%Z by lia.
        exact Hall.
    + destruct (sample_relative_guided study space {| number := first; trial_params := [] |}
                  s pool Hne) as (l & s1 & E & Hwarm1 & Hcalls).
      { rewrite HN. exact Hwarm. }
      { rewrite HN. simpl. lia. }
      rewrite HN in Hwarm1, Hcalls. simpl in Hcalls.
      rewrite sbind_run, E. cbn beta iota.
      rewrite sbind_run, get_run. cbn beta iota.
      destruct (after_trial_keeps_warm study
                  {| number := first; trial_params := (sample_configurations l).1 |} o
                  s1 N pool Ho Hwarm1) as (s2 & E2 & Hwarm2).
      rewrite sbind_run, E2. cbn beta iota. rewrite sret_run.
      destruct (IH (first + 1)%Z s2) as (answers & s' & E3 & Hlen & Hall); [lia | assumption..|].
      rewrite sbind_run, E3. cbn beta iota. rewrite sret_run.
      eexists _, s'. split; [reflexivity|]. split; [simpl; f_equal; assumption|].
      intros [|j] q cs Hj.
      * injection Hj as <- <-. rewrite Hcalls, drop_app_length, Z.add_0_r.
        split; [lia|]. intros _. split; [exists l; reflexivity | reflexivity].
      * specialize (Hall j q cs Hj).
        replace (first + Z.of_nat (Datatypes.S j))%Z with (first + 1 + Z.of_nat j)%Z by lia.
        exact Hall.
Qed.

(** X28. A run with a non-empty search space of known distributions and
    an initial-sample count [N >= 1], whose trials are numbered from 1:
    the pool of [N] random configurations is drawn when trial 1 is asked
    for; each of the trials 1..N is answered by the configuration of its
    rank in the pool, without any call of the surrogate's sampling path
    (and, after trial 1, without any call at all); every later trial is
    answered by the surrogate's [sample_configurations]. *)
Theorem warmup_from_pool_then_surrogate (study : Study)
  (space : list (string * distribution)) (outcomes : list outcome) (s : Sampler) :
  space <> [] ->
  forallb (fun nd => supported nd.2) space = true ->
  (1 <= n_initial_samples (settings s))%Z ->
  forallb reportable outcomes = true ->
  let N := n_initial_samples (settings s) in
  exists pool answers s',
    (generate_random_samples sample_independent space N
       (set_lower_is_better match direction study with MINIMIZE => true | _ => false end
          (set_search_space space s))).1 = Ok pool /\
    length pool = Z.to_nat N /\
    run_trials study space 1 outcomes s = (Ok answers, s') /\
    length answers = length outcomes /\
    forall j p cs, answers !! j = Some (p, cs) ->
      ((Z.of_nat j < N)%Z ->
         pool !! j = Some p /\ surrogate_free cs /\ ((0 < j)%nat -> cs = [])) /\
      ((N <= Z.of_nat j)%Z ->
         (exists l, p = (sample_configurations l).1) /\
         cs = ((if (Z.of_nat j =? N)%Z then [LLAMBOInitialize] else [])
               ++ [LLAMBOSampleConfigurations])%list).
Proof.
  intros Hne Hsup HN Hrep N.
  destruct (sample_relative_first_trial study space {| number := 1; trial_params := [] |} s
              Hne Hsup eq_refl HN) as (pool & p & s1 & cs1 & E1 & Epool & Hp & Hwarm & Hcalls & Hfree).
  fold N in Epool, Hwarm. exists pool.
  assert (Hlen : length pool = Z.to_nat N) by apply Hwarm.
  destruct outcomes as [|o outcomes].
  - exists [], s. split; [assumption|]. split; [assumption|]. split; [reflexivity|].
    split; [reflexivity|]. intros j q cs; discriminate.
  - simpl in Hrep. apply andb_true_iff in Hrep as (Ho & Hrep).
    cbn [SamplerBase.run_trials]. rewrite sbind_run. unfold SamplerBase.run_trial.
    rewrite sbind_run, get_run. cbn beta iota.
    rewrite sbind_run, E1. cbn beta iota.
    rewrite sbind_run, get_run. cbn beta iota.
    destruct (after_trial_keeps_warm study {| number := 1; trial_params := p |} o
                s1 N pool Ho Hwarm) as (s2 & E2 & Hwarm2).
    rewrite sbind_run, E2. cbn beta iota. rewrite sret_run.
    destruct (run_trials_after_first study space N pool Hne outcomes 2%Z s2)
      as (answers & s' & E3 & Hlen3 & Hall); [lia | assumption..|].
    change (1 + 1)%Z with 2%Z.
    rewrite sbind_run, E3. cbn beta iota. rewrite sret_run.
    eexists _, s'. split; [assumption|]. split; [assumption|]. split; [reflexivity|].
    split; [simpl; f_equal; assumption|].
    intros [|j] q cs Hj.
    + injection Hj as <- <-. rewrite Hcalls, drop_app_length.
      split; [intros _; split; [assumption | split; [assumption | lia]] | lia].
    + destruct (Hall j q cs Hj) as (Hw & Hg). split.
      * intros Hj'. destruct Hw as (Hq & ->); [lia|].
        replace (Z.to_nat (2 + Z.of_nat j - 1)) with (Datatypes.S j) in Hq by lia.
        split; [assumption|]. split; [reflexivity | auto].
      * intros Hj'. destruct Hg as (Hl & ->); [lia|]. split; [assumption|].
        replace (2 + Z.of_nat j =? N + 1)%Z with (Z.of_nat (Datatypes.S j) =? N)%Z; [reflexivity|].
        destruct (Z.eqb_spec (Z.of_nat (Datatypes.S j)) N), (Z.eqb_spec (2 + Z.of_nat j) (N + 1));
          try reflexivity; lia.
Qed.

End WithCollaborators.

Import Scenario.

Lemma warmup_from_pool_then_surrogate_witness :
  let study := {| direction := MINIMIZE |} in
  let outcomes := [completed 3; completed 1; completed 2; completed 5] in
  let s := fresh_sampler 2 None in
  x_space <> [] /\
  forallb (fun nd => supported nd.2) x_space = true /\
  (1 <= n_initial_samples (settings s))%Z /\
  forallb reportable outcomes = true /\
  exists pool answers s',
    (generate_random_samples counting_draw x_space 2
       (set_lower_is_better true (set_search_space x_space s))).1 = Ok pool /\
    length pool = Z.to_nat 2 /\
    run_trials counting_draw recorder_new recorder_frame recorder_frame
               recorder_initialize recorder_sample recorder_update
               study x_space 1 outcomes s = (Ok answers, s') /\
    length answers = length outcomes /\
    forall j p cs, answers !! j = Some (p, cs) ->
      ((Z.of_nat j < 2)%Z ->
         pool !! j = Some p /\ surrogate_free cs /\ ((0 < j)%nat -> cs = [])) /\
      ((2 <= Z.of_nat j)%Z ->
         (exists l, p = (recorder_sample l).1) /\
         cs = ((if (Z.of_nat j =? 2)%Z then [LLAMBOInitialize] else [])
               ++ [LLAMBOSampleConfigurations])%list).
Proof.
  split; [discriminate|]. split; [reflexivity|]. split; [simpl; lia|].
  split; [reflexivity|].
  apply (warmup_from_pool_then_surrogate counting_draw recorder_new recorder_frame
           recorder_frame recorder_initialize recorder_sample recorder_update
           {| direction := MINIMIZE |} x_space
           [completed 3; completed 1; completed 2; completed 5] (fresh_sampler 2 None));
    [discriminate | reflexivity | simpl; lia | reflexivity].
Defined.

(** C9. The first trial of a run, which the host numbers 0, gets no
    configuration when the search space is given to the constructor: the
    trial takes the warm-up branch, but the pool is only drawn when the
    trial number is 1, and reading it raises [AttributeError]. *)
Lemma sample_relative_trial_zero_raises :
  (sample_relative counting_draw recorder_new recorder_frame recorder_frame
     recorder_initialize recorder_sample
     {| direction := MINIMIZE |} {| number := 0; trial_params := [] |} x_space
     (fresh_sampler 5 (Some x_space))).1
  = Raise (AttributeError "init_configs").
Proof. reflexivity. Qed.

End SamplerFacts.

(** ** Serialization of a configuration *)

Module SerializationFacts.
Import Py GenerativeSMUtils Statements Scenario MonadFacts.

Lemma append_cons (x : ascii) (a b : string) : String x a ++ b = String x (a ++ b).
Proof. reflexivity. Qed.

Lemma append_assoc (a b c : string) : (a ++ b) ++ c = a ++ (b ++ c).
Proof.
  induction a as [|x a IH]; [reflexivity|]. rewrite !append_cons, IH. reflexivity.
Qed.

Lemma append_nil_r (a : string) : a ++ "" = a.
Proof.
  induction a as [|x a IH]; [reflexivity|]. rewrite append_cons, IH. reflexivity.
Qed.





(** The rows [iterrows] hands out. *)
Lemma iterrows_length (t : np_dtype) (frame : list (row pyval)) :
  length (iterrows t frame) = length frame.
Proof.
  unfold iterrows. rewrite length_zip_with, length_seq, length_map. lia.
Qed.

Lemma iterrows_lookup (t : np_dtype) (frame : list (row pyval)) (i : nat) (r : row pyval) :
  frame !! i = Some r -> iterrows t frame !! i = Some (i, series t r).
Proof.
  intros Hi. unfold iterrows. apply lookup_zip_with_Some.
  exists i, (series t r). split; [reflexivity|]. split.
  - apply lookup_seq. split; [reflexivity | apply (lookup_lt_Some _ _ _ Hi)].
  - change (map (series t) frame) with (series t <$> frame).
    rewrite list_lookup_fmap, Hi. reflexivity.
Qed.

Lemma iterrows_lookup_inv (t : np_dtype) (frame : list (row pyval)) (i k : nat)
  (s : row pyval) :
  iterrows t frame !! i = Some (k, s) ->
  k = i /\ exists r, frame !! i = Some r /\ s = series t r.
Proof.
  unfold iterrows. intros Hi.
  apply lookup_zip_with_Some in Hi as (a & b & [= -> ->] & Ha & Hb).
  apply lookup_seq in Ha as (Ha & _). simpl in Ha. subst a. split; [reflexivity|].
  change (map (series t) frame) with (series t <$> frame) in Hb.
  rewrite list_lookup_fmap in Hb.
  destruct (frame !! i) as [r|]; [|discriminate]. injection Hb as <-. eauto.
Qed.

Lemma series_names (t : np_dtype) (r : row pyval) : map fst (series t r) = map fst r.
Proof. unfold series. rewrite map_map. reflexivity. Qed.




End SerializationFacts.

(** ** Warping and unwarping *)

Module WarpFacts.
Import Py GenerativeSMUtils GenerativeSM Statements Scenario.

Section Dictionaries.

Context {A : Type}.
Implicit Types (d : list (string * A)) (k : string) (v : A).

Lemma dict_get_set_eq d k v : dict_get k (dict_set k v d) = Ok v.
Proof.
  induction d as [|[k' v'] d IH]; simpl.
  - rewrite String.eqb_refl. reflexivity.
  - destruct (String.eqb_spec k k') as [-> | Hne]; simpl.
    + rewrite String.eqb_refl. reflexivity.
    + destruct (String.eqb_spec k k'); [congruence | assumption].
Qed.

Lemma dict_get_set_ne d k k' v : k <> k' -> dict_get k' (dict_set k v d) = dict_get k' d.
Proof.
  intros Hne. induction d as [|[k0 v0] d IH]; simpl.
  - destruct (String.eqb_spec k' k); [congruence | reflexivity].
  - destruct (String.eqb_spec k k0) as [-> | Hk]; simpl.
    + destruct (String.eqb_spec k' k0); [congruence | reflexivity].
    + destruct (String.eqb_spec k' k0); [reflexivity | assumption].
Qed.

(** Writing back the value a key had undoes a write to that key. *)
Lemma dict_set_restore d k v w : dict_get k d = Ok w -> dict_set k w (dict_set k v d) = d.
Proof.
  induction d as [|[k0 v0] d IH]; simpl; [discriminate|].
  destruct (String.eqb_spec k k0) as [-> | Hk]; simpl.
  - intros [= ->]. rewrite String.eqb_refl. reflexivity.
  - intros Hw. destruct (String.eqb_spec k k0); [congruence|]. rewrite IH by assumption.
    reflexivity.
Qed.

(** Writes to two different keys that are both present commute. *)
Lemma dict_set_comm d k1 k2 v1 v2 w1 w2 :
  k1 <> k2 -> dict_get k1 d = Ok w1 -> dict_get k2 d = Ok w2 ->
  dict_set k1 v1 (dict_set k2 v2 d) = dict_set k2 v2 (dict_set k1 v1 d).
Proof.
  intros Hne. induction d as [|[k0 v0] d IH]; simpl; [discriminate|].
  destruct (String.eqb_spec k1 k0) as [-> | H1], (String.eqb_spec k2 k0) as [-> | H2];
    simpl; try congruence.
  - intros _ _. rewrite String.eqb_refl.
    destruct (String.eqb_spec k2 k0); [congruence | reflexivity].
  - intros _ _. rewrite String.eqb_refl.
    destruct (String.eqb_spec k1 k0); [congruence | reflexivity].
  - intros G1 G2. destruct (String.eqb_spec k1 k0); [congruence|].
    destruct (String.eqb_spec k2 k0); [congruence|]. rewrite IH by assumption. reflexivity.
Qed.

Lemma dict_set_keys d k v w :
  dict_get k d = Ok w -> map fst (dict_set k v d) = map fst d.
Proof.
  induction d as [|[k' v'] d IH]; [discriminate|]. simpl.
  destruct (String.eqb k k'); [reflexivity|]. intros H. simpl. f_equal. apply IH. exact H.
Qed.

End Dictionaries.

Section Transform.

Context {V : Type}.
Implicit Types (f g : V -> result V) (cs : list (string * constraint)) (config : row V).

Lemma transform_config_cons f (name : string) (c : constraint) cs config :
  transform_config f ((name, c) :: cs) config
  = if String.eqb (dist_type c) "log" then
      rbind (dict_get name config) (fun x =>
      rbind (f x) (fun y => transform_config f cs (dict_set name y config)))
    else transform_config f cs config.
Proof.
  unfold transform_config. cbn [rfold].
  destruct (String.eqb (dist_type c) "log"); [|reflexivity].
  destruct (dict_get name config) as [x|e]; [|reflexivity]. cbn [rbind].
  destruct (f x); reflexivity.
Qed.

(** A key outside the constraint set is not touched. *)
Lemma transform_config_get_outside f cs config config' (k : string) :
  k ∉ map fst cs ->
  transform_config f cs config = Ok config' ->
  dict_get k config' = dict_get k config.
Proof.
  revert config. induction cs as [|[name c] cs IH]; intros config Hk E.
  - injection E as <-. reflexivity.
  - rewrite transform_config_cons in E. cbn [map fst] in Hk.
    apply not_elem_of_cons in Hk as (Hne & Hk).
    destruct (String.eqb (dist_type c) "log"); [|apply IH; assumption].
    destruct (dict_get name config) as [x|e]; [|discriminate]. cbn [rbind] in E.
    destruct (f x) as [y|e]; [|discriminate]. cbn [rbind] in E.
    rewrite (IH _ Hk E). apply dict_get_set_ne. congruence.
Qed.

(** The fields that are not log-scaled are left as they are. *)
Lemma transform_config_linear_fields f cs config config' :
  transform_config f cs config = Ok config' ->
  same_linear_fields cs config config'.
Proof.
  revert config. induction cs as [|[name c] cs IH]; intros config E k Hk.
  - injection E as <-. reflexivity.
  - rewrite transform_config_cons in E.
    unfold log_scaled in Hk. cbn [existsb fst snd] in Hk.
    apply orb_false_iff in Hk as (Hhead & Hk).
    destruct (String.eqb (dist_type c) "log"); [|apply (IH _ E); assumption].
    rewrite andb_true_r in Hhead. apply String.eqb_neq in Hhead.
    destruct (dict_get name config) as [x|e]; [|discriminate]. cbn [rbind] in E.
    destruct (f x) as [y|e]; [|discriminate]. cbn [rbind] in E.
    rewrite (IH _ E k Hk). apply dict_get_set_ne. assumption.
Qed.

(** A write to a key outside the constraint set can be done before or
    after the transformation. *)
Lemma transform_config_set_outside g cs config (k : string) (v w : V) :
  k ∉ map fst cs ->
  dict_get k config = Ok w ->
  transform_config g cs (dict_set k v config)
  = rbind (transform_config g cs config) (fun r => Ok (dict_set k v r)).
Proof.
  revert config w. induction cs as [|[name c] cs IH]; intros config w Hk Hw.
  - reflexivity.
  - rewrite !transform_config_cons. cbn [map fst] in Hk.
    apply not_elem_of_cons in Hk as (Hne & Hk).
    destruct (String.eqb (dist_type c) "log"); [|apply (IH _ w); assumption].
    rewrite dict_get_set_ne by assumption.
    destruct (dict_get name config) as [x|e] eqn:Ex; [|reflexivity]. cbn [rbind].
    destruct (g x) as [y|e]; [|reflexivity]. cbn [rbind].
    rewrite (dict_set_comm config name k y v x w) by congruence.
    apply (IH _ w); [assumption|]. rewrite dict_get_set_ne by congruence. assumption.
Qed.

(** When [g] undoes [f] on the log-scaled fields of a record, transforming
    with [f] and then with [g] gives the record back. *)
Lemma transform_config_round_trip f g cs :
  NoDup (map fst cs) ->
  forall config,
    (forall name c, (name, c) ∈ cs -> dist_type c = "log" ->
       exists x y, dict_get name config = Ok x /\ f x = Ok y /\ g y = Ok x) ->
    exists config',
      transform_config f cs config = Ok config' /\
      transform_config g cs config' = Ok config.
Proof.
  induction cs as [|[name c] cs IH]; intros Hnd config Hlog.
  - exists config. split; reflexivity.
  - cbn [map fst] in Hnd. apply NoDup_cons in Hnd as (Hname & Hnd).
    rewrite transform_config_cons.
    destruct (String.eqb_spec (dist_type c) "log") as [Hc | Hc].
    + destruct (Hlog name c) as (x & y & Hx & Hf & Hg); [left | assumption|].
      rewrite Hx. cbn [rbind]. rewrite Hf. cbn [rbind].
      destruct (IH Hnd (dict_set name y config)) as (config' & E1 & E2).
      { intros name' c' Hin Hc'.
        destruct (Hlog name' c') as (x' & y' & Hx' & Hf' & Hg'); [right; assumption | assumption|].
        exists x', y'. split; [|split; assumption].
        rewrite dict_get_set_ne; [assumption|].
        intros ->. apply Hname. apply list_elem_of_In, in_map_iff.
        exists (name', c'). split; [reflexivity | apply list_elem_of_In; assumption]. }
      exists config'. split; [assumption|].
      rewrite transform_config_cons.
      destruct (String.eqb_spec (dist_type c) "log"); [|congruence].
      rewrite (transform_config_get_outside f cs _ config' name Hname E1).
      rewrite dict_get_set_eq. cbn [rbind]. rewrite Hg. cbn [rbind].
      rewrite (transform_config_set_outside g cs config' name x y Hname).
      * rewrite E2. cbn [rbind]. f_equal. apply dict_set_restore. assumption.
      * rewrite (transform_config_get_outside f cs _ config' name Hname E1).
        apply dict_get_set_eq.
    + destruct (IH Hnd config) as (config' & E1 & E2).
      { intros name' c' Hin Hc'. apply (Hlog name' c'); [right; assumption | assumption]. }
      exists config'. split; [assumption|].
      rewrite transform_config_cons.
      destruct (String.eqb_spec (dist_type c) "log"); [congruence | assumption].
Qed.

Lemma transform_config_keys f cs config config' :
  transform_config f cs config = Ok config' -> map fst config' = map fst config.
Proof.
  revert config. induction cs as [|[name c] cs IH]; intros config E.
  - injection E as <-. reflexivity.
  - rewrite transform_config_cons in E.
    destruct (String.eqb (dist_type c) "log"); [|apply IH; exact E].
    destruct (dict_get name config) as [x|e] eqn:Ex; [|discriminate]. cbn [rbind] in E.
    destruct (f x) as [y|e]; [|discriminate]. cbn [rbind] in E.
    rewrite (IH _ E). apply (dict_set_keys config name y x Ex).
Qed.

(** A log-scaled field holds the image of its value: the constraint set
    is a dictionary, so the field is transformed once. *)
Lemma transform_config_log_field f cs config config' (k : string) (x : V) :
  NoDup (map fst cs) ->
  transform_config f cs config = Ok config' ->
  log_scaled cs k = true ->
  dict_get k config = Ok x ->
  exists y, f x = Ok y /\ dict_get k config' = Ok y.
Proof.
  revert config. induction cs as [|[name c] cs IH]; intros config Hnd E Hk Hx.
  - discriminate.
  - cbn [map fst] in Hnd. apply NoDup_cons in Hnd as (Hname & Hnd).
    rewrite transform_config_cons in E.
    unfold log_scaled in Hk. cbn [existsb fst snd] in Hk.
    destruct (String.eqb_spec (dist_type c) "log") as [Hc | Hc].
    + destruct (dict_get name config) as [x0|e] eqn:Ex0; [|discriminate]. cbn [rbind] in E.
      destruct (f x0) as [y0|e] eqn:Ey0; [|discriminate]. cbn [rbind] in E.
      destruct (String.eqb_spec name k) as [-> | Hne].
      * assert (x0 = x) as -> by congruence. exists y0. split; [exact Ey0|].
        rewrite (transform_config_get_outside f cs _ config' k Hname E).
        apply dict_get_set_eq.
      * cbn [andb orb] in Hk. apply (IH (dict_set name y0 config) Hnd E Hk).
        rewrite dict_get_set_ne by exact Hne. exact Hx.
    + rewrite andb_false_r in Hk. cbn [orb] in Hk. apply (IH config Hnd E Hk Hx).
Qed.

(** The transformation succeeds when every log-scaled hyperparameter is
    a field on which [f] is defined. *)
Lemma transform_config_succeeds f cs config :
  NoDup (map fst cs) ->
  (forall name c, (name, c) ∈ cs -> dist_type c = "log" ->
     exists x y, dict_get name config = Ok x /\ f x = Ok y) ->
  exists config', transform_config f cs config = Ok config'.
Proof.
  revert config. induction cs as [|[name c] cs IH]; intros config Hnd Hlog.
  - exists config. reflexivity.
  - cbn [map fst] in Hnd. apply NoDup_cons in Hnd as (Hname & Hnd).
    rewrite transform_config_cons.
    destruct (String.eqb_spec (dist_type c) "log") as [Hc | Hc].
    + destruct (Hlog name c) as (x & y & Hx & Hy); [left | exact Hc|].
      rewrite Hx. cbn [rbind]. rewrite Hy. cbn [rbind].
      apply (IH _ Hnd). intros name' c' Hin Hc'.
      destruct (Hlog name' c') as (x' & y' & Hx' & Hy'); [right; exact Hin | exact Hc'|].
      exists x', y'. split; [|exact Hy'].
      rewrite dict_get_set_ne; [exact Hx'|].
      intros ->. apply Hname. apply list_elem_of_In, in_map_iff.
      exists (name', c'). split; [reflexivity | apply list_elem_of_In; exact Hin].
    + apply (IH _ Hnd). intros name' c' Hin Hc'. apply (Hlog name' c'); [right|]; assumption.
Qed.

(** A hyperparameter flagged log-scale has a constraint that says so. *)
Lemma log_scaled_constraint cs (k : string) :
  log_scaled cs k = true -> exists c, (k, c) ∈ cs /\ dist_type c = "log".
Proof.
  unfold log_scaled. intros H. apply existsb_exists in H as ([n c] & Hin & Hnc).
  apply andb_true_iff in Hnc as (Hn & Hc). simpl in Hn, Hc.
  apply String.eqb_eq in Hn, Hc. subst n. exists c.
  split; [apply list_elem_of_In; exact Hin | exact Hc].
Qed.

Lemma constraint_log_scaled cs (k : string) (c : constraint) :
  (k, c) ∈ cs -> dist_type c = "log" -> log_scaled cs k = true.
Proof.
  intros Hin Hc. unfold log_scaled. apply existsb_exists. exists (k, c).
  split; [apply list_elem_of_In; exact Hin|]. simpl. rewrite Hc, !String.eqb_refl. reflexivity.
Qed.

(** The record after [f]: the image of its log-scaled fields. *)
Lemma transform_config_mapped f cs config config' :
  NoDup (map fst cs) ->
  transform_config f cs config = Ok config' ->
  log_fields_mapped f cs config config'.
Proof.
  intros Hnd E. split; [apply (transform_config_keys f cs config config' E)|].
  intros k x Hx. destruct (log_scaled cs k) eqn:Hk.
  - apply (transform_config_log_field f cs config config' k x Hnd E Hk Hx).
  - rewrite (transform_config_linear_fields f cs config config' E k Hk). exact Hx.
Qed.

End Transform.

(** In the reals the two transformations of a positive cell undo each
    other. *)
Lemma real_log10_pow10 (x : R) :
  (0 < x)%R -> exists y, real_log10 x = Ok y /\ real_pow10 y = Ok x.
Proof.
  intros Hx. exists (ln x / ln 10)%R. split; [reflexivity|].
  unfold real_pow10, Rpower. f_equal.
  assert (H10 : ln 10 <> 0%R) by (apply ln_neq_0; Lra.lra).
  replace (ln x / ln 10 * ln 10)%R with (ln x) by (field; assumption).
  apply exp_ln. assumption.
Qed.

Lemma real_log10_hundredth : real_log10 (1 / 100) = Ok (-2)%R.
Proof.
  unfold real_log10. f_equal.
  assert (H10 : ln 10 <> 0%R) by (apply ln_neq_0; Lra.lra).
  replace (1 / 100)%R with (/ (10 * 10))%R by Lra.lra.
  rewrite ln_Rinv by Lra.lra. rewrite ln_mult by Lra.lra. field. assumption.
Qed.

Lemma real_pow10_minus_two : real_pow10 (-2) = Ok (1 / 100)%R.
Proof.
  unfold real_pow10. f_equal.
  replace (-2)%R with (- INR 2)%R by (simpl; Lra.lra).
  rewrite Rpower_Ropp, Rpower_pow by Lra.lra. simpl. Lra.lra.
Qed.

Section RoundTrip.

(** [np.log10] and the power of ten on the cells of a table, the cells on
    which the logarithm is taken, and what "within tolerance" means for
    two cells. *)
Context {V : Type}.
Variable np_log10 : V -> result V.
Variable pow10 : V -> result V.
Variable positive : V -> Prop.
Variable close : V -> V -> Prop.

(** One record, warped and unwarped. *)
Lemma transform_config_there_and_back (cs : list (string * constraint)) (config : row V) :
  NoDup (map fst cs) ->
  (forall x, positive x -> exists y z, np_log10 x = Ok y /\ pow10 y = Ok z /\ close z x) ->
  (forall name c, (name, c) ∈ cs -> dist_type c = "log" ->
     exists x, dict_get name config = Ok x /\ positive x) ->
  exists warped back,
    transform_config np_log10 cs config = Ok warped /\
    transform_config pow10 cs warped = Ok back /\
    log_fields_mapped np_log10 cs config warped /\
    same_within close cs config back.
Proof.
  intros Hnd Hinv Hpos.
  destruct (transform_config_succeeds np_log10 cs config Hnd) as (warped & Ew).
  { intros name c Hin Hc. destruct (Hpos name c Hin Hc) as (x & Hx & Hx0).
    destruct (Hinv x Hx0) as (y & _ & Hy & _). eauto. }
  pose proof (transform_config_mapped np_log10 cs config warped Hnd Ew) as (Hkeys & Hw).
  destruct (transform_config_succeeds pow10 cs warped Hnd) as (back & Eb).
  { intros name c Hin Hc. destruct (Hpos name c Hin Hc) as (x & Hx & Hx0).
    destruct (Hinv x Hx0) as (y & z & Hy & Hz & _).
    specialize (Hw name x Hx). rewrite (constraint_log_scaled cs name c Hin Hc) in Hw.
    destruct Hw as (y' & Hy' & Hget). exists y, z. split; [congruence | exact Hz]. }
  pose proof (transform_config_mapped pow10 cs warped back Hnd Eb) as (Hkeys' & Hb).
  exists warped, back. split; [exact Ew|]. split; [exact Eb|].
  split; [split; [exact Hkeys | exact Hw]|].
  split; [congruence|]. intros k x Hx. specialize (Hw k x Hx).
  destruct (log_scaled cs k) eqn:Hk.
  - destruct Hw as (y & Hy & Hget). specialize (Hb k y Hget). rewrite Hk in Hb.
    destruct Hb as (z & Hz & Hget'). exists z. split; [exact Hget'|].
    destruct (log_scaled_constraint cs k Hk) as (c & Hin & Hc).
    destruct (Hpos k c Hin Hc) as (x' & Hx' & Hx0).
    assert (x' = x) as -> by congruence.
    destruct (Hinv x Hx0) as (y' & z' & Hy' & Hz' & Hclose).
    assert (y' = y) as -> by congruence. assert (z' = z) as -> by congruence. exact Hclose.
  - specialize (Hb k x Hw). rewrite Hk in Hb. exists x. split; [exact Hb | reflexivity].
Qed.

(** C3. [np.log10], the power of ten and the tolerance of their round
    trip are those of the numeric library: whatever they are, as long as
    the power of the logarithm of a positive cell is within tolerance of
    the cell, then for every table in which each log-scaled hyperparameter
    of the constraint set is a positive field of every row:
    - warping returns the table with [np.log10] applied to the log-scaled
      fields and the other fields as they are;
    - unwarping the warped table returns the table within tolerance: the
      log-scaled fields are within tolerance of the original ones, the
      other fields are equal to them;
    - and when the round trip of the library is exact, unwarping the
      warped table returns the table itself. *)
Theorem warp_unwarp_round_trip (self : LLMGenerativeSM) (table : list (row V)) :
  NoDup (map fst (hyperparameter_constraints self)) ->
  (forall x, positive x -> exists y z, np_log10 x = Ok y /\ pow10 y = Ok z /\ close z x) ->
  (forall config name c,
     config ∈ table -> (name, c) ∈ hyperparameter_constraints self ->
     dist_type c = "log" ->
     exists x, dict_get name config = Ok x /\ positive x) ->
  exists warped back,
    _warp_candidate_points np_log10 self table = Ok warped /\
    _unwarp_candidate_points pow10 self warped = Ok back /\
    Forall2 (log_fields_mapped np_log10 (hyperparameter_constraints self)) table warped /\
    Forall2 (same_within close (hyperparameter_constraints self)) table back /\
    ((forall x, positive x -> exists y, np_log10 x = Ok y /\ pow10 y = Ok x) ->
     back = table).
Proof.
  intros Hnd Hinv Hpos. unfold _warp_candidate_points, _unwarp_candidate_points.
  induction table as [|config table IH].
  - exists [], []. repeat split; constructor.
  - destruct IH as (warped & back & E1 & E2 & HF1 & HF2 & Hexact).
    { intros cfg name c Hin. apply Hpos. right. exact Hin. }
    destruct (transform_config_there_and_back (hyperparameter_constraints self) config
                Hnd Hinv) as (config' & config'' & T1 & T2 & Hw & Hb).
    { intros name c Hin Hc. apply (Hpos config name c); [left | exact Hin | exact Hc]. }
    exists (config' :: warped), (config'' :: back). cbn [rmap].
    rewrite T1, E1. cbn [rbind]. rewrite T2, E2. cbn [rbind].
    split; [reflexivity|]. split; [reflexivity|].
    split; [constructor; assumption|]. split; [constructor; assumption|].
    intros Hex. rewrite (Hexact Hex). f_equal.
    destruct (transform_config_round_trip np_log10 pow10 (hyperparameter_constraints self)
                Hnd config) as (c1 & R1 & R2).
    { intros name c Hin Hc.
      destruct (Hpos config name c) as (x & Hx & Hx0); [left | assumption..|].
      destruct (Hex x Hx0) as (y & Hy1 & Hy2). exists x, y. auto. }
    congruence.
Qed.

End RoundTrip.

(** Two real cells are within [1e-9] of each other, relative to the
    second. *)
Lemma real_close_refl (x : R) : real_close x x.
Proof.
  unfold real_close. replace (x - x)%R with 0%R by Lra.lra. rewrite Rabs_R0.
  apply Rmult_le_pos; [Lra.lra | apply Rabs_pos].
Qed.

Lemma warp_unwarp_round_trip_witness :
  let self :=
    init [("learning_rate", {| dtype := "float"; dist_type := "log";
                                bounds := [VFloat (Fin (1 # 1000)); VFloat (Fin 1)] |});
          ("layers", {| dtype := "int"; dist_type := "linear";
                        bounds := [VInt 1; VInt 8] |})]
         3 true (1 # 4) 1 None false in
  let table := [[("learning_rate", (1 / 100)%R); ("layers", 3%R)]] in
  NoDup (map fst (hyperparameter_constraints self)) /\
  (forall x, (0 < x)%R ->
     exists y z, real_log10 x = Ok y /\ real_pow10 y = Ok z /\ real_close z x) /\
  (forall config name c,
     config ∈ table -> (name, c) ∈ hyperparameter_constraints self ->
     dist_type c = "log" ->
     exists x, dict_get name config = Ok x /\ (0 < x)%R) /\
  _warp_candidate_points real_log10 self table
  = Ok [[("learning_rate", (-2)%R); ("layers", 3%R)]] /\
  _unwarp_candidate_points real_pow10 self [[("learning_rate", (-2)%R); ("layers", 3%R)]]
  = Ok table /\
  exists warped back,
    _warp_candidate_points real_log10 self table = Ok warped /\
    _unwarp_candidate_points real_pow10 self warped = Ok back /\
    Forall2 (log_fields_mapped real_log10 (hyperparameter_constraints self)) table warped /\
    Forall2 (same_within real_close (hyperparameter_constraints self)) table back /\
    ((forall x, (0 < x)%R -> exists y, real_log10 x = Ok y /\ real_pow10 y = Ok x) ->
     back = table).
Proof.
  intros self table.
  assert (Hnd : NoDup (map fst (hyperparameter_constraints self))).
  { apply (bool_decide_unpack _). vm_compute. reflexivity. }
  assert (Hinv : forall x, (0 < x)%R ->
            exists y z, real_log10 x = Ok y /\ real_pow10 y = Ok z /\ real_close z x).
  { intros x Hx. destruct (real_log10_pow10 x Hx) as (y & Hy & Hz).
    exists y, x. split; [exact Hy|]. split; [exact Hz | apply real_close_refl]. }
  assert (Hpos : forall config name c,
             config ∈ table -> (name, c) ∈ hyperparameter_constraints self ->
             dist_type c = "log" ->
             exists x, dict_get name config = Ok x /\ (0 < x)%R).
  { intros config name c Hcfg Hin Hc.
    apply list_elem_of_singleton in Hcfg as ->.
    simpl in Hin. apply elem_of_cons in Hin as [[= -> ->] | Hin].
    - exists (1 / 100)%R. split; [reflexivity | Lra.lra].
    - apply list_elem_of_singleton in Hin as [= -> ->]. discriminate. }
  split; [exact Hnd|]. split; [exact Hinv|]. split; [exact Hpos|].
  split.
  { unfold _warp_candidate_points, transform_config. cbn.
    change (ln (1 / 100) / ln 10)%R with
      (match real_log10 (1 / 100) with Ok y => y | Raise _ => 0%R end).
    rewrite real_log10_hundredth. reflexivity. }
  split.
  { unfold _unwarp_candidate_points, transform_config. cbn.
    change (Rpower 10 (-2))%R with
      (match real_pow10 (-2) with Ok y => y | Raise _ => 0%R end).
    rewrite real_pow10_minus_two. reflexivity. }
  exact (warp_unwarp_round_trip real_log10 real_pow10 (fun x => (0 < x)%R) real_close
           self table Hnd Hinv Hpos).
Defined.

End WarpFacts.
(** ** Rounding to binary64 *)

Module RoundingFacts.
Import Py.
Local Open Scope Q_scope.

Lemma pow2Q_Qpower (e : Z) : pow2Q e == 2 ^ e.
Proof.
  unfold pow2Q. destruct (Z.leb_spec 0 e) as [He | He].
  - apply Zpower_Qpower. exact He.
  - assert (Hp : (0 < 2 ^ (- e))%Z) by (apply Z.pow_pos_nonneg; lia).
    assert (E : 2 ^ e == / 2 ^ (- e)).
    { rewrite <- Qpower_opp. rewrite Z.opp_involutive. reflexivity. }
    rewrite E. rewrite <- (Zpower_Qpower 2 (- e)) by lia.
    destruct (2 ^ (- e))%Z as [|p|p]; try lia. reflexivity.
Qed.

Lemma pow2Q_pos (e : Z) : 0 < pow2Q e.
Proof. rewrite pow2Q_Qpower. apply Qpower_0_lt. reflexivity. Qed.

Lemma pow2Q_add (a b : Z) : pow2Q (a + b) == pow2Q a * pow2Q b.
Proof. rewrite !pow2Q_Qpower. apply Qpower_plus. discriminate. Qed.

Lemma pow2Q_le (a b : Z) : (a <= b)%Z -> pow2Q a <= pow2Q b.
Proof.
  intros H. rewrite !pow2Q_Qpower. apply Qpower_le_compat_l; [exact H | discriminate].
Qed.

Lemma pow2Q_lt_inv (a b : Z) : pow2Q a < pow2Q b -> (a < b)%Z.
Proof.
  intros H. destruct (Z.lt_ge_cases a b) as [Hlt | Hge]; [exact Hlt|].
  pose proof (pow2Q_le b a ltac:(lia)). lra.
Qed.

Lemma pow2Q_Z (k : Z) : (0 <= k)%Z -> pow2Q k = inject_Z (2 ^ k).
Proof. intros H. unfold pow2Q. destruct (Z.leb_spec 0 k); [reflexivity | lia]. Qed.

(** [floor_log2 x] is the binary exponent of [x]. *)
Lemma floor_log2_spec (x : Q) :
  0 < x -> pow2Q (floor_log2 x) <= x /\ x < pow2Q (floor_log2 x + 1).
Proof.
  intros Hx. destruct x as [n d].
  assert (Hn : (0 < n)%Z) by (unfold Qlt in Hx; simpl in Hx; lia).
  set (a := Z.log2 n). set (b := Z.log2 (Zpos d)).
  assert (Ha0 : (0 <= a)%Z) by apply Z.log2_nonneg.
  assert (Hb0 : (0 <= b)%Z) by apply Z.log2_nonneg.
  destruct (Z.log2_spec n Hn) as (Ha1 & Ha2). fold a in Ha1, Ha2.
  destruct (Z.log2_spec (Zpos d) ltac:(lia)) as (Hb1 & Hb2). fold b in Hb1, Hb2.
  assert (Hx' : n # d == inject_Z n / inject_Z (Zpos d)) by apply Qmake_Qdiv.
  assert (Hd : 0 < inject_Z (Zpos d)) by reflexivity.
  assert (Qa1 : pow2Q a <= inject_Z n).
  { rewrite (pow2Q_Z a Ha0). rewrite <- Zle_Qle. exact Ha1. }
  assert (Qa2 : inject_Z n < pow2Q (a + 1)).
  { rewrite (pow2Q_Z (a + 1)) by lia. rewrite <- Zlt_Qlt. exact Ha2. }
  assert (Qb1 : pow2Q b <= inject_Z (Zpos d)).
  { rewrite (pow2Q_Z b Hb0). rewrite <- Zle_Qle. exact Hb1. }
  assert (Qb2 : inject_Z (Zpos d) < pow2Q (b + 1)).
  { rewrite (pow2Q_Z (b + 1)) by lia. rewrite <- Zlt_Qlt. exact Hb2. }
  assert (Hup : n # d < pow2Q (a - b + 1)).
  { rewrite Hx'. apply Qlt_shift_div_r; [exact Hd|].
    apply Qlt_le_trans with (pow2Q (a + 1)); [exact Qa2|].
    replace (a + 1)%Z with ((a - b + 1) + b)%Z by lia. rewrite pow2Q_add.
    apply Qmult_le_l; [apply pow2Q_pos | exact Qb1]. }
  assert (Hlow : pow2Q (a - b - 1) < n # d).
  { rewrite Hx'. apply Qlt_shift_div_l; [exact Hd|].
    apply Qlt_le_trans with (pow2Q a); [|exact Qa1].
    replace a with ((a - b - 1) + (b + 1))%Z at 2 by lia. rewrite pow2Q_add.
    apply Qmult_lt_l; [apply pow2Q_pos | exact Qb2]. }
  unfold floor_log2. cbn [Qnum Qden]. fold a b.
  destruct (Qle_bool (pow2Q (a - b)) (n # d)) eqn:E.
  - apply Qle_bool_iff in E. split; [exact E | exact Hup].
  - assert (E' : n # d < pow2Q (a - b)).
    { apply Qnot_le_lt. intros H. apply Qle_bool_iff in H. congruence. }
    split; [apply Qlt_le_weak; exact Hlow|].
    replace (a - b - 1 + 1)%Z with (a - b)%Z by lia. exact E'.
Qed.

Lemma floor_log2_mono (x y : Q) : 0 < x -> x <= y -> (floor_log2 x <= floor_log2 y)%Z.
Proof.
  intros Hx Hxy.
  destruct (floor_log2_spec x Hx) as (Hx1 & _).
  destruct (floor_log2_spec y ltac:(lra)) as (_ & Hy2).
  assert (H : pow2Q (floor_log2 x) < pow2Q (floor_log2 y + 1)) by lra.
  apply pow2Q_lt_inv in H. lia.
Qed.

Lemma round_half_even_bounds (x : Q) :
  (Qfloor x <= round_half_even x <= Qfloor x + 1)%Z.
Proof.
  unfold round_half_even. cbv zeta.
  destruct (Qcompare _ _); [destruct (Z.even _)| |]; lia.
Qed.

Lemma round_half_even_comp (x y : Q) : x == y -> round_half_even x = round_half_even y.
Proof.
  intros H. unfold round_half_even. cbv zeta.
  rewrite (Qfloor_comp _ _ H).
  assert (Hc : (x - inject_Z (Qfloor y) ?= 1 # 2) = (y - inject_Z (Qfloor y) ?= 1 # 2)).
  { apply Qcompare_comp; [rewrite H; reflexivity | reflexivity]. }
  rewrite Hc. reflexivity.
Qed.

Lemma round_half_even_integer (x : Q) (m : Z) : x == inject_Z m -> round_half_even x = m.
Proof.
  intros Hx. unfold round_half_even.
  assert (Hf : Qfloor x = m) by (rewrite Hx; apply Qfloor_Z).
  rewrite Hf.
  assert (Hc : Qcompare (x - inject_Z m) (1 # 2) = Lt).
  { apply Qlt_alt. rewrite Hx. unfold Qminus. rewrite Qplus_opp_r. reflexivity. }
  rewrite Hc. reflexivity.
Qed.

Lemma round_half_even_mono (x y : Q) : x <= y -> (round_half_even x <= round_half_even y)%Z.
Proof.
  intros Hxy. pose proof (Qfloor_resp_le x y Hxy) as Hf.
  pose proof (round_half_even_bounds x) as Bx. pose proof (round_half_even_bounds y) as By.
  destruct (Z.eq_dec (Qfloor x) (Qfloor y)) as [E | E]; [|lia].
  unfold round_half_even in *. cbv zeta in *. rewrite E in *.
  set (f := Qfloor y) in *.
  destruct (Qcompare_spec (x - inject_Z f) (1 # 2)) as [Hx | Hx | Hx];
    destruct (Qcompare_spec (y - inject_Z f) (1 # 2)) as [Hy | Hy | Hy];
    try lia; try (destruct (Z.even f); lia); exfalso; lra.
Qed.

(** The spacing of the binary64 values near [x]. *)
Local Abbreviation ulp_exponent x := (Z.max (floor_log2 x - 52) (-1074)).

Lemma round_positive_value (x : Q) :
  round_positive x
  == inject_Z (round_half_even (x / pow2Q (ulp_exponent x))) * pow2Q (ulp_exponent x).
Proof. unfold round_positive. cbv zeta. apply Qred_correct. Qed.

Lemma round_positive_nonneg (x : Q) : 0 < x -> 0 <= round_positive x.
Proof.
  intros Hx. rewrite round_positive_value.
  pose proof (pow2Q_pos (ulp_exponent x)) as Hu.
  apply Qmult_le_0_compat; [|lra].
  change 0 with (inject_Z 0). rewrite <- Zle_Qle.
  pose proof (round_half_even_bounds (x / pow2Q (ulp_exponent x))) as (Hb & _).
  assert (H0 : (0 <= Qfloor (x / pow2Q (ulp_exponent x)))%Z).
  { change 0%Z with (Qfloor 0). apply Qfloor_resp_le.
    apply Qle_shift_div_l; [exact Hu | lra]. }
  lia.
Qed.

(** Rounding to binary64 keeps the order. *)
Lemma round_positive_mono (x y : Q) :
  0 < x -> x <= y -> round_positive x <= round_positive y.
Proof.
  intros Hx Hxy. assert (Hy : 0 < y) by lra.
  pose proof (floor_log2_mono x y Hx Hxy) as He.
  destruct (floor_log2_spec x Hx) as (_ & Hx2).
  destruct (floor_log2_spec y Hy) as (Hy1 & _).
  rewrite (round_positive_value x), (round_positive_value y).
  set (ex := floor_log2 x) in *. set (ey := floor_log2 y) in *.
  set (px := Z.max (ex - 52) (-1074)). set (py := Z.max (ey - 52) (-1074)).
  pose proof (pow2Q_pos px) as Hux. pose proof (pow2Q_pos py) as Huy.
  destruct (Z.eq_dec px py) as [E | E].
  - rewrite <- E. apply Qmult_le_compat_r; [|lra].
    rewrite <- Zle_Qle. apply round_half_even_mono.
    apply Qmult_le_compat_r; [exact Hxy|]. apply Qinv_le_0_compat. lra.
  - assert (Hpy : py = (ey - 52)%Z) by lia.
    assert (Hexy : (ex + 1 <= ey)%Z) by lia.
    apply Qle_trans with (pow2Q ey).
    + assert (Hk : (0 <= ey - px)%Z) by lia.
      assert (Hq : x / pow2Q px <= inject_Z (2 ^ (ey - px))).
      { rewrite <- (pow2Q_Z _ Hk). apply Qle_shift_div_r; [exact Hux|].
        rewrite <- (pow2Q_add (ey - px) px). replace (ey - px + px)%Z with ey by lia.
        apply Qle_trans with (pow2Q (ex + 1)); [lra | apply pow2Q_le; exact Hexy]. }
      apply round_half_even_mono in Hq.
      rewrite (round_half_even_integer (inject_Z (2 ^ (ey - px))) _ (Qeq_refl _)) in Hq.
      assert (Hey : pow2Q ey == inject_Z (2 ^ (ey - px)) * pow2Q px).
      { rewrite <- (pow2Q_Z _ Hk), <- pow2Q_add.
        replace (ey - px + px)%Z with ey by lia. reflexivity. }
      rewrite Hey. apply Qmult_le_compat_r; [|lra].
      rewrite <- Zle_Qle. exact Hq.
    + assert (Hq : inject_Z (2 ^ 52) <= y / pow2Q py).
      { rewrite <- (pow2Q_Z 52) by lia. apply Qle_shift_div_l; [exact Huy|].
        rewrite <- pow2Q_add. replace (52 + py)%Z with ey by lia. exact Hy1. }
      apply round_half_even_mono in Hq.
      rewrite (round_half_even_integer (inject_Z (2 ^ 52)) _ (Qeq_refl _)) in Hq.
      assert (Hey : pow2Q ey == inject_Z (2 ^ 52) * pow2Q py).
      { rewrite <- (pow2Q_Z 52) by lia. rewrite <- pow2Q_add.
        replace (52 + py)%Z with ey by lia. reflexivity. }
      rewrite Hey. apply Qmult_le_compat_r; [|lra].
      rewrite <- Zle_Qle. exact Hq.
Qed.

Lemma round_binary64_mono (x y : Q) : x <= y -> round_binary64 x <= round_binary64 y.
Proof.
  intros Hxy. unfold round_binary64.
  destruct (Qcompare_spec x 0) as [Hx | Hx | Hx];
    destruct (Qcompare_spec y 0) as [Hy | Hy | Hy]; try (exfalso; lra).
  - lra.
  - apply round_positive_nonneg. exact Hy.
  - pose proof (round_positive_nonneg (- x) ltac:(lra)). lra.
  - pose proof (round_positive_mono (- y) (- x) ltac:(lra) ltac:(lra)). lra.
  - pose proof (round_positive_nonneg (- x) ltac:(lra)).
    pose proof (round_positive_nonneg y Hy). lra.
  - apply round_positive_mono; assumption.
Qed.

(** The percentages [t * 100] and [100 - t * 100] of a top fraction. *)
Lemma round_binary64_0 : round_binary64 0 = 0.
Proof. reflexivity. Qed.

Lemma round_binary64_100 : round_binary64 100 = 100.
Proof. vm_compute. reflexivity. Qed.

Lemma float_mul_100_nonneg (t : Q) : 0 <= t -> 0 <= float_mul t 100.
Proof.
  intros H. rewrite <- round_binary64_0 at 1. apply round_binary64_mono. lra.
Qed.

Lemma float_mul_100_le (t : Q) : t <= 1 -> float_mul t 100 <= 100.
Proof.
  intros H. rewrite <- round_binary64_100 at 2. apply round_binary64_mono. lra.
Qed.

Lemma float_sub_100_nonneg (x : Q) : x <= 100 -> 0 <= float_sub 100 x.
Proof.
  intros H. rewrite <- round_binary64_0 at 1. apply round_binary64_mono. lra.
Qed.

Lemma float_sub_100_le (x : Q) : 0 <= x -> float_sub 100 x <= 100.
Proof.
  intros H. rewrite <- round_binary64_100 at 2. apply round_binary64_mono. lra.
Qed.

Lemma float_mul_100_mono (t2 t1 : Q) : t2 <= t1 -> float_mul t2 100 <= float_mul t1 100.
Proof. intros H. apply round_binary64_mono. lra. Qed.

Lemma float_sub_100_mono (x2 x1 : Q) : x2 <= x1 -> float_sub 100 x1 <= float_sub 100 x2.
Proof. intros H. apply round_binary64_mono. lra. Qed.

End RoundingFacts.


(** ** Percentile labels *)

Module LabelFacts.
Import Py GenerativeSMUtils Statements RoundingFacts.

#[local] Instance Qle_transitive : Transitive Qle.
Proof. intros x y z. apply Qle_trans. Qed.

#[local] Instance Qle_total : Total Qle.
Proof. intros x y. destruct (Qlt_le_dec x y) as [H | H]; [left; apply Qlt_le_weak|right]; exact H. Qed.

(** In a sorted list the elements grow with the position. *)
Lemma sorted_nth_le (s : list Q) :
  StronglySorted Qle s ->
  forall i j, (i <= j < length s)%nat -> (nth i s 0 <= nth j s 0)%Q.
Proof.
  induction 1 as [|x s Hs IH Hx]; intros i j Hij; [simpl in Hij; lia|].
  destruct i as [|i], j as [|j]; simpl in *; try lia.
  - apply Qle_refl.
  - rewrite Forall_forall in Hx. apply Hx. apply list_elem_of_In, nth_In. lia.
  - apply IH. lia.
Qed.

(** The interpolation stays between its two ends. *)
Lemma lerp_between (a b t : Q) :
  (a <= b)%Q -> (0 <= t)%Q -> (t <= 1)%Q -> (a <= lerp a b t)%Q /\ (lerp a b t <= b)%Q.
Proof. intros Hab H0 H1. unfold lerp. split; nra. Qed.

Lemma lerp_mono (a b t u : Q) :
  (a <= b)%Q -> (t <= u)%Q -> (lerp a b t <= lerp a b u)%Q.
Proof. intros Hab Htu. unfold lerp. nra. Qed.

(** The percentile of sorted data grows with the percentage. *)
Lemma quantile_sorted_mono (s : list Q) (q2 q1 : Z) :
  StronglySorted Qle s -> s <> [] ->
  (0 <= q2 <= q1)%Z ->
  (quantile_sorted s q2 <= quantile_sorted s q1)%Q.
Proof.
  intros Hs Hne Hq.
  assert (Hn : (1 <= length s)%nat) by (destruct s; [congruence | simpl; lia]).
  unfold quantile_sorted.
  set (m := inject_Z (Z.of_nat (length s) - 1)).
  assert (Hm : (0 <= m)%Q).
  { unfold m. rewrite <- (Zle_Qle 0). lia. }
  assert (Hq21 : (inject_Z q2 <= inject_Z q1)%Q) by (rewrite <- Zle_Qle; lia).
  assert (Hq0 : (0 <= inject_Z q2)%Q) by (rewrite <- (Zle_Qle 0); lia).
  set (v1 := (m * (inject_Z q1 / 100))%Q). set (v2 := (m * (inject_Z q2 / 100))%Q).
  assert (Hv : (v2 <= v1)%Q).
  { unfold v1, v2. rewrite (Qmult_comm m), (Qmult_comm m).
    apply Qmult_le_compat_r; [|assumption].
    unfold Qdiv. apply Qmult_le_compat_r; [assumption | discriminate]. }
  assert (Hv0 : (0 <= v2)%Q).
  { unfold v2. apply Qmult_le_0_compat; [assumption|].
    unfold Qdiv. apply Qmult_le_0_compat; [assumption | discriminate]. }
  assert (Hbelow : forall v, (0 <= v)%Q -> Qle_bool m v = false ->
            (0 <= Qfloor v)%Z /\ (S (Z.to_nat (Qfloor v)) < length s)%nat /\
            (0 <= v - inject_Z (Qfloor v))%Q /\ (v - inject_Z (Qfloor v) <= 1)%Q).
  { intros v Hv0' Hlt.
    assert (Hvm : (v < m)%Q).
    { apply Qnot_le_lt. intros H. apply Qle_bool_iff in H. congruence. }
    assert (Hf0 : (0 <= Qfloor v)%Z).
    { change 0%Z with (Qfloor 0). apply Qfloor_resp_le. assumption. }
    assert (Hfm : (Qfloor v < Z.of_nat (length s) - 1)%Z).
    { pose proof (Qfloor_le v) as Hfl.
      assert (H : (inject_Z (Qfloor v) < m)%Q) by lra.
      unfold m in H. rewrite <- Zlt_Qlt in H. assumption. }
    pose proof (Qfloor_le v). pose proof (Qlt_floor v) as Hup.
    rewrite inject_Z_plus in Hup. change (inject_Z 1) with 1%Q in Hup.
    repeat split; [assumption | lia | lra | lra]. }
  destruct (Qle_bool m v2) eqn:E2, (Qle_bool m v1) eqn:E1.
  - apply Qle_refl.
  - exfalso. apply Qle_bool_iff in E2.
    assert (H : (m <= v1)%Q) by lra. apply Qle_bool_iff in H. congruence.
  - destruct (Hbelow v2 Hv0 E2) as (Hf & Hj & Hg0 & Hg1).
    set (j := Z.to_nat (Qfloor v2)) in *.
    assert (Hjj : (nth j s 0 <= nth (S j) s 0)%Q) by (apply (sorted_nth_le s Hs); lia).
    destruct (lerp_between _ _ _ Hjj Hg0 Hg1) as (_ & Hup).
    apply Qle_trans with (nth (S j) s 0%Q); [assumption|].
    apply (sorted_nth_le s Hs). lia.
  - destruct (Hbelow v2 Hv0 E2) as (Hf2 & Hj2 & Hg20 & Hg21).
    destruct (Hbelow v1 ltac:(lra) E1) as (Hf1 & Hj1 & Hg10 & Hg11).
    pose proof (Qfloor_resp_le v2 v1 Hv) as Hfl.
    destruct (Z.eq_dec (Qfloor v2) (Qfloor v1)) as [Heq | Hneq].
    + rewrite Heq. apply lerp_mono; [apply (sorted_nth_le s Hs); lia | lra].
    + set (j2 := Z.to_nat (Qfloor v2)) in *. set (j1 := Z.to_nat (Qfloor v1)) in *.
      assert (Hjj2 : (nth j2 s 0 <= nth (S j2) s 0)%Q) by (apply (sorted_nth_le s Hs); lia).
      assert (Hjj1 : (nth j1 s 0 <= nth (S j1) s 0)%Q) by (apply (sorted_nth_le s Hs); lia).
      destruct (lerp_between _ _ _ Hjj2 Hg20 Hg21) as (_ & Hup).
      destruct (lerp_between _ _ _ Hjj1 Hg10 Hg11) as (Hlow & _).
      apply Qle_trans with (nth (S j2) s 0%Q); [assumption|].
      apply Qle_trans with (nth j1 s 0%Q); [|assumption].
      apply (sorted_nth_le s Hs). lia.
Qed.

(** On a float that is not negative [int] is the integer part. *)
Lemma py_int_floor (x : Q) : (0 <= x)%Q -> py_int x = Qfloor x.
Proof.
  intros Hx. destruct x as [n d]. unfold py_int, Qfloor. simpl.
  apply Z.quot_div_nonneg; [|reflexivity].
  unfold Qle in Hx. simpl in Hx. lia.
Qed.

(** The percentage a top fraction in [0, 1] stands for. *)
Lemma percentage_range (t : Q) :
  (0 <= t)%Q -> (t <= 1)%Q -> (0 <= py_int (float_mul t 100) <= 100)%Z.
Proof.
  intros H0 H1.
  pose proof (float_mul_100_nonneg t H0) as Hl. pose proof (float_mul_100_le t H1) as Hu.
  rewrite py_int_floor by exact Hl.
  split; [change 0%Z with (Qfloor 0) | change 100%Z with (Qfloor 100)];
    apply Qfloor_resp_le; assumption.
Qed.

Lemma percentage_mono (t2 t1 : Q) :
  (0 <= t2)%Q -> (t2 <= t1)%Q ->
  (py_int (float_mul t2 100) <= py_int (float_mul t1 100))%Z.
Proof.
  intros H0 H21.
  rewrite !py_int_floor by (apply float_mul_100_nonneg; lra).
  apply Qfloor_resp_le, float_mul_100_mono, H21.
Qed.

(** A larger cutoff labels at least as many rows. *)
Lemma positive_count_mono (f2 f1 : pyfloat -> bool) (l : list pyfloat) :
  (forall x, f2 x = true -> f1 x = true) ->
  (positive_count (map (fun x => if f2 x then 1%Z else 0%Z) l)
   <= positive_count (map (fun x => if f1 x then 1%Z else 0%Z) l))%nat.
Proof.
  intros Himp. unfold positive_count. induction l as [|x l IH]; [reflexivity|].
  cbn [map]. rewrite !filter_cons.
  destruct (f2 x) eqn:E2.
  - rewrite (Himp x E2). destruct (decide (1%Z = 1%Z)); [|congruence]. simpl. lia.
  - destruct (decide (0%Z = 1%Z)); [discriminate|].
    destruct (f1 x); [destruct (decide (1%Z = 1%Z)); simpl; lia|].
    destruct (decide (0%Z = 1%Z)); [discriminate | assumption].
Qed.

Lemma fin_values_nonempty (a : list pyfloat) :
  a <> [] -> existsb isnan a = false -> fin_values a <> [].
Proof.
  destruct a as [|[|q] a]; [congruence | discriminate | discriminate].
Qed.

(** C6. For a non-empty fitness vector, [lower_is_better = True] and two
    top fractions [0 <= t2 < t1 <= 1], both label assignments succeed and
    the smaller fraction labels at most as many rows 1 as the larger. *)
Theorem labels_monotone_in_top_fraction (observed_fvals : list pyfloat) (t1 t2 : Q) :
  observed_fvals <> [] ->
  (0 <= t2)%Q -> (t2 < t1)%Q -> (t1 <= 1)%Q ->
  exists labels1 labels2,
    assign_labels true t1 observed_fvals = Ok labels1 /\
    assign_labels true t2 observed_fvals = Ok labels2 /\
    (positive_count labels2 <= positive_count labels1)%nat.
Proof.
  intros Hne H0 H21 H1.
  pose proof (percentage_range t1 ltac:(lra) H1) as Hr1.
  pose proof (percentage_range t2 H0 ltac:(lra)) as Hr2.
  pose proof (percentage_mono t2 t1 H0 ltac:(lra)) as Hmono.
  unfold assign_labels, np_percentile.
  destruct (Z.ltb_spec (py_int (float_mul t1 100)) 0); [lia|].
  destruct (Z.ltb_spec 100 (py_int (float_mul t1 100))); [lia|].
  destruct (Z.ltb_spec (py_int (float_mul t2 100)) 0); [lia|].
  destruct (Z.ltb_spec 100 (py_int (float_mul t2 100))); [lia|].
  cbn [orb]. destruct observed_fvals as [|x0 rest] eqn:Efv; [congruence|]. rewrite <- Efv in *.
  destruct (existsb isnan observed_fvals) eqn:Enan; cbn [rbind].
  - eexists _, _. split; [reflexivity|]. split; [reflexivity|].
    apply positive_count_mono. intros x. destruct x; discriminate.
  - eexists _, _. split; [reflexivity|]. split; [reflexivity|].
    apply positive_count_mono. intros [|x]; [discriminate|]. simpl.
    set (s := merge_sort Qle (fin_values observed_fvals)).
    assert (Hle : (quantile_sorted s (py_int (float_mul t2 100))
                   <= quantile_sorted s (py_int (float_mul t1 100)))%Q).
    { apply quantile_sorted_mono; [apply StronglySorted_merge_sort; apply _ | | lia].
      intros Hs. assert (Hp : s ≡ₚ fin_values observed_fvals) by apply merge_sort_Permutation.
      rewrite Hs in Hp. apply Permutation_nil in Hp.
      apply (fin_values_nonempty observed_fvals); [rewrite Efv; discriminate | assumption..]. }
    intros Hx. apply negb_true_iff in Hx. apply negb_true_iff.
    destruct (Qle_bool (quantile_sorted s (py_int (float_mul t1 100))) x) eqn:E; [|reflexivity].
    apply Qle_bool_iff in E.
    assert (H' : (quantile_sorted s (py_int (float_mul t2 100)) <= x)%Q) by lra.
    apply Qle_bool_iff in H'. congruence.
Qed.

Lemma labels_monotone_in_top_fraction_witness :
  let observed_fvals := [Fin 5; Fin 1; Fin 3; Fin 2] in
  observed_fvals <> [] /\
  (0 <= 1 # 4)%Q /\ (1 # 4 < 1 # 2)%Q /\ (1 # 2 <= 1)%Q /\
  exists labels1 labels2,
    assign_labels true (1 # 2) observed_fvals = Ok labels1 /\
    assign_labels true (1 # 4) observed_fvals = Ok labels2 /\
    (positive_count labels2 <= positive_count labels1)%nat.
Proof.
  split; [discriminate|]. split; [discriminate|]. split; [reflexivity|].
  split; [discriminate|].
  apply (labels_monotone_in_top_fraction [Fin 5; Fin 1; Fin 3; Fin 2] (1 # 2) (1 # 4));
    [discriminate | discriminate | reflexivity | discriminate].
Defined.

End LabelFacts.

(** ** [process_response]: what reaches [float] *)

Module ResponseProperties.
Import Py GenerativeSMUtils GenerativeSM Statements Observations MonadFacts.
Import SerializationFacts.

Lemma length_append (a b : string) :
  String.length (a ++ b) = (String.length a + String.length b)%nat.
Proof. induction a as [|c a IH]; [reflexivity|]. rewrite append_cons. simpl. f_equal. exact IH. Qed.

(** The pattern starts with [#]: it does not match at another character. *)
Lemma match_here_other_start (c : ascii) (s : string) :
  Ascii.eqb c "#" = false -> match_here (String c s) = None.
Proof.
  intros Hc. unfold match_here. cbn [strip_prefix].
  rewrite Ascii.eqb_sym, Hc. reflexivity.
Qed.

Lemma findall_from_skip (a s : string) (k : nat) :
  findall_from (String.length a + k) (a ++ s) = findall_from k s.
Proof. induction a as [|c a IH]; [reflexivity|]. rewrite append_cons. simpl. exact IH. Qed.

Lemma findall_from_hash_free_app (pre s : string) :
  hash_free pre = true -> findall_from 0 (pre ++ s) = findall_from 0 s.
Proof.
  induction pre as [|c pre IH]; [reflexivity|].
  unfold hash_free. cbn [all_chars]. intros H. apply andb_true_iff in H as (Hc & Hpre).
  apply negb_true_iff in Hc. rewrite append_cons. cbn [findall_from].
  rewrite (match_here_other_start c _ Hc). apply IH. exact Hpre.
Qed.

Lemma findall_from_hash_free (s : string) : hash_free s = true -> findall_from 0 s = [].
Proof.
  intros H. rewrite <- (append_nil_r s). rewrite (findall_from_hash_free_app s "" H).
  reflexivity.
Qed.

Lemma span_run (p : ascii -> bool) (run rest : string) :
  all_chars p run = true ->
  match rest with EmptyString => True | String c _ => p c = false end ->
  span p (run ++ rest) = (run, rest).
Proof.
  intros Hrun Hrest. induction run as [|c run IH].
  - simpl. destruct rest as [|c rest]; [reflexivity|]. simpl. rewrite Hrest. reflexivity.
  - cbn [all_chars] in Hrun. apply andb_true_iff in Hrun as (Hc & Hrun).
    rewrite append_cons. cbn [span]. rewrite Hc, (IH Hrun). reflexivity.
Qed.

(** At a delimited token the pattern matches, and captures the token. *)
Lemma match_here_token (tok post : string) :
  is_token tok = true ->
  match_here ("## " ++ tok ++ " ##" ++ post)
  = Some (tok, (6 + String.length tok)%nat).
Proof.
  intros Htok. unfold match_here.
  change (strip_prefix "## " ("## " ++ tok ++ " ##" ++ post)) with (Some (tok ++ " ##" ++ post)).
  cbn beta iota.
  assert (Hsplit : exists sign run,
             tok = sign ++ run /\ all_chars is_token_char run = true /\ run <> "" /\
             match tok ++ " ##" ++ post with
             | String "-" r => ("-", r)
             | _ => ("", tok ++ " ##" ++ post)
             end = (sign, run ++ " ##" ++ post)).
  { destruct tok as [|c tok]; [discriminate|].
    destruct (Ascii.eqb_spec c "-") as [-> | Hc].
    - exists "-", tok. cbn [is_token] in Htok. apply andb_true_iff in Htok as (Hne & Hall).
      split; [reflexivity|]. split; [exact Hall|].
      split; [intros ->; discriminate | reflexivity].
    - exists "", (String c tok).
      assert (Htok' : negb (String.eqb (String c tok) "") && all_chars is_token_char (String c tok)
                      = true).
      { revert Htok. unfold is_token.
        destruct c as [[] [] [] [] [] [] [] []]; try (intros H; exact H). congruence. }
      apply andb_true_iff in Htok' as (_ & Hall).
      split; [reflexivity|]. split; [exact Hall|]. split; [discriminate|].
      rewrite append_cons.
      destruct c as [[] [] [] [] [] [] [] []]; try reflexivity. congruence. }
  destruct Hsplit as (sign & run & -> & Hall & Hne & ->).
  rewrite (span_run is_token_char run (" ##" ++ post) Hall) by reflexivity.
  destruct run as [|c run]; [congruence|].
  change (strip_prefix " ##" (" ##" ++ post)) with (Some post). reflexivity.
Qed.

(** X1. A response made of one delimited token ["## <token> ##"] between
    two texts that contain no [#] has exactly one match, the token, and
    [process_response] hands the token to [float]: it returns the number
    when [float] accepts the token and raises the error of [float]
    otherwise.  Nothing is printed. *)
Theorem process_response_single_token (pre tok post : string) (h : history) :
  hash_free pre = true ->
  is_token tok = true ->
  hash_free post = true ->
  let response := pre ++ "## " ++ tok ++ " ##" ++ post in
  re_findall response = [tok] /\
  (forall y, py_float tok = Ok y -> process_response [VStr response] h = (Ok [y], h)) /\
  (forall e, py_float tok = Raise e -> process_response [VStr response] h = (Raise e, h)).
Proof.
  intros Hpre Htok Hpost response.
  assert (E : re_findall response = [tok]).
  { unfold re_findall, response. rewrite (findall_from_hash_free_app _ _ Hpre).
    change ("## " ++ tok ++ " ##" ++ post) with (String "#" ("# " ++ tok ++ " ##" ++ post)) at 1.
    cbn [findall_from].
    change (String "#" ("# " ++ tok ++ " ##" ++ post)) with ("## " ++ tok ++ " ##" ++ post).
    rewrite (match_here_token tok post Htok). f_equal.
    replace ("# " ++ tok ++ " ##" ++ post) with (("# " ++ tok ++ " ##") ++ post)
      by (rewrite !append_assoc; reflexivity).
    replace (6 + String.length tok - 1)%nat
      with (String.length ("# " ++ tok ++ " ##") + 0)%nat.
    - rewrite findall_from_skip. apply findall_from_hash_free. exact Hpost.
    - rewrite !length_append. simpl. lia. }
  split; [exact E|].
  unfold process_response. cbn [mmap]. unfold bind, process_one. rewrite E. unfold lift.
  split; intros r Hr; rewrite Hr; reflexivity.
Qed.

Lemma process_response_single_token_witness :
  hash_free "Prediction: " = true /\
  is_token "0.75" = true /\
  hash_free " (likely)" = true /\
  re_findall "Prediction: ## 0.75 ## (likely)" = ["0.75"] /\
  process_response [VStr "Prediction: ## 0.75 ## (likely)"] [] = (Ok [Fin (75 # 100)], []).
Proof.
  split; [reflexivity|]. split; [reflexivity|]. split; [reflexivity|].
  destruct (process_response_single_token "Prediction: " "0.75" " (likely)" []
              eq_refl eq_refl eq_refl) as (Hmatch & Hvalue & _).
  split; [exact Hmatch|]. apply Hvalue. reflexivity.
Defined.

(** What one response adds to the history: prints only. *)
Lemma process_one_prints (raw : pyval) (h : history) :
  exists evs, (process_one raw h).2 = (h ++ evs)%list /\ forallb is_print evs = true.
Proof.
  destruct raw as [|z|f|s];
    try (exists [Print "raw_response is not a string, appending NaN"]; split; reflexivity).
  unfold process_one. destruct (re_findall s) as [|tok [|tok2 rest]].
  - exists [Print "No valid numeric value found in raw_response, appending NaN"].
    split; reflexivity.
  - exists []. rewrite app_nil_r. unfold lift. split; reflexivity.
  - exists [Print "No valid numeric value found in raw_response, appending NaN"].
    split; reflexivity.
Qed.

Lemma process_response_prints (l : list pyval) (h : history) :
  exists evs, (process_response l h).2 = (h ++ evs)%list /\ forallb is_print evs = true.
Proof.
  unfold process_response. revert h. induction l as [|raw l IH]; intros h.
  - exists []. rewrite app_nil_r. split; reflexivity.
  - cbn [mmap]. unfold bind.
    destruct (process_one_prints raw h) as (e1 & E1 & P1).
    destruct (process_one raw h) as [[y|e] h1]; simpl in E1; subst h1.
    + destruct (IH (h ++ e1)%list) as (e2 & E2 & P2).
      destruct (mmap process_one l (h ++ e1)%list) as [[ys|e] h2]; simpl in E2; subst h2;
        exists (e1 ++ e2)%list; rewrite app_assoc, forallb_app, P1, P2; split; reflexivity.
    + exists e1. split; [reflexivity | exact P1].
Qed.

(** X2. Whenever [process_response] returns, it returns one value per
    response, in the order of the responses: NaN for a response that is
    not a string, NaN for a string in which the pattern matches zero times
    or more than once, and what [float] makes of the match for a string
    with exactly one match.  Whether it returns or raises, it only prints:
    no message is sent to the client. *)
Theorem process_response_one_value_per_response (all_raw_response : list pyval)
  (h : history) :
  (forall ys h', process_response all_raw_response h = (Ok ys, h') ->
     length ys = length all_raw_response /\
     forall i raw y, all_raw_response !! i = Some raw -> ys !! i = Some y ->
       match raw with
       | VStr s =>
           match re_findall s with
           | [gen_pred] => py_float gen_pred = Ok y
           | _ => y = NaN
           end
       | _ => y = NaN
       end) /\
  exists evs, (process_response all_raw_response h).2 = (h ++ evs)%list /\
              forallb is_print evs = true /\ asked evs = [].
Proof.
  split.
  - intros ys h' E.
    assert (HF : Forall2 (fun raw y => parse_reply raw = Ok y) all_raw_response ys).
    { apply (mmap_Ok_Forall2 process_one _ all_raw_response) with (h := h) (h' := h');
        [|exact E].
      intros x hx y hy Ex. rewrite <- (ResponseFacts.process_one_value x hx), Ex. reflexivity. }
    split; [symmetry; apply (Forall2_length _ _ _ HF)|].
    intros i raw y Hraw Hy.
    pose proof (Forall2_lookup_lr _ _ _ _ _ _ HF Hraw Hy) as Hp.
    unfold parse_reply in Hp. destruct raw as [|z|f|s]; try congruence.
    destruct (re_findall s) as [|tok [|tok2 rest]]; congruence.
  - destruct (process_response_prints all_raw_response h) as (evs & E & P).
    exists evs. split; [exact E|]. split; [exact P|].
    clear E. induction evs as [|[t|n|m] evs IH]; simpl in *; try discriminate; auto.
Qed.

Lemma process_response_one_value_per_response_witness :
  let all_raw_response :=
    [VStr "## 0.5 ##"; VNone; VStr "no number"; VStr "## 1 ## or ## 2 ##"] in
  let ys := [Fin (5 # 10); NaN; NaN; NaN] in
  process_response all_raw_response [] = (Ok ys, (process_response all_raw_response []).2) /\
  length ys = length all_raw_response /\
  exists evs, (process_response all_raw_response []).2 = ([] ++ evs)%list /\
              forallb is_print evs = true /\ asked evs = [].
Proof.
  destruct (process_response_one_value_per_response
              [VStr "## 0.5 ##"; VNone; VStr "no number"; VStr "## 1 ## or ## 2 ##"] [])
    as (Hreturned & Hprints).
  assert (Hrun :
    process_response
      [VStr "## 0.5 ##"; VNone; VStr "no number"; VStr "## 1 ## or ## 2 ##"] []
    = (Ok [Fin (5 # 10); NaN; NaN; NaN],
       (process_response
          [VStr "## 0.5 ##"; VNone; VStr "no number"; VStr "## 1 ## or ## 2 ##"] []).2))
    by (vm_compute; reflexivity).
  split; [exact Hrun|]. split; [exact (proj1 (Hreturned _ _ Hrun)) | exact Hprints].
Defined.

End ResponseProperties.

(** ** [_count_decimal_places] and the precision of a column *)

Module PrecisionProperties.
Import Py GenerativeSMUtils Statements MonadFacts.
Import SerializationFacts RoundingFacts.

Lemma after_dot_found (a b : string) : after_dot (a ++ String "." b) <> None.
Proof.
  induction a as [|c a IH]; [discriminate|].
  rewrite append_cons. cbn [after_dot]. destruct (Ascii.eqb c "."); [discriminate | exact IH].
Qed.












(** A loop that reaches an element on which its body raises, raises. *)
Lemma rfold_raises {A B : Type} (f : B -> A -> result B) (l : list A) (x : A) :
  x ∈ l -> (forall acc, exists e, f acc x = Raise e) ->
  forall acc, exists e, rfold f l acc = Raise e.
Proof.
  intros Hin Hx. induction l as [|y l IH]; intros acc.
  - apply elem_of_nil in Hin. destruct Hin.
  - cbn [rfold]. apply elem_of_cons in Hin as [<- | Hin].
    + destruct (Hx acc) as (e & ->). exists e. reflexivity.
    + destruct (f acc y) as [acc'|e]; [apply (IH Hin) | exists e; reflexivity].
Qed.

Lemma rmap_raises {A B : Type} (f : A -> result B) (l : list A) (x : A) :
  x ∈ l -> (exists e, f x = Raise e) -> exists e, rmap f l = Raise e.
Proof.
  intros Hin Hx. induction l as [|y l IH].
  - apply elem_of_nil in Hin. destruct Hin.
  - cbn [rmap]. apply elem_of_cons in Hin as [<- | Hin].
    + destruct Hx as (e & ->). exists e. reflexivity.
    + destruct (f y) as [z|e]; [|exists e; reflexivity]. cbn [rbind].
      destruct (IH Hin) as (e & ->). exists e. reflexivity.
Qed.

(** X4. A column cannot be serialized when its hyperparameter has no
    constraint, or a constraint whose first bound is not a number - the
    constraint the sampler builds for a categorical distribution whose
    first choice is a string is one: [serialize_row] raises on every row
    that has such a column, and [prepare_configurations] raises on every
    table (taken in its own order) that has such a row. *)
Theorem serialize_row_needs_numeric_first_bound (permutation : nat -> list nat -> list nat)
  (cs : list (string * constraint)) (lower_is_better : bool) (top_pct : Q)
  (observed_configs : list (row pyval)) (observed_fvals : option (list pyfloat))
  (r : row pyval) (name : string) (v : pyval) :
  r ∈ observed_configs ->
  (name, v) ∈ r ->
  ((exists e, dict_get name cs = Raise e) \/
   (exists c, dict_get name cs = Ok c /\
      match bounds c with
      | [] | VStr _ :: _ | VNone :: _ => True
      | _ => False
      end)) ->
  (exists e, serialize_row cs r = Raise e) /\
  (exists e, prepare_configurations permutation cs lower_is_better top_pct
               observed_configs observed_fvals None = Raise e) /\
  (forall s choices,
     SamplerBase.constraint_of name (SamplerBase.CategoricalDistribution (VStr s :: choices))
     = Ok {| dtype := "categorical"; dist_type := "categorical";
             bounds := VStr s :: choices |}).
Proof.
  intros Hr Hcell Hcs.
  assert (Hprec : exists e, column_precision cs name = Raise e).
  { unfold column_precision. destruct Hcs as [(e & ->) | (c & -> & Hb)]; [eauto|].
    cbn [rbind]. destruct (bounds c) as [|[|z|f|s] rest]; try destruct Hb; eexists; reflexivity. }
  assert (Hrow : forall (r' : row pyval) (v' : pyval),
            (name, v') ∈ r' -> exists e, serialize_row cs r' = Raise e).
  { intros r' v' Hcell'. unfold serialize_row.
    apply list_elem_of_lookup in Hcell' as (i & Hi).
    apply (rfold_raises _ _ (i, (name, v'))).
    - apply list_elem_of_lookup. exists i. apply lookup_zip_with_Some.
      exists i, (name, v'). split; [reflexivity|]. split; [|exact Hi].
      apply lookup_seq. split; [reflexivity|]. apply lookup_lt_Some in Hi. exact Hi.
    - intros acc. unfold serialize_cell. destruct Hprec as (e & ->). exists e. reflexivity. }
  split; [exact (Hrow r v Hcell)|]. split; [|reflexivity].
  unfold prepare_configurations. cbn [rbind].
  destruct (match observed_fvals with
            | Some fvals =>
                rbind (assign_labels lower_is_better top_pct fvals) (fun l => Ok (Some l))
            | None => Ok None
            end) as [labels|e]; [|exists e; reflexivity].
  cbn [rbind]. apply list_elem_of_lookup in Hr as (i & Hi).
  set (t := values_dtype observed_configs).
  apply (rmap_raises _ _ (i, series t r)).
  - apply list_elem_of_lookup. exists i. unfold iterrows. apply lookup_zip_with_Some.
    exists i, (series t r). split; [reflexivity|]. split.
    + apply lookup_seq. split; [reflexivity|]. apply lookup_lt_Some in Hi. exact Hi.
    + change (map (series t) observed_configs) with (series t <$> observed_configs).
      rewrite list_lookup_fmap, Hi. reflexivity.
  - destruct (Hrow (series t r) (astype t v)) as (e & ->); [|exists e; reflexivity].
    unfold series. apply list_elem_of_In, in_map_iff. exists (name, v).
    split; [reflexivity | apply list_elem_of_In; exact Hcell].
Qed.

Lemma serialize_row_needs_numeric_first_bound_witness :
  let cs := [("optimizer", {| dtype := "categorical"; dist_type := "categorical";
                              bounds := [VStr "adam"; VStr "sgd"] |})] in
  let r := [("optimizer", VStr "adam")] in
  serialize_row cs r
  = Raise (ValueError "Unknown format code 'f' for object of type 'str'") /\
  (exists e, serialize_row cs r = Raise e) /\
  (exists e, prepare_configurations (fun _ index => index) cs true (1 # 4) [r] None None
             = Raise e).
Proof.
  split; [reflexivity|].
  destruct (serialize_row_needs_numeric_first_bound (fun _ index => index)
              [("optimizer", {| dtype := "categorical"; dist_type := "categorical";
                                bounds := [VStr "adam"; VStr "sgd"] |})]
              true (1 # 4) [[("optimizer", VStr "adam")]] None
              [("optimizer", VStr "adam")] "optimizer" (VStr "adam"))
    as (Hrow & Htable & _).
  - apply list_elem_of_singleton. reflexivity.
  - apply list_elem_of_singleton. reflexivity.
  - right. eexists. split; [reflexivity | exact I].
  - split; [exact Hrow | exact Htable].
Defined.

End PrecisionProperties.

(** ** The labels of the observed rows *)

Module LabelProperties.
Import Py GenerativeSMUtils Statements MonadFacts RoundingFacts LabelFacts.

#[local] Instance Qle_trans_rel : Transitive Qle.
Proof. intros x y z. apply Qle_trans. Qed.

#[local] Instance Qle_total_rel : Total Qle.
Proof.
  intros x y. destruct (Qlt_le_dec x y) as [H | H]; [left; apply Qlt_le_weak|right]; exact H.
Qed.

Lemma fin_values_elem (a : list pyfloat) (x : Q) : x ∈ fin_values a <-> Fin x ∈ a.
Proof.
  induction a as [|[|q] a IH]; simpl.
  - split; intros H; apply elem_of_nil in H; destruct H.
  - rewrite IH. split; [apply list_elem_of_further|].
    intros H. apply elem_of_cons in H as [H | H]; [discriminate | exact H].
  - rewrite !elem_of_cons, IH. split; intros [H | H]; auto; left; congruence.
Qed.

(** The percentage on the other side: [int(100 - top_pct * 100)]. *)
Lemma complement_range (t : Q) :
  (0 <= t)%Q -> (t <= 1)%Q -> (0 <= py_int (float_sub 100 (float_mul t 100)) <= 100)%Z.
Proof.
  intros H0 H1.
  pose proof (float_sub_100_nonneg _ (float_mul_100_le t H1)) as Hl.
  pose proof (float_sub_100_le _ (float_mul_100_nonneg t H0)) as Hu.
  rewrite py_int_floor by exact Hl.
  split; [change 0%Z with (Qfloor 0) | change 100%Z with (Qfloor 100)];
    apply Qfloor_resp_le; assumption.
Qed.

Lemma complement_mono (t2 t1 : Q) :
  (t2 <= t1)%Q -> (t1 <= 1)%Q ->
  (py_int (float_sub 100 (float_mul t1 100)) <= py_int (float_sub 100 (float_mul t2 100)))%Z.
Proof.
  intros H21 H1.
  rewrite !py_int_floor
    by (apply float_sub_100_nonneg, float_mul_100_le; lra).
  apply Qfloor_resp_le, float_sub_100_mono, float_mul_100_mono, H21.
Qed.

(** The sorted finite values of a vector without NaN. *)
Lemma sorted_values (a : list pyfloat) :
  let s := merge_sort Qle (H := Qleb_total) (fin_values a) in
  StronglySorted Qle s /\ (forall x, x ∈ s <-> Fin x ∈ a) /\
  (a <> [] -> existsb isnan a = false -> s <> []).
Proof.
  intros s. split; [apply StronglySorted_merge_sort; apply _|]. split.
  - intros x. unfold s. rewrite merge_sort_Permutation. apply fin_values_elem.
  - intros Hne Hnan Hs.
    assert (Hp : s ≡ₚ fin_values a) by apply merge_sort_Permutation.
    rewrite Hs in Hp. apply Permutation_nil in Hp.
    apply (fin_values_nonempty a Hne Hnan Hp).
Qed.

(** The percentile lies between the smallest and the largest value. *)
Lemma quantile_sorted_bounds (s : list Q) (q : Z) :
  StronglySorted Qle s -> s <> [] -> (0 <= q <= 100)%Z ->
  (nth 0 s 0 <= quantile_sorted s q)%Q /\
  (quantile_sorted s q <= nth (length s - 1) s 0)%Q.
Proof.
  intros Hs Hne Hq.
  assert (Hn : (1 <= length s)%nat) by (destruct s; [congruence | simpl; lia]).
  assert (H100 : quantile_sorted s 100 = nth (length s - 1) s 0%Q).
  { unfold quantile_sorted.
    assert (E : Qle_bool (inject_Z (Z.of_nat (length s) - 1))
                  (inject_Z (Z.of_nat (length s) - 1) * (inject_Z 100 / 100)) = true).
    { apply Qle_bool_iff.
      assert (Hone : (inject_Z 100 / 100 == 1)%Q) by reflexivity.
      rewrite Hone, Qmult_1_r. apply Qle_refl. }
    rewrite E. reflexivity. }
  assert (H0 : (nth 0 s 0 <= quantile_sorted s 0)%Q).
  { unfold quantile_sorted.
    set (m := inject_Z (Z.of_nat (length s) - 1)).
    assert (Ev : (m * (inject_Z 0 / 100) == 0)%Q).
    { assert (Hzero : (inject_Z 0 / 100 == 0)%Q) by reflexivity.
      rewrite Hzero. apply Qmult_0_r. }
    destruct (Qle_bool m (m * (inject_Z 0 / 100))) eqn:E.
    - apply (sorted_nth_le s Hs). lia.
    - assert (Hm : (0 < m)%Q).
      { apply Qnot_le_lt. intros H.
        assert (H' : (m <= m * (inject_Z 0 / 100))%Q) by (rewrite Ev; exact H).
        apply Qle_bool_iff in H'. congruence. }
      assert (Hlen : (2 <= length s)%nat).
      { unfold m in Hm. rewrite <- (Zlt_Qlt 0) in Hm. lia. }
      pose proof (Qfloor_comp _ _ Ev) as Hf. change (Qfloor 0) with 0%Z in Hf.
      rewrite Hf. change (Z.to_nat 0) with 0%nat.
      assert (H01 : (nth 0 s 0 <= nth 1 s 0)%Q) by (apply (sorted_nth_le s Hs); lia).
      assert (Ht : (m * (inject_Z 0 / 100) - inject_Z 0 == 0)%Q) by (rewrite Ev; reflexivity).
      apply (lerp_between _ _ _ H01); rewrite Ht; [apply Qle_refl | discriminate]. }
  split.
  - apply Qle_trans with (quantile_sorted s 0); [exact H0|].
    apply quantile_sorted_mono; [assumption.. | lia].
  - rewrite <- H100. apply quantile_sorted_mono; [assumption.. | lia].
Qed.

(** X5. With [lower_is_better = False], as with [True] (C6): for a
    non-empty fitness vector and two top fractions [0 <= t2 < t1 <= 1],
    both label assignments succeed and the smaller fraction labels at most
    as many rows 1 as the larger. *)
Theorem labels_monotone_when_higher_is_better (observed_fvals : list pyfloat) (t1 t2 : Q) :
  observed_fvals <> [] ->
  (0 <= t2)%Q -> (t2 < t1)%Q -> (t1 <= 1)%Q ->
  exists labels1 labels2,
    assign_labels false t1 observed_fvals = Ok labels1 /\
    assign_labels false t2 observed_fvals = Ok labels2 /\
    (positive_count labels2 <= positive_count labels1)%nat.
Proof.
  intros Hne H0 H21 H1.
  pose proof (complement_range t1 ltac:(lra) H1) as Hr1.
  pose proof (complement_range t2 H0 ltac:(lra)) as Hr2.
  pose proof (complement_mono t2 t1 ltac:(lra) H1) as Hmono.
  unfold assign_labels, np_percentile.
  destruct (Z.ltb_spec (py_int (float_sub 100 (float_mul t1 100))) 0); [lia|].
  destruct (Z.ltb_spec 100 (py_int (float_sub 100 (float_mul t1 100)))); [lia|].
  destruct (Z.ltb_spec (py_int (float_sub 100 (float_mul t2 100))) 0); [lia|].
  destruct (Z.ltb_spec 100 (py_int (float_sub 100 (float_mul t2 100)))); [lia|].
  cbn [orb]. destruct observed_fvals as [|x0 rest] eqn:Efv; [congruence|]. rewrite <- Efv in *.
  destruct (existsb isnan observed_fvals) eqn:Enan; cbn [rbind].
  - eexists _, _. split; [reflexivity|]. split; [reflexivity|].
    apply positive_count_mono. intros x. discriminate.
  - eexists _, _. split; [reflexivity|]. split; [reflexivity|].
    apply positive_count_mono. intros [|x]; [discriminate|]. simpl.
    destruct (sorted_values observed_fvals) as (Hs & _ & Hsne).
    set (s := merge_sort Qle (fin_values observed_fvals)) in *.
    assert (Hle : (quantile_sorted s (py_int (float_sub 100 (float_mul t1 100)))
                   <= quantile_sorted s (py_int (float_sub 100 (float_mul t2 100))))%Q).
    { apply quantile_sorted_mono; [exact Hs | | lia].
      apply Hsne; [rewrite Efv; discriminate | exact Enan]. }
    intros Hx. apply negb_true_iff in Hx. apply negb_true_iff.
    destruct (Qle_bool x (quantile_sorted s (py_int (float_sub 100 (float_mul t1 100))))) eqn:E; [|reflexivity].
    apply Qle_bool_iff in E.
    assert (H' : (x <= quantile_sorted s (py_int (float_sub 100 (float_mul t2 100))))%Q) by lra.
    apply Qle_bool_iff in H'. congruence.
Qed.

Lemma labels_monotone_when_higher_is_better_witness :
  let observed_fvals := [Fin 5; Fin 1; Fin 3; Fin 2] in
  observed_fvals <> [] /\
  (0 <= 1 # 4)%Q /\ (1 # 4 < 1 # 2)%Q /\ (1 # 2 <= 1)%Q /\
  assign_labels false (1 # 2) observed_fvals = Ok [1; 0; 1; 0]%Z /\
  assign_labels false (1 # 4) observed_fvals = Ok [1; 0; 0; 0]%Z /\
  exists labels1 labels2,
    assign_labels false (1 # 2) observed_fvals = Ok labels1 /\
    assign_labels false (1 # 4) observed_fvals = Ok labels2 /\
    (positive_count labels2 <= positive_count labels1)%nat.
Proof.
  split; [discriminate|]. split; [discriminate|]. split; [reflexivity|].
  split; [discriminate|]. split; [vm_compute; reflexivity|]. split; [vm_compute; reflexivity|].
  apply (labels_monotone_when_higher_is_better [Fin 5; Fin 1; Fin 3; Fin 2] (1 # 2) (1 # 4));
    [discriminate | discriminate | reflexivity | discriminate].
Defined.

(** X6. A row labelled 1 is strictly better than some other observed row:
    its fitness is below the percentile cutoff, which is at most the
    largest fitness (above the cutoff, which is at least the smallest one,
    when higher is better).  So a worst row is never labelled 1, and when
    all fitness values are equal no row is. *)
Theorem positive_label_beats_some_row (lower_is_better : bool) (top_pct : Q)
  (observed_fvals : list pyfloat) (labels : list Z) (i : nat) :
  assign_labels lower_is_better top_pct observed_fvals = Ok labels ->
  labels !! i = Some 1%Z ->
  exists x j y,
    observed_fvals !! i = Some (Fin x) /\ observed_fvals !! j = Some (Fin y) /\
    if lower_is_better then (x < y)%Q else (y < x)%Q.
Proof.
  intros E Hi. unfold assign_labels in E.
  set (q := if lower_is_better then py_int (float_mul top_pct 100)
            else py_int (float_sub 100 (float_mul top_pct 100))).
  assert (Hp : exists p,
             np_percentile observed_fvals q = Ok p /\
             exists v, observed_fvals !! i = Some v /\
                       (if lower_is_better then float_lt v p else float_lt p v) = true).
  { unfold q. destruct lower_is_better;
      (destruct (np_percentile observed_fvals _) as [p|e]; [|discriminate]);
      cbn [rbind] in E; injection E as <-; exists p; (split; [reflexivity|]);
      rewrite list_lookup_fmap in Hi;
      (destruct (observed_fvals !! i) as [v|]; [|discriminate]);
      exists v; (split; [reflexivity|]); simpl in Hi;
      match goal with |- ?b = true => destruct b; [reflexivity | discriminate] end. }
  destruct Hp as (p & Ep & v & Hv & Hlt). clear E Hi.
  unfold np_percentile in Ep.
  destruct ((q <? 0)%Z || (100 <? q)%Z) eqn:Erange; [discriminate|].
  apply orb_false_iff in Erange as (Hq0 & Hq100).
  apply Z.ltb_ge in Hq0, Hq100.
  destruct observed_fvals as [|x0 rest] eqn:Efv; [discriminate|]. rewrite <- Efv in *.
  destruct (existsb isnan observed_fvals) eqn:Enan.
  { injection Ep as <-. destruct lower_is_better, v; discriminate. }
  injection Ep as <-.
  destruct (sorted_values observed_fvals) as (Hs & Hmem & Hsne).
  set (s := merge_sort Qle (fin_values observed_fvals)) in *.
  assert (Hne : s <> []) by (apply Hsne; [rewrite Efv; discriminate | exact Enan]).
  assert (Hn : (1 <= length s)%nat) by (destruct s; [congruence | simpl; lia]).
  destruct (quantile_sorted_bounds s q Hs Hne ltac:(lia)) as (Hlow & Hup).
  destruct v as [|x]; [destruct lower_is_better; discriminate|].
  exists x.
  assert (Hin : forall k, (k < length s)%nat -> exists j, observed_fvals !! j = Some (Fin (nth k s 0%Q))).
  { intros k Hk. apply list_elem_of_lookup, Hmem, list_elem_of_In, nth_In. exact Hk. }
  destruct lower_is_better.
  - destruct (Hin (length s - 1)%nat ltac:(lia)) as (j & Hj).
    exists j, (nth (length s - 1) s 0%Q). split; [exact Hv|]. split; [exact Hj|].
    simpl in Hlt. apply negb_true_iff in Hlt.
    assert (Hx : (x < quantile_sorted s q)%Q).
    { apply Qnot_le_lt. intros H. apply Qle_bool_iff in H. congruence. }
    lra.
  - destruct (Hin 0%nat ltac:(lia)) as (j & Hj).
    exists j, (nth 0 s 0%Q). split; [exact Hv|]. split; [exact Hj|].
    simpl in Hlt. apply negb_true_iff in Hlt.
    assert (Hx : (quantile_sorted s q < x)%Q).
    { apply Qnot_le_lt. intros H. apply Qle_bool_iff in H. congruence. }
    lra.
Qed.

Lemma positive_label_beats_some_row_witness :
  assign_labels true (1 # 2) [Fin 5; Fin 1; Fin 3; Fin 2] = Ok [0; 1; 0; 1]%Z /\
  exists x j y,
    [Fin 5; Fin 1; Fin 3; Fin 2] !! 3%nat = Some (Fin x) /\
    [Fin 5; Fin 1; Fin 3; Fin 2] !! j = Some (Fin y) /\ (x < y)%Q.
Proof.
  assert (E : assign_labels true (1 # 2) [Fin 5; Fin 1; Fin 3; Fin 2] = Ok [0; 1; 0; 1]%Z)
    by (vm_compute; reflexivity).
  split; [exact E|].
  apply (positive_label_beats_some_row true (1 # 2) [Fin 5; Fin 1; Fin 3; Fin 2]
           [0; 1; 0; 1]%Z 3 E eq_refl).
Defined.

(** X7. One NaN among the fitness values turns every label into 0, in
    both directions: the percentile is NaN and no comparison with NaN
    holds. *)
Theorem labels_all_zero_with_nan (lower_is_better : bool) (top_pct : Q)
  (observed_fvals : list pyfloat) (labels : list Z) :
  assign_labels lower_is_better top_pct observed_fvals = Ok labels ->
  NaN ∈ observed_fvals ->
  labels = map (fun _ => 0%Z) observed_fvals.
Proof.
  intros E Hnan.
  assert (Hex : existsb isnan observed_fvals = true).
  { apply existsb_exists. exists NaN. split; [apply list_elem_of_In; exact Hnan | reflexivity]. }
  unfold assign_labels, np_percentile in E.
  destruct observed_fvals as [|x0 rest] eqn:Efv; [apply elem_of_nil in Hnan; destruct Hnan|].
  rewrite <- Efv in *. rewrite Hex in E.
  destruct lower_is_better;
    (destruct (_ || _); [discriminate|]); cbn [rbind] in E; injection E as <-;
    apply map_ext; intros [|x]; reflexivity.
Qed.

Lemma labels_all_zero_with_nan_witness :
  assign_labels true (1 # 2) [Fin 5; NaN; Fin 3] = Ok [0; 0; 0]%Z /\
  NaN ∈ [Fin 5; NaN; Fin 3] /\
  [0; 0; 0]%Z = map (fun _ => 0%Z) [Fin 5; NaN; Fin 3].
Proof.
  assert (E : assign_labels true (1 # 2) [Fin 5; NaN; Fin 3] = Ok [0; 0; 0]%Z)
    by (vm_compute; reflexivity).
  assert (Hin : NaN ∈ [Fin 5; NaN; Fin 3]) by (right; left).
  split; [exact E|]. split; [exact Hin|].
  apply (labels_all_zero_with_nan true (1 # 2) [Fin 5; NaN; Fin 3] [0; 0; 0]%Z E Hin).
Defined.

End LabelProperties.

(** ** The queries a round sends *)

Module EngineProperties.
Import Py GenerativeSMUtils GenerativeSM Statements Observations.
Import MonadFacts GatherFacts EngineFacts PredictFacts.

Lemma asked_app (h1 h2 : history) : asked (h1 ++ h2)%list = (asked h1 ++ asked h2)%list.
Proof. induction h1 as [|[t|n|m] h1 IH]; simpl; congruence. Qed.

Lemma flat_map_constant_length {A B : Type} (f : A -> list B) (n : nat) (l : list A) :
  (forall x, length (f x) = n) -> length (flat_map f l) = (length l * n)%nat.
Proof.
  intros Hf. induction l as [|x l IH]; [reflexivity|].
  simpl. rewrite length_app, Hf, IH. reflexivity.
Qed.

(** A loop in [M] whose body keeps an invariant on the accumulator and
    the history. *)
Lemma mfold_Ok_trace {A B : Type} (I : nat -> B -> history -> Prop) (f : B -> A -> M B)
  (l : list A) :
  (forall i x acc h acc' h', l !! i = Some x -> I i acc h ->
     f acc x h = (Ok acc', h') -> I (S i) acc' h') ->
  forall acc h acc' h', I 0%nat acc h ->
  mfold f l acc h = (Ok acc', h') -> I (length l) acc' h'.
Proof.
  revert I. induction l as [|x l IH]; intros I Hstep acc h acc' h' H0 E; simpl in *.
  - injection E as <- <-. assumption.
  - unfold bind in E. destruct (f acc x h) as [[acc1|e] h1] eqn:E1; [|discriminate].
    apply (IH (fun i => I (S i))) with (acc := acc1) (h := h1); [| |assumption].
    + intros i y a hh a' hh' Hl Hi. apply (Hstep (S i) y a hh a' hh' Hl Hi).
    + apply (Hstep 0%nat x acc h acc1 h1 eq_refl H0 E1).
Qed.

Lemma mfold_trace {A B : Type} (I : B -> history -> Prop) (f : B -> A -> M B) (l : list A) :
  (forall x acc h, x ∈ l -> I acc h ->
     exists acc' h', f acc x h = (Ok acc', h') /\ I acc' h') ->
  forall acc h, I acc h ->
  exists acc' h', mfold f l acc h = (Ok acc', h') /\ I acc' h'.
Proof.
  induction l as [|x l IH]; intros Hstep acc h H0; simpl.
  - exists acc, h. split; [reflexivity | assumption].
  - destruct (Hstep x acc h ltac:(left) H0) as (acc1 & h1 & E1 & I1).
    unfold bind. rewrite E1. apply IH; [|assumption].
    intros y a hh Hy. apply Hstep. right. exact Hy.
Qed.

(** Regrouping the pairs by candidate instead of by template. *)
Lemma flat_map_cons_split {A B : Type} (g : A -> B) (k : A -> list B) (l : list A) :
  flat_map (fun x => g x :: k x) l ≡ₚ (map g l ++ flat_map k l)%list.
Proof.
  induction l as [|x l IH]; [reflexivity|]. simpl. rewrite IH.
  apply perm_skip. rewrite !app_assoc. apply Permutation_app_tail. apply Permutation_app_comm.
Qed.

Lemma flat_map_transpose {A B C : Type} (f : A -> B -> C) (ts : list A) (qs : list B) :
  flat_map (fun t => map (f t) qs) ts ≡ₚ flat_map (fun q => map (fun t => f t q) ts) qs.
Proof.
  induction ts as [|t ts IH]; simpl.
  - induction qs as [|q qs IHq]; [reflexivity | exact IHq].
  - rewrite IH. symmetry. apply (flat_map_cons_split (f t)).
Qed.

Section WithEngine.

Context {Template : Type}.
Variable template_format : Template -> string -> string.
Variable ask : history -> list (string * string) -> pyval * Q.
Variable next_done : history -> nat -> nat.

Local Abbreviation message := (build_message template_format).
Local Abbreviation answers_to := (answers template_format ask).

(** A task that sends the message [m] and nothing else. *)
Local Abbreviation sends := (fun (X : Type) (task : M X) (m : list (string * string)) =>
  forall h x h', task h = (Ok x, h') -> asked h' = (asked h ++ [m])%list).

Lemma _async_generate_sends (t : Template) (q : example) (i : nat) :
  sends _ (_async_generate template_format ask t q i) (message t q).
Proof.
  intros h x h' E. rewrite (RateLimiterFacts._async_generate_run template_format ask) in E.
  cbv zeta in E. injection E as _ <-. rewrite !asked_app. simpl. rewrite app_nil_r. reflexivity.
Qed.

(** Whatever order the event loop picks, the messages sent are those of
    the pending tasks. *)
Lemma event_loop_asked {X : Type} :
  forall (n : nat) (pending : list (nat * M X)) (ms : list (list (string * string)))
         (slots : list (option X)) (h : history) (r : list (option X)) (h' : history),
    length pending = n ->
    Forall2 (fun kt m => sends X kt.2 m) pending ms ->
    event_loop next_done n pending slots h = (Ok r, h') ->
    asked h' ≡ₚ (asked h ++ ms)%list.
Proof.
  induction n as [|n IH]; intros pending ms slots h r h' Hlen HF E.
  - destruct pending; [|discriminate]. apply Forall2_nil_inv_l in HF as ->.
    injection E as _ <-. rewrite app_nil_r. reflexivity.
  - rewrite event_loop_step in E. cbv zeta in E. unfold M in *.
    match type of E with context [pending !! ?c] => set (chosen := c) in E end.
    assert (Hc : (chosen < length pending)%nat).
    { unfold chosen. apply Nat.mod_upper_bound. lia. }
    destruct (lookup_lt_is_Some_2 pending chosen Hc) as ([k task] & Hk).
    rewrite Hk in E.
    destruct (Forall2_lookup_l _ _ _ _ _ HF Hk) as (m & Hm & Hsend). simpl in Hsend.
    destruct (task h) as [[x|e] h1] eqn:Et; [|discriminate].
    pose proof (Hsend h x h1 Et) as Hh1.
    assert (HI : asked h' ≡ₚ (asked h1 ++ delete chosen ms)%list).
    { apply (IH (delete chosen pending) (delete chosen ms) (<[k := Some x]> slots) h1 r h').
      - rewrite length_delete by (rewrite Hk; eauto). lia.
      - apply Forall2_delete. exact HF.
      - exact E. }
    rewrite HI, Hh1, <- app_assoc. apply Permutation_app_head. simpl.
    symmetry. apply delete_Permutation. exact Hm.
Qed.

Lemma asyncio_gather_asked {X : Type} (tasks : list (M X))
  (ms : list (list (string * string))) (h : history) (xs : list X) (h' : history) :
  Forall2 (sends X) tasks ms ->
  asyncio_gather next_done tasks h = (Ok xs, h') ->
  asked h' ≡ₚ (asked h ++ ms)%list.
Proof.
  intros HF E. unfold asyncio_gather, bind in E.
  destruct (event_loop next_done (length tasks) (zip (seq 0 (length tasks)) tasks)
              (replicate (length tasks) None) h) as [[slots|e] h1] eqn:El; [|discriminate].
  injection E as _ <-.
  apply (event_loop_asked (length tasks) (zip (seq 0 (length tasks)) tasks) ms
           (replicate (length tasks) None) h slots h1); [| |exact El].
  - rewrite length_zip_with, length_seq. lia.
  - apply Forall2_same_length_lookup. split.
    + rewrite length_zip_with, length_seq, <- (Forall2_length _ _ _ HF). lia.
    + intros i [k t] m Hi Hm.
      apply lookup_zip_with_Some in Hi as (a & b & [= -> ->] & _ & Hb).
      exact (Forall2_lookup_lr _ _ _ _ _ _ HF Hb Hm).
Qed.

Lemma coroutines_of_template_send (t : Template) (query_examples : list example)
  (start : nat) :
  Forall2 (sends _)
    (map (fun '(query_idx, query_example) =>
            _async_generate template_format ask t query_example query_idx)
         (zip (seq start (length query_examples)) query_examples))
    (map (message t) query_examples).
Proof.
  revert start. induction query_examples as [|q qs IHq]; intros start; [constructor|].
  simpl. constructor; [apply _async_generate_sends | apply IHq].
Qed.

Lemma coroutines_send (templates : list Template) (query_examples : list example) :
  Forall2 (sends _)
    (flat_map (fun template =>
                 map (fun '(query_idx, query_example) =>
                        _async_generate template_format ask template query_example query_idx)
                     (zip (seq 0 (length query_examples)) query_examples))
              templates)
    (flat_map (fun t => map (message t) query_examples) templates).
Proof.
  induction templates as [|t templates IH]; [constructor|].
  cbn [flat_map]. apply Forall2_app; [|exact IH].
  apply coroutines_of_template_send.
Qed.

(** The rows and the messages of a round of queries. *)
Lemma generate_concurrently_accounts (templates : list Template)
  (query_examples : list example) (h : history) :
  exists results h',
    _generate_concurrently template_format ask next_done templates query_examples h
    = (Ok results, h') /\
    Forall2 (fun q row => Forall2 (answers_to q) templates row) query_examples results /\
    asked h' ≡ₚ (asked h ++ all_messages template_format templates query_examples)%list.
Proof.
  destruct (_generate_concurrently_regroups template_format ask next_done templates
              query_examples h) as (results & h' & E & HF).
  exists results, h'. split; [exact E|]. split; [exact HF|].
  unfold _generate_concurrently, bind in E.
  match type of E with
  | context [asyncio_gather next_done ?tasks h] =>
      destruct (asyncio_gather next_done tasks h) as [[xs|e] h1] eqn:Eg; [|discriminate];
      pose proof (asyncio_gather_asked tasks _ h xs h1
                    (coroutines_send templates query_examples) Eg) as Hasked
  end.
  unfold lift in E. injection E as _ <-.
  rewrite Hasked. apply Permutation_app_head.
  unfold all_messages, messages_for. apply (flat_map_transpose message).
Qed.

(** X8. Whenever [_generate_concurrently] returns - it has no handler
    of its own - whatever the order in which the event loop lets the
    queries finish, it returns one row per candidate, in candidate order,
    and the row of a candidate holds the replies to the queries about this
    candidate, one per template in template order; and the messages it has
    sent are exactly one per pair of a candidate and a template. *)
Theorem _generate_concurrently_sends_each_pair_once (templates : list Template)
  (query_examples : list example) (h : history)
  (results : list (list (pyval * Q * Z))) (h' : history) :
  _generate_concurrently template_format ask next_done templates query_examples h
  = (Ok results, h') ->
  Forall2 (fun q row => Forall2 (answers_to q) templates row) query_examples results /\
  asked h' ≡ₚ (asked h ++ all_messages template_format templates query_examples)%list.
Proof.
  intros E.
  destruct (generate_concurrently_accounts templates query_examples h)
    as (results0 & h0 & E0 & HF & Hasked).
  rewrite E in E0. injection E0 as <- <-. split; [exact HF | exact Hasked].
Qed.

(** Working out the predictions of a candidate sends nothing. *)
Lemma raw_of_asked (entry : pyval * Q * Z) (h : history) :
  asked (raw_of entry h).2 = asked h.
Proof.
  destruct entry as [[resp c] tk]. destruct resp; try reflexivity;
    simpl; rewrite asked_app, app_nil_r; reflexivity.
Qed.

Lemma process_one_asked (raw : pyval) (h : history) : asked (process_one raw h).2 = asked h.
Proof.
  destruct (ResponseProperties.process_one_prints raw h) as (evs & -> & P).
  rewrite asked_app. clear -P.
  induction evs as [|[t|n|m] evs IH]; simpl in *; try discriminate;
    [apply app_nil_r | apply IH; exact P].
Qed.

Lemma mmap_asked {A B : Type} (f : A -> M B) (l : list A) :
  (forall x h, asked (f x h).2 = asked h) ->
  forall h, asked (mmap f l h).2 = asked h.
Proof.
  intros Hf. induction l as [|x l IH]; intros h; [reflexivity|].
  cbn [mmap]. unfold bind. pose proof (Hf x h) as H1.
  destruct (f x h) as [[y|e] h1]; [|exact H1]. simpl in H1.
  pose proof (IH h1) as H2. destruct (mmap f l h1) as [[ys|e] h2]; simpl in *; congruence.
Qed.

Lemma predict_sample_asked (self : LLMGenerativeSM) (acc : totals)
  (sample_response : list (pyval * Q * Z)) (h : history) :
  asked (predict_sample self acc sample_response h).2 = asked h.
Proof.
  destruct sample_response as [|e rest]; [reflexivity|].
  unfold predict_sample, bind.
  pose proof (mmap_asked raw_of (e :: rest) raw_of_asked h) as H1.
  destruct (mmap raw_of (e :: rest) h) as [[raws|err] h1]; [|exact H1]. simpl in H1.
  pose proof (mmap_asked process_one raws process_one_asked h1) as H2.
  unfold process_response.
  destruct (mmap process_one raws h1) as [[preds|err] h2]; simpl in *; congruence.
Qed.

(** The tokens counted for a candidate: 1000 per reply. *)
Lemma predict_sample_tokens (self : LLMGenerativeSM) (templates : list Template)
  (q : example) (acc : totals) (sample_response : list (pyval * Q * Z)) (h : history)
  (acc' : totals) (h' : history) :
  Forall2 (answers_to q) templates sample_response ->
  predict_sample self acc sample_response h = (Ok acc', h') ->
  tot_tokens acc' = (tot_tokens acc + 1000 * Z.of_nat (length templates))%Z.
Proof.
  intros HF E.
  assert (Hsum : fold_right Z.add 0%Z (map snd sample_response)
                 = (1000 * Z.of_nat (length templates))%Z).
  { clear E. induction HF as [|t entry ts row (hh & ->) _ IH]; [reflexivity|].
    cbn [map fold_right snd length]. rewrite IH. lia. }
  destruct sample_response as [|e rest].
  - apply Forall2_nil_inv_r in HF as ->. injection E as <- _. simpl. lia.
  - unfold predict_sample, bind in E.
    destruct (mmap raw_of (e :: rest) h) as [[raws|err] h1]; [|discriminate].
    destruct (process_response raws h1) as [[preds|err] h2]; [|discriminate].
    injection E as <- _. cbn [tot_tokens]. cbn [map fold_right] in Hsum.
    rewrite Hsum. reflexivity.
Qed.

Variable self : LLMGenerativeSM.
Variable templates : list Template.

Lemma predict_chunk_accounts (query_examples : list example) (acc : totals) (i : nat)
  (h : history) (acc' : totals) (h' : history) :
  predict_chunk template_format ask next_done self templates query_examples acc i h
  = (Ok acc', h') ->
  let chunk := take 5 (drop i query_examples) in
  asked h' ≡ₚ (asked h ++ all_messages template_format templates chunk)%list /\
  tot_tokens acc'
  = (tot_tokens acc + 1000 * Z.of_nat (length templates) * Z.of_nat (length chunk))%Z.
Proof.
  intros E chunk. unfold predict_chunk, bind in E. fold chunk in E.
  destruct (generate_concurrently_accounts templates chunk h)
    as (results & h1 & E1 & HF & Hasked).
  rewrite E1 in E.
  match type of E with
  | mfold _ _ ?a h1 = _ =>
      pose proof (mfold_Ok_trace
                    (fun k a' hh => asked hh = asked h1 /\
                       tot_tokens a' = (tot_tokens acc
                                        + 1000 * Z.of_nat (length templates) * Z.of_nat k)%Z)
                    (predict_sample self) results) as Hinv;
      destruct (Hinv) with (acc := a) (h := h1) (acc' := acc') (h' := h') as (Hh & Htok)
  end.
  - intros k row a hh a' hh' Hrow (Hh & Htok) Estep.
    destruct (Forall2_lookup_r _ _ _ _ _ HF Hrow) as (q & _ & Hans).
    split.
    + pose proof (predict_sample_asked self a row hh) as Ha. rewrite Estep in Ha.
      simpl in Ha. congruence.
    + rewrite (predict_sample_tokens self templates q a row hh a' hh' Hans Estep), Htok. lia.
  - split; [reflexivity | simpl; lia].
  - exact E.
  - split; [rewrite Hh; exact Hasked|].
    rewrite Htok, <- (Forall2_length _ _ _ HF). reflexivity.
Qed.

(** The messages and the tokens of a prediction round. *)
Lemma predict_accounts (query_examples : list example) (h : history)
  (probs : list pyfloat) (sr cost : Q) (tok : Z) (h' : history) :
  _predict template_format ask next_done self templates query_examples h
  = (Ok (probs, sr, cost, tok), h') ->
  asked h' ≡ₚ (asked h ++ all_messages template_format templates query_examples)%list /\
  tok = (1000 * Z.of_nat (length templates) * Z.of_nat (length query_examples))%Z.
Proof.
  unfold _predict, bind. intros E.
  destruct (mfold _ _ _ h) as [[acc|err] h1] eqn:Eloop; [|discriminate].
  set (n := length query_examples) in *.
  pose proof (mfold_Ok_trace
                (fun k a hh =>
                   asked hh ≡ₚ (asked h ++ all_messages template_format templates
                                             (take (5 * k) query_examples))%list /\
                   tot_tokens a = (1000 * Z.of_nat (length templates)
                                   * Z.of_nat (Nat.min (5 * k) n))%Z)
                (predict_chunk template_format ask next_done self templates query_examples)
                (chunk_starts n)) as Hinv.
  destruct (Hinv) with (acc := {| all_preds := []; tot_tokens := 0%Z; tot_cost := 0%Q;
                                  bool_pred_returned := [] |})
                       (h := h) (acc' := acc) (h' := h1) as (Hasked & Htok).
  - intros k x a hh a' hh' Hx (Hasked & Htok) Estep. apply chunk_starts_lookup in Hx as ->.
    destruct (predict_chunk_accounts query_examples a (5 * k) hh a' hh' Estep)
      as (Ha & Ht).
    split.
    + rewrite Ha, Hasked, <- app_assoc. apply Permutation_app_head.
      replace (5 * S k)%nat with (5 * k + 5)%nat by lia.
      rewrite <- take_take_drop. unfold all_messages. rewrite flat_map_app. reflexivity.
    + rewrite Ht, Htok, length_take, length_drop. fold n. lia.
  - simpl. rewrite app_nil_r. split; [reflexivity | lia].
  - exact Eloop.
  - pose proof (chunk_starts_cover n) as Hcover.
    rewrite take_ge in Hasked by (fold n; lia).
    unfold lift in E.
    destruct (py_truediv _ _) as [rate|err]; [|discriminate].
    destruct (np_array (all_preds acc)) as [rows|err]; [|discriminate].
    destruct (np_nanmean_axis1 rows) as [means|err]; [|discriminate].
    unfold ret in E. injection E as _ _ _ <- <-.
    split; [exact Hasked|]. rewrite Htok. f_equal. f_equal. lia.
Qed.

(** X9. Whenever [_predict] returns, the messages it has sent are exactly
    one per pair of a candidate and a template - in chunks of five
    candidates, and in the order the event loop chose within a chunk - and
    the token total it reports is 1000 per message. *)
Theorem _predict_sends_each_pair_once (query_examples : list example) (h : history)
  (probs : list pyfloat) (sr cost : Q) (tok : Z) (h' : history) :
  _predict template_format ask next_done self templates query_examples h
  = (Ok (probs, sr, cost, tok), h') ->
  asked h' ≡ₚ (asked h ++ all_messages template_format templates query_examples)%list /\
  tok = (1000 * Z.of_nat (length templates) * Z.of_nat (length query_examples))%Z.
Proof. apply predict_accounts. Qed.

(** X11. Whenever [_predict] returns, the success rate it reports is 1,
    whatever the replies were: each candidate counts as answered. *)
Theorem _predict_always_reports_full_success (query_examples : list example)
  (h : history) (probs : list pyfloat) (sr cost : Q) (tok : Z) (h' : history) :
  _predict template_format ask next_done self templates query_examples h
  = (Ok (probs, sr, cost, tok), h') ->
  (sr == 1)%Q.
Proof.
  intros E.
  destruct (_predict_returned template_format ask next_done self templates
              query_examples h probs sr cost tok h' E) as (_ & -> & Hne).
  apply Qmult_inv_r. intros H. destruct query_examples; [congruence|].
  unfold Qeq in H. simpl in H. lia.
Qed.

End WithEngine.

Section WithoutTemplates.

Context {Template : Type}.
Variable template_format : Template -> string -> string.
Variable ask : history -> list (string * string) -> pyval * Q.
Variable next_done : history -> nat -> nat.
Variable self : LLMGenerativeSM.

Lemma predict_chunk_without_template (query_examples : list example) (acc : totals)
  (i : nat) (h : history) :
  Forall (fun r => r = replicate (n_gens self) NaN) (all_preds acc) ->
  exists acc',
    predict_chunk template_format ask next_done self [] query_examples acc i h
    = (Ok acc', h) /\
    Forall (fun r => r = replicate (n_gens self) NaN) (all_preds acc') /\
    tot_tokens acc' = tot_tokens acc /\ tot_cost acc' = tot_cost acc.
Proof.
  intros Hacc. unfold predict_chunk, bind.
  set (chunk := take 5 (drop i query_examples)).
  change (_generate_concurrently template_format ask next_done [] chunk h)
    with (Ok (replicate (length chunk) (@nil (pyval * Q * Z))), h).
  cbv iota.
  match goal with
  | |- exists acc', mfold _ _ ?a h = _ /\ _ =>
      destruct (mfold_trace
                  (fun a' hh => hh = h /\
                     Forall (fun r => r = replicate (n_gens self) NaN) (all_preds a') /\
                     tot_tokens a' = tot_tokens acc /\ tot_cost a' = tot_cost acc)
                  (predict_sample self) (replicate (length chunk) []))
        with (acc := a) (h := h) as (acc' & h' & E & -> & Hrows & Htok & Hcost)
  end.
  - intros row a hh Hrow (-> & Hrows & Htok & Hcost).
    apply elem_of_replicate in Hrow as (-> & _).
    eexists _, h. split; [reflexivity|]. split; [reflexivity|]. simpl.
    split; [|split; assumption].
    apply Forall_app. split; [exact Hrows | constructor; [reflexivity | constructor]].
  - split; [reflexivity|]. split; [exact Hacc | split; reflexivity].
  - exists acc'. rewrite E. auto.
Qed.

(** X12. Without any template, [_predict] sends nothing: for a candidate
    list that is not empty it returns NaN for every candidate, a cost and
    a token total of 0, and still a success rate of 1; the history is left
    as it was. *)
Theorem _predict_without_template (query_examples : list example) (h : history) :
  query_examples <> [] ->
  exists sr,
    _predict template_format ask next_done self [] query_examples h
    = (Ok (replicate (length query_examples) NaN, sr, 0%Q, 0%Z), h) /\
    (sr == 1)%Q.
Proof.
  intros Hne.
  destruct (mfold_trace
              (fun a hh => hh = h /\
                 Forall (fun r => r = replicate (n_gens self) NaN) (all_preds a) /\
                 tot_tokens a = 0%Z /\ tot_cost a = 0%Q)
              (predict_chunk template_format ask next_done self [] query_examples)
              (chunk_starts (length query_examples)))
    with (acc := {| all_preds := []; tot_tokens := 0%Z; tot_cost := 0%Q;
                    bool_pred_returned := [] |}) (h := h)
    as (acc & h1 & Eloop & -> & Hrows & Htok & Hcost).
  - intros i a hh _ (-> & Hrows & Htok & Hcost).
    destruct (predict_chunk_without_template query_examples a i h Hrows)
      as (a' & E & Hrows' & Htok' & Hcost').
    exists a', h. split; [exact E|]. split; [reflexivity|]. split; [exact Hrows'|].
    split; congruence.
  - split; [reflexivity|]. split; [constructor | split; reflexivity].
  - destruct (predict_loop_returned template_format ask next_done self []
                query_examples h acc h Eloop) as (HF & Hbool).
    assert (Hall : all_preds acc
                   = replicate (length query_examples) (replicate (n_gens self) NaN)).
    { apply list_eq_same_length with (length query_examples).
      - rewrite length_replicate. reflexivity.
      - symmetry. apply (Forall2_length _ _ _ HF).
      - intros i x y _ Hx Hy. apply lookup_replicate in Hy as (-> & _).
        rewrite Forall_forall in Hrows. apply Hrows.
        apply list_elem_of_lookup. eauto. }
    exists (inject_Z (Z.of_nat (length query_examples))
            / inject_Z (Z.of_nat (length query_examples)))%Q.
    split.
    + unfold _predict, bind. rewrite Eloop. unfold lift.
      rewrite Hbool, sum_of_ones, length_replicate. unfold py_truediv.
      destruct (Z.eqb_spec (Z.of_nat (length query_examples)) 0) as [H0 | _].
      { destruct query_examples; [congruence | discriminate]. }
      rewrite Hall.
      rewrite (np_array_rectangular _ (n_gens self))
        by (apply Forall_forall; intros r Hr;
            apply elem_of_replicate in Hr as (-> & _); apply length_replicate).
      unfold np_nanmean_axis1.
      destruct (replicate (length query_examples) (replicate (n_gens self) NaN))
        as [|r rows] eqn:Er.
      { destruct query_examples; [congruence | discriminate]. }
      rewrite <- Er. unfold ret. rewrite Htok, Hcost. f_equal. f_equal. f_equal. f_equal.
      change (map np_nanmean ?l) with (np_nanmean <$> l). rewrite fmap_replicate.
      rewrite np_nanmean_all_nan. reflexivity.
    + apply Qmult_inv_r. intros H. destruct query_examples; [congruence|].
      unfold Qeq in H. simpl in H. lia.
Qed.

End WithoutTemplates.

Import Scenario.

Lemma _generate_concurrently_sends_each_pair_once_witness :
  let query_examples :=
    map (fun s => {| Q_text := s; A_text := None |}) ["x: 0.5000"; "x: 1.5000"] in
  let templates := ["Classify "; "Rate "] in
  let run := _generate_concurrently format_text (scripted_ask three_replies) last_first
               templates query_examples [] in
  run = (Ok [[(VStr "## 0.5 ##", 0%Q, 1000%Z); (VNone, 0%Q, 1000%Z)];
             [(VStr "I cannot tell", 0%Q, 1000%Z); (VNone, 0%Q, 1000%Z)]], run.2) /\
  Forall2 (fun q row =>
             Forall2 (answers format_text (scripted_ask three_replies) q) templates row)
          query_examples
          [[(VStr "## 0.5 ##", 0%Q, 1000%Z); (VNone, 0%Q, 1000%Z)];
           [(VStr "I cannot tell", 0%Q, 1000%Z); (VNone, 0%Q, 1000%Z)]] /\
  asked run.2 ≡ₚ ([] ++ all_messages format_text templates query_examples)%list.
Proof.
  intros query_examples templates run.
  assert (Hrun :
    run = (Ok [[(VStr "## 0.5 ##", 0%Q, 1000%Z); (VNone, 0%Q, 1000%Z)];
               [(VStr "I cannot tell", 0%Q, 1000%Z); (VNone, 0%Q, 1000%Z)]], run.2))
    by (vm_compute; reflexivity).
  split; [exact Hrun|].
  exact (_generate_concurrently_sends_each_pair_once format_text (scripted_ask three_replies)
           last_first templates query_examples [] _ _ Hrun).
Defined.

Lemma _predict_sends_each_pair_once_witness :
  let query_examples :=
    map (fun s => {| Q_text := s; A_text := None |}) ["x: 0.5000"; "x: 1.5000"] in
  let templates := ["Classify "; "Rate "] in
  let ask := scripted_ask three_replies in
  let run := _predict format_text ask last_first (surrogate 2) templates query_examples [] in
  run = (Ok ([Fin (5 # 10); NaN], 2 # 2, 0%Q, 4000%Z), run.2) /\
  asked run.2 ≡ₚ ([] ++ all_messages format_text templates query_examples)%list /\
  4000%Z = (1000 * Z.of_nat (length templates) * Z.of_nat (length query_examples))%Z.
Proof.
  assert (Hrun :
    _predict format_text (scripted_ask three_replies) last_first (surrogate 2)
      ["Classify "; "Rate "]
      (map (fun s => {| Q_text := s; A_text := None |}) ["x: 0.5000"; "x: 1.5000"]) []
    = (Ok ([Fin (5 # 10); NaN], 2 # 2, 0%Q, 4000%Z),
       (_predict format_text (scripted_ask three_replies) last_first (surrogate 2)
          ["Classify "; "Rate "]
          (map (fun s => {| Q_text := s; A_text := None |}) ["x: 0.5000"; "x: 1.5000"]) []).2))
    by (vm_compute; reflexivity).
  split; [exact Hrun|].
  exact (_predict_sends_each_pair_once format_text (scripted_ask three_replies) last_first
           (surrogate 2) ["Classify "; "Rate "] _ [] _ _ _ _ _ Hrun).
Defined.

Lemma _predict_always_reports_full_success_witness :
  let query_examples :=
    map (fun s => {| Q_text := s; A_text := None |}) ["x: 0.5000"; "x: 1.5000"] in
  let run := _predict format_text (scripted_ask three_replies) last_first (surrogate 2)
               ["Classify "; "Rate "] query_examples [] in
  run = (Ok ([Fin (5 # 10); NaN], 2 # 2, 0%Q, 4000%Z), run.2) /\ (2 # 2 == 1)%Q.
Proof.
  assert (Hrun :
    _predict format_text (scripted_ask three_replies) last_first (surrogate 2)
      ["Classify "; "Rate "]
      (map (fun s => {| Q_text := s; A_text := None |}) ["x: 0.5000"; "x: 1.5000"]) []
    = (Ok ([Fin (5 # 10); NaN], 2 # 2, 0%Q, 4000%Z),
       (_predict format_text (scripted_ask three_replies) last_first (surrogate 2)
          ["Classify "; "Rate "]
          (map (fun s => {| Q_text := s; A_text := None |}) ["x: 0.5000"; "x: 1.5000"]) []).2))
    by (vm_compute; reflexivity).
  split; [exact Hrun|].
  exact (_predict_always_reports_full_success format_text (scripted_ask three_replies)
           last_first (surrogate 2) ["Classify "; "Rate "] _ [] _ _ _ _ _ Hrun).
Defined.

Lemma _predict_without_template_witness :
  let query_examples :=
    map (fun s => {| Q_text := s; A_text := None |})
        ["x: 0.5"; "x: 1.5"; "x: 2.5"; "x: 3.5"; "x: 4.5"; "x: 5.5"; "x: 6.5"] in
  query_examples <> [] /\
  exists sr,
    _predict format_text (scripted_ask three_replies) last_first (surrogate 0)
      [] query_examples []
    = (Ok (replicate 7 NaN, sr, 0%Q, 0%Z), []) /\ (sr == 1)%Q.
Proof.
  split; [discriminate|].
  apply (_predict_without_template format_text (scripted_ask three_replies) last_first
           (surrogate 0)
           (map (fun s => {| Q_text := s; A_text := None |})
                ["x: 0.5"; "x: 1.5"; "x: 2.5"; "x: 3.5"; "x: 4.5"; "x: 5.5"; "x: 6.5"]) []).
  discriminate.
Defined.

End EngineProperties.

(** ** Warping and selection *)

Module SelectionProperties.
Import Py GenerativeSMUtils GenerativeSM Statements Observations.
Import MonadFacts SelectionFacts WarpFacts.

(** A vector is free of NaN or has a first NaN. *)
Lemma first_nan (a : list pyfloat) :
  (exists qs, a = map Fin qs) \/
  (exists k, a !! k = Some NaN /\ forall j, (j < k)%nat -> a !! j <> Some NaN).
Proof.
  induction a as [|[|q] a IH].
  - left. exists []. reflexivity.
  - right. exists 0%nat. split; [reflexivity | intros j Hj; lia].
  - destruct IH as [(qs & ->) | (k & Hk & Hfirst)].
    + left. exists (q :: qs). reflexivity.
    + right. exists (S k). split; [exact Hk|].
      intros [|j] Hj; [discriminate | apply Hfirst; lia].
Qed.

Lemma np_argmax_first_best (pred_probs : list pyfloat) (i : nat) :
  np_argmax pred_probs = Ok i -> first_best pred_probs i.
Proof.
  intros E. unfold first_best.
  destruct (first_nan pred_probs) as [(qs & ->) | (k & Hk & Hfirst)].
  - assert (Hne : qs <> []) by (intros ->; discriminate).
    destruct (np_argmax_finite qs Hne) as (k & mx & Ek & Hk & Hmax).
    assert (i = k) as -> by congruence.
    rewrite list_lookup_fmap, Hk. cbn [fmap option_fmap option_map].
    intros j y Hy. rewrite list_lookup_fmap in Hy.
    destruct (qs !! j) as [v|] eqn:Hv; [|discriminate]. injection Hy as <-.
    exists v. split; [reflexivity|]. apply (Hmax j v Hv).
  - rewrite (np_argmax_first_nan pred_probs k Hk Hfirst) in E. injection E as <-.
    rewrite Hk. exact Hfirst.
Qed.

Section Warping.

Context {V : Type}.
Implicit Types (f : V -> result V) (cs : list (string * constraint)) (config : row V).

Lemma transform_config_without_log f cs config :
  (forall name c, (name, c) ∈ cs -> dist_type c <> "log") ->
  transform_config f cs config = Ok config.
Proof.
  induction cs as [|[name c] cs IH]; intros Hcs; [reflexivity|].
  rewrite transform_config_cons.
  destruct (String.eqb_spec (dist_type c) "log") as [Hc | _].
  - destruct (Hcs name c); [left | exact Hc].
  - apply IH. intros n' c' Hin. apply (Hcs n' c'). right. exact Hin.
Qed.

Lemma transform_config_missing f cs config (name : string) (c : constraint) :
  (name, c) ∈ cs -> dist_type c = "log" ->
  (exists e, dict_get name config = Raise e) ->
  exists e, transform_config f cs config = Raise e.
Proof.
  revert config. induction cs as [|[name' c'] cs IH]; intros config Hin Hc Hmiss.
  - apply elem_of_nil in Hin. destruct Hin.
  - rewrite transform_config_cons.
    apply elem_of_cons in Hin as [[= <- <-] | Hin].
    + rewrite Hc. cbn. destruct Hmiss as (e & ->). exists e. reflexivity.
    + destruct (String.eqb (dist_type c') "log"); [|apply (IH _ Hin Hc Hmiss)].
      destruct (dict_get name' config) as [x|e] eqn:Ex; [|exists e; reflexivity].
      cbn [rbind]. destruct (f x) as [y|e]; [|exists e; reflexivity]. cbn [rbind].
      apply (IH _ Hin Hc). destruct Hmiss as (e & He). exists e.
      rewrite dict_get_set_ne; [exact He|]. intros ->. congruence.
Qed.

Variable np_log10 : V -> result V.
Variable pow10 : V -> result V.
Variable self : LLMGenerativeSM.

(** X13. Whenever warping (or unwarping) returns, the table it returns
    has the rows of the given table, in the same order, each with the same
    columns in the same order: only the values of log-scaled fields
    change. *)
Theorem warp_keeps_rows_and_columns (table : list (row V)) :
  (forall warped, _warp_candidate_points np_log10 self table = Ok warped ->
     Forall2 (fun config config' =>
                map fst config' = map fst config /\
                same_linear_fields (hyperparameter_constraints self) config config')
             table warped) /\
  (forall unwarped, _unwarp_candidate_points pow10 self table = Ok unwarped ->
     Forall2 (fun config config' =>
                map fst config' = map fst config /\
                same_linear_fields (hyperparameter_constraints self) config config')
             table unwarped).
Proof.
  split; intros result E; apply rmap_Ok_Forall2 in E;
    (eapply Forall2_impl; [exact E|]); intros config config' T; split;
    first [apply (transform_config_keys _ _ _ _ T)
          | apply (transform_config_linear_fields _ _ _ _ T)].
Qed.

(** X14. When no hyperparameter of the constraint set is log-scaled,
    warping and unwarping return the table as it is, and neither
    [np.log10] nor the power is evaluated: they cannot fail. *)
Theorem warp_without_log_scale (table : list (row V)) :
  (forall name c, (name, c) ∈ hyperparameter_constraints self -> dist_type c <> "log") ->
  _warp_candidate_points np_log10 self table = Ok table /\
  _unwarp_candidate_points pow10 self table = Ok table.
Proof.
  intros Hcs. unfold _warp_candidate_points, _unwarp_candidate_points.
  split; induction table as [|config table IH]; try reflexivity;
    cbn [rmap]; rewrite (transform_config_without_log _ _ config Hcs), IH; reflexivity.
Qed.

(** X15. A log-scaled hyperparameter must be a column of the table: when
    a row has no field for it, warping and unwarping raise. *)
Theorem warp_needs_log_scaled_columns (table : list (row V)) (config : row V)
  (name : string) (c : constraint) :
  (name, c) ∈ hyperparameter_constraints self ->
  dist_type c = "log" ->
  config ∈ table ->
  dict_get name config = Raise (KeyError name) ->
  (exists e, _warp_candidate_points np_log10 self table = Raise e) /\
  (exists e, _unwarp_candidate_points pow10 self table = Raise e).
Proof.
  intros Hin Hc Hconfig Hmiss.
  split; apply (PrecisionProperties.rmap_raises _ _ config Hconfig);
    apply (transform_config_missing _ _ _ name c Hin Hc); eauto.
Qed.

End Warping.

Section Selecting.

Context {Template V : Type}.
Variable template_format : Template -> string -> string.
Variable ask : history -> list (string * string) -> pyval * Q.
Variable next_done : history -> nat -> nat.
Variable np_log10 : V -> result V.
Variable pow10 : V -> result V.
Variable gen_prompt_tempates :
  list (string * constraint) -> list (row V) -> list pyfloat -> list (row V) ->
  bool -> Q -> nat -> result (list Template * list example).
Variable self : LLMGenerativeSM.

(** X16. Whenever [select_query_point] returns, it returns exactly one
    row: with the probability vector that [_evaluate_candidate_points]
    returned for the warped tables, the row is the one at the position
    [np.argmax] selects in this vector - the first position of the
    largest probability when no probability is NaN, the position of the
    first NaN otherwise - of the unwarped warped candidates.  The cost is
    the one of the evaluation, and this probability vector is returned
    beside the row when asked for. *)
Theorem select_query_point_returns_argmax_row (observed_configs : list (row V))
  (observed_fvals : list pyfloat) (candidate_configs : list (row V))
  (return_raw_preds : bool) (h : history)
  (best_point : list (row V)) (raw : option (list pyfloat)) (cost : Q) (h' : history) :
  select_query_point template_format ask next_done np_log10 pow10 gen_prompt_tempates self
    observed_configs observed_fvals candidate_configs return_raw_preds h
  = (Ok (best_point, raw, cost), h') ->
  exists observed warped unwarped pred_probs i chosen,
    _warp_candidate_points np_log10 self observed_configs = Ok observed /\
    _warp_candidate_points np_log10 self candidate_configs = Ok warped /\
    _evaluate_candidate_points template_format ask next_done gen_prompt_tempates self
      observed observed_fvals warped h = (Ok (pred_probs, cost), h') /\
    _unwarp_candidate_points pow10 self warped = Ok unwarped /\
    np_argmax pred_probs = Ok i /\
    first_best pred_probs i /\
    unwarped !! i = Some chosen /\
    best_point = [chosen] /\
    raw = (if return_raw_preds then Some pred_probs else None).
Proof.
  unfold select_query_point, bind, lift. intros E.
  destruct (_warp_candidate_points np_log10 self observed_configs) as [obs|e]; [|discriminate].
  destruct (_warp_candidate_points np_log10 self candidate_configs) as [warped|e] eqn:Ew;
    [|discriminate].
  destruct (_evaluate_candidate_points _ _ _ _ _ _ _ _ h) as [[[pred_probs c]|e] h1] eqn:Ee;
    [|discriminate].
  destruct (np_argmax pred_probs) as [i|e] eqn:Ei; [|discriminate].
  destruct (_unwarp_candidate_points pow10 self warped) as [unwarped|e] eqn:Eu; [|discriminate].
  unfold iloc_row in E. destruct (unwarped !! i) as [chosen|] eqn:Hi; [|discriminate].
  unfold ret in E. injection E as <- <- <- <-.
  exists obs, warped, unwarped, pred_probs, i, chosen.
  split; [reflexivity|]. split; [reflexivity|]. split; [exact Ee|]. split; [exact Eu|].
  split; [exact Ei|]. split; [apply np_argmax_first_best; exact Ei|].
  auto.
Qed.

End Selecting.

Import Scenario.

Lemma warp_keeps_rows_and_columns_witness :
  let self :=
    init [("learning_rate", {| dtype := "float"; dist_type := "log";
                                bounds := [VFloat (Fin (1 # 1000)); VFloat (Fin 1)] |});
          ("layers", {| dtype := "int"; dist_type := "linear";
                        bounds := [VInt 1; VInt 8] |})]
         3 true (1 # 4) 1 None false in
  let table := [[("learning_rate", (1 / 100)%R); ("layers", 3%R)]] in
  let warped := [[("learning_rate", (ln (1 / 100) / ln 10)%R); ("layers", 3%R)]] in
  _warp_candidate_points real_log10 self table = Ok warped /\
  Forall2 (fun config config' =>
             map fst config' = map fst config /\
             same_linear_fields (hyperparameter_constraints self) config config')
          table warped.
Proof.
  intros self table warped.
  assert (E : _warp_candidate_points real_log10 self table = Ok warped) by reflexivity.
  split; [exact E|].
  exact (proj1 (warp_keeps_rows_and_columns real_log10 real_pow10 self table) warped E).
Defined.

Lemma warp_without_log_scale_witness :
  (forall name c, (name, c) ∈ hyperparameter_constraints (surrogate 1) ->
                  dist_type c <> "log") /\
  _warp_candidate_points no_log (surrogate 1) three_candidates = Ok three_candidates /\
  _unwarp_candidate_points no_log (surrogate 1) three_candidates = Ok three_candidates.
Proof.
  assert (H : forall name c, (name, c) ∈ hyperparameter_constraints (surrogate 1) ->
                             dist_type c <> "log").
  { intros name c Hin. apply list_elem_of_singleton in Hin as [= -> ->]. discriminate. }
  split; [exact H|].
  exact (warp_without_log_scale no_log no_log (surrogate 1) three_candidates H).
Defined.

Lemma warp_needs_log_scaled_columns_witness :
  let c := {| dtype := "float"; dist_type := "log";
              bounds := [VFloat (Fin (1 # 1000)); VFloat (Fin 1)] |} in
  let self := init [("learning_rate", c)] 3 true (1 # 4) 1 None false in
  let config := [("x", 3%R)] in
  ("learning_rate", c) ∈ hyperparameter_constraints self /\
  dist_type c = "log" /\
  config ∈ [config] /\
  dict_get "learning_rate" config = Raise (KeyError "learning_rate") /\
  (exists e, _warp_candidate_points real_log10 self [config] = Raise e) /\
  (exists e, _unwarp_candidate_points real_pow10 self [config] = Raise e).
Proof.
  intros c self config.
  assert (Hin : ("learning_rate", c) ∈ hyperparameter_constraints self) by left.
  assert (Hconfig : config ∈ [config]) by left.
  split; [exact Hin|]. split; [reflexivity|]. split; [exact Hconfig|].
  split; [reflexivity|].
  exact (warp_needs_log_scaled_columns real_log10 real_pow10 self [config] config
           "learning_rate" c Hin eq_refl Hconfig eq_refl).
Defined.

Lemma select_query_point_returns_argmax_row_witness :
  let prompts := Prompts.prompts_for PromptScenario.reversed (Some "accuracy") None in
  let ask := PromptScenario.answer_by_query PromptScenario.three_answers in
  let run := select_query_point PromptScenario.plain_format ask last_first
               no_log no_log prompts (surrogate 1)
               PromptScenario.two_observed PromptScenario.two_fvals three_candidates
               false [] in
  run = (Ok ([[("x", VFloat (Fin (3 # 2)))]], None, 0%Q), run.2) /\
  exists observed warped unwarped pred_probs i chosen,
    _warp_candidate_points no_log (surrogate 1) PromptScenario.two_observed = Ok observed /\
    _warp_candidate_points no_log (surrogate 1) three_candidates = Ok warped /\
    _evaluate_candidate_points PromptScenario.plain_format ask last_first prompts
      (surrogate 1) observed PromptScenario.two_fvals warped [] = (Ok (pred_probs, 0%Q), run.2) /\
    _unwarp_candidate_points no_log (surrogate 1) warped = Ok unwarped /\
    np_argmax pred_probs = Ok i /\
    first_best pred_probs i /\
    unwarped !! i = Some chosen /\
    [[("x", VFloat (Fin (3 # 2)))]] = [chosen] /\
    None = (if false then Some pred_probs else None).
Proof.
  intros prompts ask run.
  assert (Hrun : run = (Ok ([[("x", VFloat (Fin (3 # 2)))]], None, 0%Q), run.2))
    by (vm_compute; reflexivity).
  split; [exact Hrun|].
  exact (select_query_point_returns_argmax_row PromptScenario.plain_format ask
           last_first no_log no_log prompts (surrogate 1)
           PromptScenario.two_observed PromptScenario.two_fvals three_candidates
           false [] _ _ _ _ Hrun).
Defined.

End SelectionProperties.

(** ** The sampler: pool, constraints and reports *)

Module SamplerProperties.
Import Py GenerativeSMUtils SamplerBase Statements Reports SamplerFacts.

Lemma dict_set_fresh {A : Type} (d : list (string * A)) (k : string) (v : A) :
  k ∉ map fst d -> dict_set k v d = (d ++ [(k, v)])%list.
Proof.
  induction d as [|[k' v'] d IH]; [reflexivity|]. simpl. intros Hk.
  apply not_elem_of_cons in Hk as (Hne & Hk).
  destruct (String.eqb_spec k k'); [congruence|]. rewrite (IH Hk). reflexivity.
Qed.

Section WithCollaborators.

Context {Rng L Frame : Type}.
Variable sample_independent : Rng -> string -> distribution -> pyval * Rng.
Variable LLAMBO : TaskContext -> string -> Z -> Z -> Z -> Q -> Z -> Z -> option Q ->
                  string -> string -> L.
Variable observed_configs : L -> Frame.
Variable observed_fvals : L -> Frame.
Variable _initialize : L -> list params -> Frame -> Frame -> L.
Variable sample_configurations : L -> params * L.
Variable update_history : L -> params -> pyfloat -> L.

Local Abbreviation Sampler := (@Sampler Rng L).
Local Abbreviation sample_relative :=
  (sample_relative sample_independent LLAMBO observed_configs observed_fvals
                   _initialize sample_configurations).
Local Abbreviation run_trials :=
  (run_trials sample_independent LLAMBO observed_configs observed_fvals
              _initialize sample_configurations update_history).

(** X17. Before trial 1 has been answered the sampler can answer no other
    trial: on a sampler that has neither pool nor surrogate, as [__init__]
    leaves it, [sample_relative] with a non-empty search space raises
    [AttributeError] for every trial whose number is not 1 - the first
    trial of a host that counts from 0 included - and for trial 1 as well
    when [n_initial_samples] is below 1.  Only [search_space] has been
    assigned by then. *)
Theorem sample_relative_before_trial_one (study : Study) (trial : FrozenTrial)
  (space : list (string * distribution)) (s : Sampler) :
  space <> [] ->
  init_configs s = None ->
  LLAMBO_instance s = None ->
  number trial <> 1%Z \/ (n_initial_samples (settings s) < 1)%Z ->
  exists name,
    sample_relative study trial space s
    = (Raise (AttributeError name), set_search_space space s).
Proof.
  intros Hne Hpool Hl Hcase. unfold SamplerBase.sample_relative.
  destruct space as [|nd space']; [congruence|].
  cbn [length Nat.eqb].
  rewrite sbind_run, update_run. cbn beta iota.
  rewrite sbind_run, get_run. cbn beta iota.
  cbn [settings set_search_space].
  destruct (Z.leb_spec (number trial) (n_initial_samples (settings s))).
  - destruct (Z.eqb_spec (number trial) 1); [lia|].
    rewrite sbind_run, sret_run. cbn beta iota.
    rewrite sbind_run. unfold read. cbn [init_configs set_search_space]. rewrite Hpool.
    exists "init_configs". reflexivity.
  - rewrite sbind_run.
    destruct (Z.eqb_spec (number trial) (n_initial_samples (settings s) + 1)).
    + rewrite sbind_run. unfold read at 1. cbn [LLAMBO_instance set_search_space]. rewrite Hl.
      exists "_initialize". reflexivity.
    + rewrite sret_run. cbn beta iota. unfold _sample_parameters.
      rewrite sbind_run. unfold read at 1. cbn [LLAMBO_instance set_search_space]. rewrite Hl.
      exists "sample_configurations". reflexivity.
Qed.

(** One random configuration: the parameters of the search space, in its
    order, each drawn once. *)
Lemma random_sample_shape (space : list (string * distribution)) (s : Sampler) :
  NoDup (map fst space) ->
  forallb (fun nd => supported nd.2) space = true ->
  exists ps s',
    random_sample sample_independent space s = (Ok ps, s') /\
    map fst ps = map fst space /\
    same_attributes s s' /\
    calls s' = (calls s ++ map (fun nd => RandomSampleIndependent nd.1) space)%list.
Proof.
  intros Hnd Hsup. unfold random_sample.
  destruct (sfold_invariant
              (fun i (ps : params) s' =>
                 map fst ps = map fst (take i space) /\ same_attributes s s' /\
                 calls s' = (calls s ++ map (fun nd => RandomSampleIndependent nd.1)
                                            (take i space))%list)
              (fun (ps : params) '(param_name, d) =>
                 sbind (get _random_sampler) (fun rng =>
                 sbind (update (log_call (RandomSampleIndependent param_name))) (fun _ =>
                 match random_sampler_sample_independent sample_independent rng
                         param_name d with
                 | Ok (v, rng') =>
                     sbind (update (set_random_sampler rng')) (fun _ =>
                     sret (dict_set param_name v ps))
                 | Raise e => sraise e
                 end)))
              space) with (acc := @nil (string * pyval)) (s := s)
    as (ps & s' & E & Hkeys & Hattr & Hcalls).
  - intros i [name d] acc s1 Hi (Hkeys & Hattr & Hcalls).
    assert (Hdraw : random_sampler_sample_independent sample_independent
                      (_random_sampler s1) name d
                    = Ok (sample_independent (_random_sampler s1) name d)).
    { rewrite forallb_forall in Hsup.
      specialize (Hsup (name, d) (proj1 (list_elem_of_In _ _) (list_elem_of_lookup_2 _ _ _ Hi))).
      destruct d; try discriminate; reflexivity. }
    unfold sbind, get, update, sret. cbn beta iota. cbn [_random_sampler log_call].
    rewrite Hdraw.
    destruct (sample_independent (_random_sampler s1) name d) as [v rng'] eqn:Ev.
    eexists _, _. split; [reflexivity|].
    rewrite (take_S_r _ _ _ Hi). rewrite !map_app. cbn [map fst].
    split; [|split].
    + rewrite dict_set_fresh; [rewrite map_app, Hkeys; reflexivity|].
      rewrite Hkeys. intros Hin.
      apply list_elem_of_lookup in Hin as (j & Hj).
      change (map fst (take i space)) with (fst <$> take i space) in Hj.
      rewrite list_lookup_fmap in Hj.
      destruct (take i space !! j) as [[name' d']|] eqn:Hj'; [|discriminate].
      injection Hj as ->.
      pose proof (lookup_lt_Some _ _ _ Hj') as Hlt. rewrite length_take in Hlt.
      rewrite lookup_take_lt in Hj' by lia.
      apply (NoDup_lookup _ i j name) in Hnd; [lia | |].
      * change (map fst space) with (fst <$> space). rewrite list_lookup_fmap, Hi. reflexivity.
      * change (map fst space) with (fst <$> space). rewrite list_lookup_fmap, Hj'. reflexivity.
    + unfold same_attributes in *. cbn. exact Hattr.
    + cbn. rewrite Hcalls, <- app_assoc. reflexivity.
  - rewrite take_0. split; [reflexivity|]. split; [repeat split|]. rewrite app_nil_r. reflexivity.
  - rewrite take_ge in Hkeys, Hcalls by lia. exists ps, s'. auto.
Qed.

(** A search space with a distribution the random sampler does not know:
    the draw of the first such parameter fails its assertion and ends the
    sample; the attributes of the sampler are as before. *)
Lemma random_sample_unsupported (space : list (string * distribution)) (name ty : string)
  (s : Sampler) :
  (name, OtherDistribution ty) ∈ space ->
  exists msg s',
    random_sample sample_independent space s = (Raise (AssertionError msg), s') /\
    same_attributes s s'.
Proof.
  intros Hin. unfold random_sample. generalize (@nil (string * pyval)) as ps. revert s.
  induction space as [|[n d] space IH]; intros s ps.
  - apply elem_of_nil in Hin. destruct Hin.
  - rewrite sfold_cons. cbn beta iota.
    assert (Hcase : (exists ty', d = OtherDistribution ty') \/
                    (supported d = true /\ (name, OtherDistribution ty) ∈ space)).
    { apply elem_of_cons in Hin as [[= <- <-] | Hin]; [left; eauto|].
      destruct d; try (right; split; [reflexivity | exact Hin]). left. eauto. }
    destruct Hcase as [(ty' & ->) | (Hd & Hin')].
    + eexists _, _. split; [reflexivity|]. repeat split.
    + assert (Hdraw : random_sampler_sample_independent sample_independent
                        (_random_sampler s) n d
                      = Ok (sample_independent (_random_sampler s) n d))
        by (destruct d; try discriminate; reflexivity).
      unfold sbind at 1, get at 1. unfold sbind at 1, update at 1.
      cbn [_random_sampler log_call]. rewrite Hdraw.
      destruct (sample_independent (_random_sampler s) n d) as [v rng'] eqn:Ev.
      unfold sbind at 1, update at 1. unfold sret at 1.
      destruct (IH Hin' (set_random_sampler rng' (log_call (RandomSampleIndependent n) s))
                  (dict_set n v ps)) as (msg & s' & E & Hattr).
      exists msg, s'. split; [exact E|].
      unfold same_attributes in *. cbn in Hattr. exact Hattr.
Qed.

Lemma generate_random_samples_unsupported (space : list (string * distribution))
  (name ty : string) (num_samples : Z) (s : Sampler) :
  (name, OtherDistribution ty) ∈ space ->
  (1 <= num_samples)%Z ->
  exists msg s',
    generate_random_samples sample_independent space num_samples s
    = (Raise (AssertionError msg), s') /\
    same_attributes s s'.
Proof.
  intros Hin Hn. unfold generate_random_samples.
  destruct (Z.to_nat num_samples) as [|k] eqn:Ek; [lia|].
  cbn [seq]. rewrite sfold_cons.
  destruct (random_sample_unsupported space name ty s Hin) as (msg & s' & E & Hattr).
  unfold sbind at 1. rewrite E. exists msg, s'. split; [reflexivity | exact Hattr].
Qed.

(** X18. On a search space of float, int and categorical distributions
    [generate_random_samples] returns [num_samples] configurations (none
    when [num_samples] is negative), each with exactly the parameters of
    the search space, in its order; it draws once per parameter and per
    configuration, in that order, and changes nothing else of the sampler
    than the random state. *)
Theorem generate_random_samples_shape (space : list (string * distribution))
  (num_samples : Z) (s : Sampler) :
  NoDup (map fst space) ->
  forallb (fun nd => supported nd.2) space = true ->
  exists pool s',
    generate_random_samples sample_independent space num_samples s = (Ok pool, s') /\
    length pool = Z.to_nat num_samples /\
    Forall (fun ps => map fst ps = map fst space) pool /\
    same_attributes s s' /\
    calls s'
    = (calls s ++ concat (replicate (Z.to_nat num_samples)
                            (map (fun nd => RandomSampleIndependent nd.1) space)))%list.
Proof.
  intros Hnd Hsup. unfold generate_random_samples.
  destruct (sfold_invariant
              (fun i (pool : list params) s' =>
                 length pool = i /\ Forall (fun ps => map fst ps = map fst space) pool /\
                 same_attributes s s' /\
                 calls s' = (calls s ++ concat (replicate i
                               (map (fun nd => RandomSampleIndependent nd.1) space)))%list)
              (fun samples (_ : nat) =>
                 sbind (random_sample sample_independent space)
                       (fun ps => sret (samples ++ [ps])%list))
              (seq 0 (Z.to_nat num_samples))) with (acc := @nil params) (s := s)
    as (pool & s' & E & Hlen & Hkeys & Hattr & Hcalls).
  - intros i x acc s1 _ (Hlen & Hkeys & Hattr & Hcalls).
    destruct (random_sample_shape space s1 Hnd Hsup) as (ps & s2 & E & Hps & Hattr2 & Hcalls2).
    unfold sbind, sret. rewrite E. eexists _, _. split; [reflexivity|].
    split; [rewrite length_app; simpl; lia|].
    split; [apply Forall_app; split; [exact Hkeys | constructor; [exact Hps | constructor]]|].
    split; [unfold same_attributes in *; intuition congruence|].
    rewrite Hcalls2, Hcalls, <- app_assoc. f_equal.
    replace (Datatypes.S i) with (i + 1)%nat by lia.
    rewrite replicate_add, concat_app. simpl. rewrite app_nil_r. reflexivity.
  - split; [reflexivity|]. split; [constructor|]. split; [repeat split|].
    simpl. rewrite app_nil_r. reflexivity.
  - rewrite length_seq in Hlen, Hcalls. exists pool, s'. auto.
Qed.

(** The loop of [_initialize_llambo] over a search space whose
    distributions are all known appends one constraint per parameter. *)
Lemma constraints_loop_appends (space : list (string * distribution)) :
  forall (s : Sampler) (cs0 : list (string * constraint)),
    forallb (fun nd => supported nd.2) space = true ->
    NoDup (map fst cs0 ++ map fst space) ->
    hyperparameter_constraints s = Some cs0 ->
    exists cs,
      Forall2 (fun nd nc => nc.1 = nd.1 /\ constraint_of nd.1 nd.2 = Ok nc.2) space cs /\
      sfold (fun (_ : unit) '(param_name, d) =>
               match constraint_of param_name d with
               | Ok c =>
                   sbind (read "hyperparameter_constraints" hyperparameter_constraints)
                     (fun cs => update (set_hyperparameter_constraints
                                          (dict_set param_name c cs)))
               | Raise e => sraise e
               end) space tt s
      = (Ok tt, set_hyperparameter_constraints (cs0 ++ cs) s).
Proof.
  induction space as [|[name d] space IH]; intros s cs0 Hsup Hnd Hcs.
  - exists []. split; [constructor|]. rewrite app_nil_r. simpl. unfold sret. f_equal.
    destruct s. simpl in Hcs. subst. reflexivity.
  - simpl in Hsup. apply andb_true_iff in Hsup as (Hd & Hsup).
    assert (Hc : exists c, constraint_of name d = Ok c).
    { destruct d; try discriminate; eexists; reflexivity. }
    destruct Hc as (c & Hc).
    assert (Hfresh : name ∉ map fst cs0).
    { intros Hin. apply NoDup_app in Hnd as (_ & Hdisj & _).
      apply (Hdisj name Hin). left. }
    destruct (IH (set_hyperparameter_constraints (dict_set name c cs0) s)
                (dict_set name c cs0) Hsup) as (cs & HF & E).
    { rewrite (dict_set_fresh cs0 name c Hfresh), map_app, <- app_assoc. exact Hnd. }
    { reflexivity. }
    exists ((name, c) :: cs). split; [constructor; [split; [reflexivity | exact Hc] | exact HF]|].
    rewrite sfold_cons. cbn beta iota. rewrite Hc.
    unfold sbind, read, update. rewrite Hcs.
    replace (cs0 ++ (name, c) :: cs)%list with (dict_set name c cs0 ++ cs)%list
      by (rewrite (dict_set_fresh cs0 name c Hfresh), <- app_assoc; reflexivity).
    exact E.
Qed.

Lemma constraint_of_log_scale (name : string) (d : distribution) (c : constraint) :
  constraint_of name d = Ok c -> String.eqb (dist_type c) "log" = log_flag d.
Proof.
  destruct d as [low high [|]|low high [|]|choices|ty]; simpl; intros [= <-]; reflexivity.
Qed.

Lemma log_scaled_of_space (space : list (string * distribution))
  (cs : list (string * constraint)) :
  NoDup (map fst space) ->
  Forall2 (fun nd nc => nc.1 = nd.1 /\ constraint_of nd.1 nd.2 = Ok nc.2) space cs ->
  forall name d, (name, d) ∈ space -> log_scaled cs name = log_flag d.
Proof.
  intros Hnd HF. induction HF as [|[n0 d0] [n1 c1] space cs (Hn & Hc) HF IH];
    intros name d Hin; [apply elem_of_nil in Hin; destruct Hin|].
  simpl in Hn, Hc. subst n1. cbn [map fst] in Hnd. apply NoDup_cons in Hnd as (Hfresh & Hnd).
  unfold log_scaled. cbn [existsb fst snd].
  apply elem_of_cons in Hin as [[= -> ->] | Hin].
  - rewrite String.eqb_refl. cbn [andb]. rewrite (constraint_of_log_scale _ _ _ Hc).
    destruct (log_flag d0); [reflexivity|]. cbn [orb].
    apply not_true_is_false. intros Hex. apply existsb_exists in Hex as ([n c] & Hin & Hnc).
    apply andb_true_iff in Hnc as (Hname & _). apply String.eqb_eq in Hname. simpl in Hname.
    subst n. apply Hfresh. apply list_elem_of_In in Hin.
    apply list_elem_of_lookup in Hin as (i & Hi).
    destruct (Forall2_lookup_r _ _ _ _ _ HF Hi) as ([n' d'] & Hi' & (Hn' & _)).
    simpl in Hn'. subst n'. apply list_elem_of_lookup. exists i.
    change (map fst space) with (fst <$> space). rewrite list_lookup_fmap, Hi'. reflexivity.
  - assert (Hne : String.eqb n0 name = false).
    { apply String.eqb_neq. intros ->. apply Hfresh.
      apply list_elem_of_In, in_map_iff. exists (name, d).
      split; [reflexivity | apply list_elem_of_In; exact Hin]. }
    rewrite Hne. cbn [andb orb]. apply (IH Hnd name d Hin).
Qed.

(** X19. For a search space whose distributions are float, int or
    categorical, [_initialize_llambo] builds one constraint per parameter,
    in the order of the search space - a parameter is log-scaled in the
    constraint set exactly when its distribution has [log=True] - and
    creates the surrogate from this constraint set, the direction stored
    before, and the settings; [top_pct] is 0.25 in generative mode and
    [None] otherwise. *)
Theorem _initialize_llambo_builds_constraints (space : list (string * distribution))
  (s : Sampler) (b : bool) :
  NoDup (map fst space) ->
  forallb (fun nd => supported nd.2) space = true ->
  lower_is_better s = Some b ->
  exists cs s',
    _initialize_llambo LLAMBO space s = (Ok tt, s') /\
    Forall2 (fun nd nc => nc.1 = nd.1 /\ constraint_of nd.1 nd.2 = Ok nc.2) space cs /\
    (forall name d, (name, d) ∈ space -> log_scaled cs name = log_flag d) /\
    hyperparameter_constraints s' = Some cs /\
    LLAMBO_instance s'
    = Some (LLAMBO {| tc_custom_task_description := custom_task_description (settings s);
                      tc_lower_is_better := b;
                      tc_hyperparameter_constraints := cs |}
                   (sm_mode (settings s)) (num_candidates (settings s))
                   (n_templates (settings s)) (n_gens (settings s)) (alpha (settings s))
                   (n_initial_samples (settings s)) (n_trials (settings s))
                   (if String.eqb (sm_mode (settings s)) "generative" then Some (1 # 4)
                    else None)
                   (api_key (settings s)) (model (settings s))).
Proof.
  intros Hnd Hsup Hb. unfold _initialize_llambo.
  unfold sbind at 1, update at 1.
  destruct (constraints_loop_appends space (set_hyperparameter_constraints [] s) [] Hsup Hnd
              eq_refl) as (cs & HF & E).
  unfold sbind at 1. rewrite E.
  unfold sbind, update, read, get. simpl. rewrite Hb. simpl.
  exists cs. eexists. split; [reflexivity|]. split; [exact HF|].
  split; [exact (log_scaled_of_space space cs Hnd HF)|]. split; reflexivity.
Qed.

(** The loop of [_initialize_llambo] raises at the first distribution it
    does not know; the surrogate is not touched. *)
Lemma constraints_loop_unsupported (space : list (string * distribution)) (name ty : string) :
  (name, OtherDistribution ty) ∈ space ->
  forall (s : Sampler) (cs0 : list (string * constraint)),
    hyperparameter_constraints s = Some cs0 ->
    exists msg s',
      sfold (fun (_ : unit) '(param_name, d) =>
               match constraint_of param_name d with
               | Ok c =>
                   sbind (read "hyperparameter_constraints" hyperparameter_constraints)
                     (fun cs => update (set_hyperparameter_constraints
                                          (dict_set param_name c cs)))
               | Raise e => sraise e
               end) space tt s
      = (Raise (ValueError msg), s') /\
      LLAMBO_instance s' = LLAMBO_instance s /\ init_configs s' = init_configs s /\
      calls s' = calls s.
Proof.
  intros Hin. induction space as [|[n d] space IH]; intros s cs0 Hcs.
  - apply elem_of_nil in Hin. destruct Hin.
  - rewrite sfold_cons. cbn beta iota.
    destruct (constraint_of n d) as [c|e] eqn:Ec.
    + apply elem_of_cons in Hin as [[= <- <-] | Hin]; [discriminate|].
      unfold sbind, read, update. rewrite Hcs.
      destruct (IH Hin (set_hyperparameter_constraints (dict_set n c cs0) s)
                  (dict_set n c cs0) eq_refl) as (msg & s' & E & Hl & Hp & Hc).
      exists msg, s'. split; [exact E|]. split; [exact Hl | split; [exact Hp | exact Hc]].
    + destruct d; try discriminate. injection Ec as <-.
      eexists _, s. unfold sraise. split; [reflexivity|]. repeat split.
Qed.

(** X20. A search space with a distribution that is neither float, int
    nor categorical cannot be used.  Called on it, [_initialize_llambo]
    raises [ValueError] and leaves the sampler without surrogate.  Through
    [sample_relative] this error is not reached: on trial 1 the first draw
    of such a parameter fails the assertion of the random sampler, before
    the pool is stored; the pool, the surrogate and the constraint
    dictionary are as they were. *)
Theorem unsupported_distribution_raises (study : Study) (trial : FrozenTrial)
  (space : list (string * distribution)) (name ty : string) (s : Sampler) :
  (name, OtherDistribution ty) ∈ space ->
  number trial = 1%Z ->
  (1 <= n_initial_samples (settings s))%Z ->
  (exists msg s', _initialize_llambo LLAMBO space s = (Raise (ValueError msg), s') /\
                  LLAMBO_instance s' = LLAMBO_instance s) /\
  (exists msg s',
     sample_relative study trial space s = (Raise (AssertionError msg), s') /\
     LLAMBO_instance s' = LLAMBO_instance s /\
     init_configs s' = init_configs s /\
     hyperparameter_constraints s' = hyperparameter_constraints s).
Proof.
  intros Hin Hnum HN. split.
  - unfold _initialize_llambo. unfold sbind at 1, update at 1.
    destruct (constraints_loop_unsupported space name ty Hin
                (set_hyperparameter_constraints [] s) [] eq_refl)
      as (msg & s' & E & Hl & _).
    unfold sbind at 1. rewrite E. exists msg, s'. split; [reflexivity | exact Hl].
  - unfold SamplerBase.sample_relative.
    destruct space as [|nd space']; [apply elem_of_nil in Hin; destruct Hin|].
    cbn [length Nat.eqb].
    rewrite sbind_run, update_run. cbn beta iota.
    rewrite sbind_run, get_run. cbn beta iota.
    cbn [settings set_search_space]. rewrite Hnum.
    destruct (Z.leb_spec 1 (n_initial_samples (settings s))); [|lia].
    cbn [Z.eqb Pos.eqb].
    rewrite sbind_run. rewrite sbind_run, update_run. cbn beta iota.
    set (s1 := set_lower_is_better _ (set_search_space (nd :: space') s)).
    destruct (generate_random_samples_unsupported (nd :: space') name ty
                (n_initial_samples (settings s)) s1 Hin HN)
      as (msg & s2 & E2 & (_ & _ & _ & _ & Hl & _ & Hp & Hc)).
    rewrite sbind_run, E2. exists msg, s2. split; [reflexivity|].
    split; [exact Hl | split; [exact Hp | exact Hc]].
Qed.

Local Abbreviation after_trial := (after_trial (Rng := Rng) update_history).

Lemma update_count_app (cs1 cs2 : list call) :
  update_count (cs1 ++ cs2) = (update_count cs1 + update_count cs2)%nat.
Proof. unfold update_count. rewrite List.filter_app, length_app. reflexivity. Qed.

Lemma update_count_draws (cs : list call) :
  forallb is_random_draw cs = true -> update_count cs = 0%nat.
Proof.
  unfold update_count. induction cs as [|c cs IH]; [reflexivity|]. simpl.
  intros H. apply andb_true_iff in H as (Hc & Hcs).
  destruct c; try discriminate. simpl. apply IH. exact Hcs.
Qed.

(** Trial 1 reports nothing to the surrogate. *)
Lemma first_trial_reports_nothing (study : Study) (space : list (string * distribution))
  (trial : FrozenTrial) (s : Sampler) :
  space <> [] ->
  forallb (fun nd => supported nd.2) space = true ->
  number trial = 1%Z ->
  (1 <= n_initial_samples (settings s))%Z ->
  exists pool p s' cs,
    sample_relative study trial space s = (Ok p, s') /\
    warmed_up (n_initial_samples (settings s)) pool s' /\
    calls s' = (calls s ++ cs)%list /\ update_count cs = 0%nat.
Proof.
  intros Hne Hsup Hnum HN. unfold SamplerBase.sample_relative.
  destruct space as [|nd space']; [congruence|].
  cbn [length Nat.eqb].
  rewrite sbind_run, update_run. cbn beta iota.
  rewrite sbind_run, get_run. cbn beta iota.
  cbn [settings set_search_space]. rewrite Hnum.
  destruct (Z.leb_spec 1 (n_initial_samples (settings s))); [|lia].
  cbn [Z.eqb Pos.eqb].
  rewrite sbind_run. rewrite sbind_run, update_run. cbn beta iota.
  set (s1 := set_lower_is_better _ (set_search_space (nd :: space') s)).
  destruct (generate_random_samples_draws sample_independent (nd :: space')
              (n_initial_samples (settings s)) s1 Hsup)
    as (pool & s2 & E2 & Hlen & (Hattr & cs2 & Hcalls2 & Hdraws)).
  rewrite sbind_run, E2. cbn beta iota.
  rewrite sbind_run, update_run. cbn beta iota.
  destruct Hattr as (Hset & _ & _ & _ & _ & Hlib & _ & _).
  destruct (_initialize_llambo_creates LLAMBO (nd :: space') (set_init_configs pool s2)
              match direction study with MINIMIZE => true | _ => false end Hsup)
    as (s3 & E3 & Hset3 & Hinit3 & Hl3 & Hcalls3).
  { simpl. rewrite Hlib. reflexivity. }
  rewrite E3. cbn beta iota.
  rewrite sbind_run, (read_run _ _ _ pool) by (rewrite Hinit3; reflexivity).
  cbn beta iota.
  rewrite py_index_nonneg by lia. change (Z.to_nat (1 - 1)) with 0%nat.
  destruct (lookup_lt_is_Some_2 pool 0%nat) as (p & Hp); [lia|]. rewrite Hp.
  exists pool, p, s3, (cs2 ++ [Printed "Hyperparameter constraints"; LLAMBOCreated])%list.
  split; [reflexivity|]. split; [|split].
  - unfold warmed_up. rewrite Hset3, Hinit3. cbn. rewrite Hset. cbn.
    split; [reflexivity|]. split; [reflexivity|]. split; [exact Hlen | exact Hl3].
  - rewrite Hcalls3. cbn. rewrite Hcalls2. cbn. rewrite <- app_assoc. reflexivity.
  - rewrite update_count_app, (update_count_draws cs2 Hdraws). reflexivity.
Qed.

(** Reporting an outcome: one call of [update_history] for a completed
    trial that has a value, none otherwise. *)
Lemma after_trial_reports (study : Study) (trial : FrozenTrial) (o : outcome)
  (s : Sampler) (N : Z) (pool : list params) :
  reportable o = true ->
  warmed_up N pool s ->
  exists s',
    after_trial study trial (o_state o) (o_values o) s = (Ok tt, s') /\
    warmed_up N pool s' /\
    calls s' = (calls s ++ if completed_with_value o then [LLAMBOUpdateHistory] else [])%list.
Proof.
  intros Hrep (HN & Hpool & Hlen & (l & Hl)).
  unfold SamplerBase.after_trial, completed_with_value, reportable in *. rewrite Hl.
  destruct (o_state o); try (exists s; rewrite app_nil_r; repeat split; eauto).
  destruct (o_values o) as [[|v vs]|]; try discriminate;
    try (exists s; rewrite app_nil_r; repeat split; eauto).
  eexists. split; [reflexivity|]. split; [|reflexivity].
  unfold warmed_up. cbn. repeat split; eauto.
Qed.

Lemma run_trials_reports (study : Study) (space : list (string * distribution))
  (N : Z) (pool : list params) :
  space <> [] ->
  forall (outcomes : list outcome) (first : Z) (s : Sampler),
    (2 <= first)%Z ->
    warmed_up N pool s ->
    forallb reportable outcomes = true ->
    exists answers s' cs,
      run_trials study space first outcomes s = (Ok answers, s') /\
      calls s' = (calls s ++ cs)%list /\
      update_count cs = completed_count outcomes.
Proof.
  intros Hne. induction outcomes as [|o outcomes IH]; intros first s Hfirst Hwarm Hrep.
  - exists [], s, []. rewrite app_nil_r. repeat split.
  - simpl in Hrep. apply andb_true_iff in Hrep as (Ho & Hrep).
    pose proof Hwarm as (HN & _).
    assert (Hstep : exists p s1 cs1,
               sample_relative study {| number := first; trial_params := [] |} space s
               = (Ok p, s1) /\ warmed_up N pool s1 /\
               calls s1 = (calls s ++ cs1)%list /\ update_count cs1 = 0%nat).
    { destruct (Z.le_gt_cases first N) as [Hle | Hgt].
      - destruct (sample_relative_warmup sample_independent LLAMBO observed_configs
                    observed_fvals _initialize sample_configurations study space
                    {| number := first; trial_params := [] |} s pool Hne)
          as (p & E & _); [rewrite HN; exact Hwarm | simpl; lia|].
        exists p, (set_search_space space s), [].
        split; [exact E|]. split; [apply set_search_space_keeps_warm; exact Hwarm|].
        rewrite app_nil_r. split; reflexivity.
      - destruct (sample_relative_guided sample_independent LLAMBO observed_configs
                    observed_fvals _initialize sample_configurations study space
                    {| number := first; trial_params := [] |} s pool Hne)
          as (l & s1 & E & Hwarm1 & Hcalls); [rewrite HN; exact Hwarm | simpl; lia|].
        rewrite HN in Hwarm1.
        eexists _, s1, _. split; [exact E|]. split; [exact Hwarm1|].
        split; [exact Hcalls|].
        destruct (_ =? _)%Z; reflexivity. }
    destruct Hstep as (p & s1 & cs1 & E1 & Hwarm1 & Hcalls1 & Hcount1).
    destruct (after_trial_reports study {| number := first; trial_params := p |} o s1 N pool
                Ho Hwarm1) as (s2 & E2 & Hwarm2 & Hcalls2).
    destruct (IH (first + 1)%Z s2 ltac:(lia) Hwarm2 Hrep)
      as (answers & s' & cs & E3 & Hcalls3 & Hcount3).
    cbn [SamplerBase.run_trials]. rewrite sbind_run. unfold SamplerBase.run_trial.
    rewrite sbind_run, get_run. cbn beta iota.
    rewrite sbind_run, E1. cbn beta iota.
    rewrite sbind_run, get_run. cbn beta iota.
    rewrite sbind_run, E2. cbn beta iota. rewrite sret_run.
    rewrite sbind_run, E3. cbn beta iota. rewrite sret_run.
    eexists _, s', _. split; [reflexivity|].
    split; [rewrite Hcalls3, Hcalls2, Hcalls1, <- !app_assoc; reflexivity|].
    rewrite !update_count_app, Hcount1, Hcount3.
    unfold completed_count. cbn [List.filter].
    destruct (completed_with_value o); reflexivity.
Qed.

(** X21. In a run whose trials are numbered from 1 (non-empty search
    space of known distributions, [n_initial_samples >= 1]), the surrogate
    is told the outcome of every completed trial that has a value, the
    warm-up trials included, and of no other: the calls of
    [update_history] made during the run are as many as these trials. *)
Theorem run_reports_completed_trials (study : Study)
  (space : list (string * distribution)) (outcomes : list outcome) (s : Sampler) :
  space <> [] ->
  forallb (fun nd => supported nd.2) space = true ->
  (1 <= n_initial_samples (settings s))%Z ->
  forallb reportable outcomes = true ->
  exists answers s' cs,
    run_trials study space 1 outcomes s = (Ok answers, s') /\
    calls s' = (calls s ++ cs)%list /\
    update_count cs = completed_count outcomes.
Proof.
  intros Hne Hsup HN Hrep.
  destruct outcomes as [|o outcomes].
  - exists [], s, []. rewrite app_nil_r. repeat split.
  - simpl in Hrep. apply andb_true_iff in Hrep as (Ho & Hrep).
    destruct (first_trial_reports_nothing study space {| number := 1; trial_params := [] |} s
                Hne Hsup eq_refl HN) as (pool & p & s1 & cs1 & E1 & Hwarm1 & Hcalls1 & Hcount1).
    destruct (after_trial_reports study {| number := 1; trial_params := p |} o s1 _ pool
                Ho Hwarm1) as (s2 & E2 & Hwarm2 & Hcalls2).
    destruct (run_trials_reports study space _ pool Hne outcomes 2%Z s2 ltac:(lia) Hwarm2 Hrep)
      as (answers & s' & cs & E3 & Hcalls3 & Hcount3).
    cbn [SamplerBase.run_trials]. rewrite sbind_run. unfold SamplerBase.run_trial.
    rewrite sbind_run, get_run. cbn beta iota.
    rewrite sbind_run, E1. cbn beta iota.
    rewrite sbind_run, get_run. cbn beta iota.
    rewrite sbind_run, E2. cbn beta iota. rewrite sret_run.
    change (1 + 1)%Z with 2%Z.
    rewrite sbind_run, E3. cbn beta iota. rewrite sret_run.
    eexists _, s', _. split; [reflexivity|].
    split; [rewrite Hcalls3, Hcalls2, Hcalls1, <- !app_assoc; reflexivity|].
    rewrite !update_count_app, Hcount1, Hcount3.
    unfold completed_count. cbn [List.filter].
    destruct (completed_with_value o); reflexivity.
Qed.

End WithCollaborators.

Import Scenario.

Lemma sample_relative_before_trial_one_witness :
  let s := fresh_sampler 5 (Some x_space) in
  let trial := {| number := 0; trial_params := [] |} in
  x_space <> [] /\ init_configs s = None /\ LLAMBO_instance s = None /\
  (number trial <> 1%Z \/ (n_initial_samples (settings s) < 1)%Z) /\
  exists name,
    sample_relative counting_draw recorder_new recorder_frame recorder_frame
      recorder_initialize recorder_sample {| direction := MINIMIZE |} trial x_space s
    = (Raise (AttributeError name), set_search_space x_space s).
Proof.
  split; [discriminate|]. split; [reflexivity|]. split; [reflexivity|].
  split; [left; discriminate|].
  apply (sample_relative_before_trial_one counting_draw recorder_new recorder_frame
           recorder_frame recorder_initialize recorder_sample {| direction := MINIMIZE |}
           {| number := 0; trial_params := [] |} x_space (fresh_sampler 5 (Some x_space)));
    [discriminate | reflexivity | reflexivity | left; discriminate].
Defined.

Lemma generate_random_samples_shape_witness :
  let space := [("x", FloatDistribution 0 10 false); ("layers", IntDistribution 1 8 false)] in
  let s := fresh_sampler 5 None in
  NoDup (map fst space) /\
  forallb (fun nd => supported nd.2) space = true /\
  (generate_random_samples counting_draw space 2 s).1
  = Ok [[("x", VFloat (Fin 0)); ("layers", VInt 2)];
        [("x", VFloat (Fin 5)); ("layers", VInt 4)]] /\
  exists pool s',
    generate_random_samples counting_draw space 2 s = (Ok pool, s') /\
    length pool = Z.to_nat 2 /\
    Forall (fun ps => map fst ps = map fst space) pool /\
    same_attributes s s' /\
    calls s'
    = (calls s ++ concat (replicate (Z.to_nat 2)
                            (map (fun nd => RandomSampleIndependent nd.1) space)))%list.
Proof.
  intros space s.
  assert (Hnd : NoDup (map fst space)) by (apply (bool_decide_unpack _); vm_compute; reflexivity).
  split; [exact Hnd|]. split; [reflexivity|]. split; [reflexivity|].
  exact (generate_random_samples_shape counting_draw space 2 s Hnd eq_refl).
Defined.

Lemma _initialize_llambo_builds_constraints_witness :
  let space := [("lr", FloatDistribution (1 # 1000) 1 true);
                ("layers", IntDistribution 1 8 false);
                ("width", CategoricalDistribution [VInt 64; VInt 128])] in
  let s := set_lower_is_better true (fresh_sampler 5 None) in
  NoDup (map fst space) /\
  forallb (fun nd => supported nd.2) space = true /\
  lower_is_better s = Some true /\
  exists cs s',
    _initialize_llambo recorder_new space s = (Ok tt, s') /\
    Forall2 (fun nd nc => nc.1 = nd.1 /\ constraint_of nd.1 nd.2 = Ok nc.2) space cs /\
    (forall name d, (name, d) ∈ space -> log_scaled cs name = log_flag d) /\
    hyperparameter_constraints s' = Some cs /\
    LLAMBO_instance s' = Some [].
Proof.
  intros space s.
  assert (Hnd : NoDup (map fst space)) by (apply (bool_decide_unpack _); vm_compute; reflexivity).
  split; [exact Hnd|]. split; [reflexivity|]. split; [reflexivity|].
  destruct (_initialize_llambo_builds_constraints recorder_new space s true Hnd eq_refl eq_refl)
    as (cs & s' & E & HF & Hlog & Hcs & Hl).
  exists cs, s'. auto.
Defined.

Lemma unsupported_distribution_raises_witness :
  let space := [("x", FloatDistribution 0 10 false);
                ("y", OtherDistribution "DiscreteUniformDistribution")] in
  let s := fresh_sampler 5 None in
  let trial := {| number := 1; trial_params := [] |} in
  ("y", OtherDistribution "DiscreteUniformDistribution") ∈ space /\
  number trial = 1%Z /\ (1 <= n_initial_samples (settings s))%Z /\
  (exists msg s', _initialize_llambo recorder_new space s = (Raise (ValueError msg), s') /\
                  LLAMBO_instance s' = None) /\
  (exists msg s',
     sample_relative counting_draw recorder_new recorder_frame recorder_frame
       recorder_initialize recorder_sample {| direction := MINIMIZE |} trial space s
     = (Raise (AssertionError msg), s') /\
     LLAMBO_instance s' = None /\
     init_configs s' = None /\
     hyperparameter_constraints s' = None).
Proof.
  intros space s trial.
  assert (Hin : ("y", OtherDistribution "DiscreteUniformDistribution") ∈ space)
    by (right; left).
  assert (HN : (1 <= n_initial_samples (settings s))%Z) by (simpl; lia).
  split; [exact Hin|]. split; [reflexivity|]. split; [exact HN|].
  exact (unsupported_distribution_raises counting_draw recorder_new recorder_frame
           recorder_frame recorder_initialize recorder_sample {| direction := MINIMIZE |}
           trial space "y" "DiscreteUniformDistribution" s Hin eq_refl HN).
Defined.

Lemma run_reports_completed_trials_witness :
  let study := {| direction := MINIMIZE |} in
  let outcomes := [completed 3; {| o_state := PRUNED; o_values := None |};
                   completed 2; {| o_state := FAIL; o_values := None |}; completed 5] in
  let s := fresh_sampler 2 None in
  x_space <> [] /\
  forallb (fun nd => supported nd.2) x_space = true /\
  (1 <= n_initial_samples (settings s))%Z /\
  forallb reportable outcomes = true /\
  completed_count outcomes = 3%nat /\
  exists answers s' cs,
    run_trials counting_draw recorder_new recorder_frame recorder_frame
               recorder_initialize recorder_sample recorder_update
               study x_space 1 outcomes s = (Ok answers, s') /\
    calls s' = (calls s ++ cs)%list /\
    update_count cs = completed_count outcomes.
Proof.
  split; [discriminate|]. split; [reflexivity|]. split; [simpl; lia|].
  split; [reflexivity|]. split; [reflexivity|].
  apply (run_reports_completed_trials counting_draw recorder_new recorder_frame
           recorder_frame recorder_initialize recorder_sample recorder_update
           {| direction := MINIMIZE |} x_space
           [completed 3; {| o_state := PRUNED; o_values := None |};
            completed 2; {| o_state := FAIL; o_values := None |}; completed 5]
           (fresh_sampler 2 None));
    [discriminate | reflexivity | simpl; lia | reflexivity].
Defined.

End SamplerProperties.

(** ** Shuffled examples and prompt templates *)

Module PromptProperties.
Import Py GenerativeSMUtils GenerativeSM Statements Observations Prompts.
Import MonadFacts LabelFacts LabelProperties SerializationFacts.

#[local] Instance Qle_trans_inst : Transitive Qle.
Proof. intros x y z. apply Qle_trans. Qed.

#[local] Instance Qle_total_inst : Total Qle.
Proof.
  intros x y. destruct (Qlt_le_dec x y) as [H | H]; [left; apply Qlt_le_weak|right]; exact H.
Qed.

(** *** Reading a list at given positions *)

Section TakenAt.

Context {A : Type}.
Implicit Types (l : list A) (p : list nat).

Lemma taken_at_cons l (i : nat) p (x : A) :
  l !! i = Some x -> taken_at l (i :: p) = x :: taken_at l p.
Proof. intros H. unfold taken_at. cbn. rewrite H. reflexivity. Qed.

Lemma taken_at_lookup l p (k i : nat) :
  Forall (fun j => (j < length l)%nat) p ->
  p !! k = Some i -> taken_at l p !! k = l !! i.
Proof.
  intros Hp. revert k. induction Hp as [|j p Hj _ IH]; intros k Hk; [discriminate|].
  destruct (lookup_lt_is_Some_2 l j Hj) as (x & Hx).
  rewrite (taken_at_cons l j p x Hx).
  destruct k as [|k]; simpl in *; [injection Hk as <-; symmetry; exact Hx | apply IH; exact Hk].
Qed.

Lemma taken_at_length l p :
  Forall (fun j => (j < length l)%nat) p -> length (taken_at l p) = length p.
Proof.
  induction 1 as [|j p Hj _ IH]; [reflexivity|].
  destruct (lookup_lt_is_Some_2 l j Hj) as (x & Hx).
  rewrite (taken_at_cons l j p x Hx). simpl. f_equal. exact IH.
Qed.

Lemma taken_at_all l : taken_at l (seq 0 (length l)) = l.
Proof.
  induction l as [|x l IH]; [reflexivity|].
  cbn [length seq]. rewrite (taken_at_cons (x :: l) 0 _ x eq_refl). f_equal.
  rewrite <- fmap_S_seq. unfold taken_at in *. rewrite <- IH at 2.
  apply list_omap_ext. apply Forall2_fmap_l. apply Forall_Forall2_diag.
  apply Forall_forall. intros i _. reflexivity.
Qed.

Lemma taken_at_Permutation l p : p ≡ₚ seq 0 (length l) -> taken_at l p ≡ₚ l.
Proof. intros Hp. unfold taken_at. rewrite Hp. fold (taken_at l (seq 0 (length l))).
       rewrite taken_at_all. reflexivity. Qed.

Lemma permutation_in_range l p :
  p ≡ₚ seq 0 (length l) -> Forall (fun j => (j < length l)%nat) p.
Proof.
  intros Hp. apply Forall_forall. intros j Hj. rewrite Hp in Hj.
  apply elem_of_seq in Hj. lia.
Qed.

Lemma rmap_loc l p :
  Forall (fun j => (j < length l)%nat) p ->
  rmap (fun i => match l !! i with
                 | Some x => Ok x
                 | None => Raise (KeyError (Z_to_string (Z.of_nat i)))
                 end) p
  = Ok (taken_at l p).
Proof.
  induction 1 as [|j p Hj _ IH]; [reflexivity|].
  destruct (lookup_lt_is_Some_2 l j Hj) as (x & Hx).
  cbn [rmap]. rewrite Hx, IH. cbn [rbind]. rewrite (taken_at_cons l j p x Hx). reflexivity.
Qed.

End TakenAt.

Lemma taken_at_map {A B : Type} (g : A -> B) (l : list A) (p : list nat) :
  taken_at (map g l) p = map g (taken_at l p).
Proof.
  unfold taken_at. change (map g (omap (fun i => l !! i) p))
    with (g <$> omap (fun i => l !! i) p).
  rewrite list_fmap_omap. apply list_omap_ext. apply Forall_Forall2_diag.
  apply Forall_forall. intros i _. change (map g l) with (g <$> l).
  apply list_lookup_fmap.
Qed.

Lemma rmap_of_Forall2 {A B : Type} (f : A -> result B) (l : list A) (ys : list B) :
  Forall2 (fun x y => f x = Ok y) l ys -> rmap f l = Ok ys.
Proof.
  induction 1 as [|x y l ys Hx _ IH]; [reflexivity|].
  cbn [rmap]. rewrite Hx, IH. reflexivity.
Qed.

(** *** Sorted data do not depend on the order of the rows *)

Lemma count_Permutation (f : Q -> bool) (s1 s2 : list Q) :
  s1 ≡ₚ s2 -> length (List.filter f s1) = length (List.filter f s2).
Proof.
  induction 1 as [|x s1 s2 _ IH|x y s|s1 s2 s3 _ IH1 _ IH2]; simpl.
  - reflexivity.
  - destruct (f x); simpl; congruence.
  - destruct (f x), (f y); reflexivity.
  - congruence.
Qed.

Lemma count_all (f : Q -> bool) (s : list Q) :
  Forall (fun x => f x = true) s -> length (List.filter f s) = length s.
Proof. induction 1 as [|x s Hx _ IH]; [reflexivity|]. simpl. rewrite Hx. simpl. congruence. Qed.

Lemma count_none (f : Q -> bool) (s : list Q) :
  Forall (fun x => f x = false) s -> length (List.filter f s) = 0%nat.
Proof. induction 1 as [|x s Hx _ IH]; [reflexivity|]. simpl. rewrite Hx. exact IH. Qed.

Lemma count_at_most (f : Q -> bool) (s : list Q) : (length (List.filter f s) <= length s)%nat.
Proof. induction s as [|x s IH]; [reflexivity|]. simpl. destruct (f x); simpl; lia. Qed.

Lemma nth_lookup_Q (s : list Q) (k : nat) (x : Q) : s !! k = Some x -> nth k s 0%Q = x.
Proof. revert k. induction s as [|y s IH]; intros [|k] H; simpl in *; try discriminate;
       [congruence | apply IH; exact H]. Qed.

(** In sorted data, the values up to position [k] are at most the value
    at position [k]. *)
Lemma sorted_count_low (s : list Q) (k : nat) :
  StronglySorted Qle s -> (k < length s)%nat ->
  (k < length (List.filter (fun x => Qle_bool x (nth k s 0%Q)) s))%nat.
Proof.
  intros Hs Hk. set (a := nth k s 0%Q).
  assert (Hlow : Forall (fun x => Qle_bool x a = true) (take (S k) s)).
  { apply Forall_forall. intros x Hx. apply list_elem_of_lookup in Hx as (j & Hj).
    pose proof (lookup_lt_Some _ _ _ Hj) as Hlt. rewrite length_take in Hlt.
    rewrite lookup_take_lt in Hj by lia. apply Qle_bool_iff.
    rewrite <- (nth_lookup_Q s j x Hj). apply (sorted_nth_le s Hs). lia. }
  clearbody a. rewrite <- (take_drop (S k) s).
  rewrite List.filter_app, length_app, (count_all _ _ Hlow), length_take. lia.
Qed.

(** In sorted data, the values from position [k] on are at least the
    value at position [k]. *)
Lemma sorted_count_high (s : list Q) (k : nat) (a : Q) :
  StronglySorted Qle s -> (k < length s)%nat -> (a < nth k s 0)%Q ->
  (length (List.filter (fun x => Qle_bool x a) s) <= k)%nat.
Proof.
  intros Hs Hk Ha.
  assert (Hhigh : Forall (fun x => Qle_bool x a = false) (drop k s)).
  { apply Forall_forall. intros x Hx. apply list_elem_of_lookup in Hx as (j & Hj).
    rewrite lookup_drop in Hj.
    pose proof (lookup_lt_Some _ _ _ Hj) as Hlt.
    apply not_true_is_false. intros Hle. apply Qle_bool_iff in Hle.
    rewrite <- (nth_lookup_Q s (k + j) x Hj) in Hle.
    assert (Hkj : (nth k s 0 <= nth (k + j) s 0)%Q) by (apply (sorted_nth_le s Hs); lia).
    lra. }
  clear Ha. rewrite <- (take_drop k s).
  rewrite List.filter_app, length_app, (count_none _ _ Hhigh).
  pose proof (count_at_most (fun x => Qle_bool x a) (take k s)) as H.
  rewrite length_take in H. lia.
Qed.

(** Two sorted arrangements of the same values agree position by
    position. *)
Lemma sorted_Permutation_nth (s1 s2 : list Q) (k : nat) :
  StronglySorted Qle s1 -> StronglySorted Qle s2 -> s1 ≡ₚ s2 ->
  (nth k s1 0 == nth k s2 0)%Q.
Proof.
  intros H1 H2 Hp. pose proof (Permutation_length Hp) as Hlen.
  destruct (Nat.lt_ge_cases k (length s1)) as [Hk | Hk].
  - assert (Hside : forall s s', StronglySorted Qle s -> StronglySorted Qle s' -> s ≡ₚ s' ->
                      (k < length s)%nat -> (nth k s' 0 <= nth k s 0)%Q).
    { intros s s' Hs Hs' Hperm Hks. apply Qnot_lt_le. intros Hlt.
      pose proof (sorted_count_low s k Hs Hks) as Hlow.
      pose proof (Permutation_length Hperm) as Hl.
      pose proof (sorted_count_high s' k (nth k s 0%Q) Hs' ltac:(lia) Hlt) as Hhigh.
      rewrite (count_Permutation _ s s' Hperm) in Hlow. lia. }
    apply Qle_antisym.
    + apply (Hside s2 s1 H2 H1); [symmetry; exact Hp | lia].
    + apply (Hside s1 s2 H1 H2 Hp Hk).
  - rewrite !nth_overflow by lia. reflexivity.
Qed.

Lemma quantile_sorted_Permutation (s1 s2 : list Q) (q : Z) :
  StronglySorted Qle s1 -> StronglySorted Qle s2 -> s1 ≡ₚ s2 ->
  (quantile_sorted s1 q == quantile_sorted s2 q)%Q.
Proof.
  intros H1 H2 Hp. unfold quantile_sorted. rewrite <- (Permutation_length Hp).
  destruct (Qle_bool _ _).
  - apply sorted_Permutation_nth; assumption.
  - unfold lerp.
    rewrite (sorted_Permutation_nth s1 s2 _ H1 H2 Hp).
    rewrite (sorted_Permutation_nth s1 s2 (S _) H1 H2 Hp). reflexivity.
Qed.

Lemma fin_values_Permutation (a b : list pyfloat) : a ≡ₚ b -> fin_values a ≡ₚ fin_values b.
Proof.
  induction 1 as [|x a b _ IH|x y a|a b c _ IH1 _ IH2]; simpl.
  - reflexivity.
  - destruct x; [exact IH | apply perm_skip; exact IH].
  - destruct x, y; try reflexivity. apply perm_swap.
  - etransitivity; eassumption.
Qed.

Lemma existsb_Permutation {A : Type} (f : A -> bool) (a b : list A) :
  a ≡ₚ b -> existsb f a = existsb f b.
Proof.
  induction 1 as [|x a b _ IH|x y a|a b c _ IH1 _ IH2]; simpl.
  - reflexivity.
  - rewrite IH. reflexivity.
  - destruct (f x), (f y); reflexivity.
  - congruence.
Qed.

Lemma float_lt_cutoff (x : pyfloat) (a b : Q) :
  (a == b)%Q ->
  float_lt x (Fin a) = float_lt x (Fin b) /\ float_lt (Fin a) x = float_lt (Fin b) x.
Proof.
  intros Hab. destruct x as [|v]; [split; reflexivity|]. simpl.
  assert (H1 : Qle_bool a v = Qle_bool b v).
  { apply eq_true_iff_eq. rewrite !Qle_bool_iff, Hab. reflexivity. }
  assert (H2 : Qle_bool v a = Qle_bool v b).
  { apply eq_true_iff_eq. rewrite !Qle_bool_iff, Hab. reflexivity. }
  rewrite H1, H2. split; reflexivity.
Qed.

(** Reading the fitness vector in another order moves the labels with
    the rows. *)
Lemma assign_labels_taken_at (lower_is_better : bool) (top_pct : Q)
  (observed_fvals : list pyfloat) (positions : list nat) (labels : list Z) :
  positions ≡ₚ seq 0 (length observed_fvals) ->
  assign_labels lower_is_better top_pct observed_fvals = Ok labels ->
  assign_labels lower_is_better top_pct (taken_at observed_fvals positions)
  = Ok (taken_at labels positions).
Proof.
  intros Hp E.
  pose proof (taken_at_Permutation observed_fvals positions Hp) as Hperm.
  set (shuffled := taken_at observed_fvals positions) in *.
  assert (Hcut : forall q p,
             np_percentile observed_fvals q = Ok p ->
             exists p', np_percentile shuffled q = Ok p' /\
                        forall x, float_lt x p' = float_lt x p /\ float_lt p' x = float_lt p x).
  { intros q p Eq. unfold np_percentile in *.
    destruct ((q <? 0)%Z || (100 <? q)%Z); [discriminate|].
    destruct observed_fvals as [|x0 rest] eqn:Efv; [discriminate|]. rewrite <- Efv in *.
    destruct shuffled as [|y0 rest'] eqn:Esh.
    { apply Permutation_nil_l in Hperm. rewrite Efv in Hperm. discriminate. }
    rewrite <- Esh in *.
    rewrite (existsb_Permutation isnan shuffled observed_fvals Hperm).
    destruct (existsb isnan observed_fvals).
    - injection Eq as <-. exists NaN. split; [reflexivity|]. intros x. split; reflexivity.
    - injection Eq as <-. eexists. split; [reflexivity|]. intros x.
      apply float_lt_cutoff. apply quantile_sorted_Permutation.
      + apply StronglySorted_merge_sort; apply _.
      + apply StronglySorted_merge_sort; apply _.
      + rewrite !merge_sort_Permutation. apply fin_values_Permutation. exact Hperm. }
  unfold assign_labels in *. destruct lower_is_better.
  - destruct (np_percentile observed_fvals _) as [p|e] eqn:Eq; [|discriminate].
    cbn [rbind] in E. injection E as <-.
    destruct (Hcut _ p Eq) as (p' & -> & Hsame). cbn [rbind]. f_equal.
    rewrite taken_at_map. apply map_ext. intros x. rewrite (proj1 (Hsame x)). reflexivity.
  - destruct (np_percentile observed_fvals _) as [p|e] eqn:Eq; [|discriminate].
    cbn [rbind] in E. injection E as <-.
    destruct (Hcut _ p Eq) as (p' & -> & Hsame). cbn [rbind]. f_equal.
    rewrite taken_at_map. apply map_ext. intros x. rewrite (proj2 (Hsame x)). reflexivity.
Qed.

(** X22. The labels do not depend on the order of the rows: when the
    fitness vector is read in the order of a permutation of its positions,
    each row gets the label it had. *)
Theorem labels_follow_their_rows (lower_is_better : bool) (top_pct : Q)
  (observed_fvals : list pyfloat) (positions : list nat) (labels : list Z) :
  positions ≡ₚ seq 0 (length observed_fvals) ->
  assign_labels lower_is_better top_pct observed_fvals = Ok labels ->
  assign_labels lower_is_better top_pct (taken_at observed_fvals positions)
  = Ok (taken_at labels positions).
Proof. apply assign_labels_taken_at. Qed.

Lemma labels_follow_their_rows_witness :
  let observed_fvals := [Fin 5; Fin 1; Fin 3; Fin 2] in
  let positions := [2; 0; 3; 1]%nat in
  positions ≡ₚ seq 0 (length observed_fvals) /\
  assign_labels true (1 # 2) observed_fvals = Ok [0; 1; 0; 1]%Z /\
  taken_at observed_fvals positions = [Fin 3; Fin 5; Fin 2; Fin 1] /\
  taken_at [0; 1; 0; 1]%Z positions = [0; 0; 1; 1]%Z /\
  assign_labels true (1 # 2) (taken_at observed_fvals positions)
  = Ok (taken_at [0; 1; 0; 1]%Z positions).
Proof.
  intros observed_fvals positions.
  assert (Hp : positions ≡ₚ seq 0 (length observed_fvals)).
  { apply (bool_decide_unpack _). vm_compute. reflexivity. }
  assert (E : assign_labels true (1 # 2) observed_fvals = Ok [0; 1; 0; 1]%Z)
    by (vm_compute; reflexivity).
  split; [exact Hp|]. split; [exact E|]. split; [reflexivity|]. split; [reflexivity|].
  exact (labels_follow_their_rows true (1 # 2) observed_fvals positions [0; 1; 0; 1]%Z Hp E).
Defined.

Lemma assign_labels_length (lower_is_better : bool) (top_pct : Q)
  (observed_fvals : list pyfloat) (labels : list Z) :
  assign_labels lower_is_better top_pct observed_fvals = Ok labels ->
  length labels = length observed_fvals /\ Forall (fun l => l = 0%Z \/ l = 1%Z) labels.
Proof.
  unfold assign_labels. intros E.
  destruct lower_is_better;
    (destruct (np_percentile observed_fvals _) as [p|e]; [|discriminate]);
    cbn [rbind] in E; injection E as <-;
    (split; [apply length_map|]);
    apply Forall_forall; intros l Hl; apply list_elem_of_In, in_map_iff in Hl as (x & <- & _);
    match goal with |- context [if ?b then _ else _] => destruct b end; auto.
Qed.

Section Shuffle.

Variable permutation : nat -> list nat -> list nat.
Variable cs : list (string * constraint).
Variable lower_is_better : bool.
Variable top_pct : Q.

Local Abbreviation prepare := (prepare_configurations permutation cs lower_is_better top_pct).

Local Abbreviation example_of := (fun (labels : option (list Z)) '(index, r) =>
  rbind (serialize_row cs r)
    (fun row_string : string =>
       match labels with
       | Some ls =>
           rbind
             match ls !! index with
             | Some x => Ok x
             | None => Raise (KeyError (Z_to_string (Z.of_nat index)))
             end
             (fun label : Z =>
                Ok {| Q_text := row_string;
                      A_text := Some ("## " ++ Z_to_string label ++ " ##") |})
       | None => Ok {| Q_text := row_string; A_text := None |}
       end)).

(** The examples of a table: its labels, then one example per row. *)
Lemma prepare_unshuffled (observed_configs : list (row pyval))
  (observed_fvals : option (list pyfloat)) :
  prepare observed_configs observed_fvals None
  = rbind match observed_fvals with
          | Some fvals =>
              rbind (assign_labels lower_is_better top_pct fvals) (fun l => Ok (Some l))
          | None => Ok None
          end
      (fun labels =>
         rmap (example_of labels)
              (iterrows (values_dtype observed_configs) observed_configs)).
Proof. reflexivity. Qed.

(** With a seed, the examples are those of the rows read in the order of
    the shuffled positions; the dtypes are those of the table. *)
Lemma prepare_shuffled (observed_configs : list (row pyval))
  (observed_fvals : option (list pyfloat)) (seed : nat) :
  let positions := permutation seed (seq 0 (length observed_configs)) in
  Forall (fun j => (j < length observed_configs)%nat) positions ->
  match observed_fvals with
  | Some fvals => length fvals = length observed_configs
  | None => True
  end ->
  prepare observed_configs observed_fvals (Some seed)
  = rbind match observed_fvals with
          | Some fvals =>
              rbind (assign_labels lower_is_better top_pct (taken_at fvals positions))
                    (fun l => Ok (Some l))
          | None => Ok None
          end
      (fun labels =>
         rmap (example_of labels)
              (iterrows (values_dtype observed_configs)
                        (taken_at observed_configs positions))).
Proof.
  intros positions Hrange Hlen. unfold prepare_configurations. fold positions.
  rewrite (rmap_loc observed_configs positions Hrange). cbn [rbind].
  destruct observed_fvals as [fvals|]; [|reflexivity].
  rewrite (rmap_loc fvals positions) by (rewrite Hlen; exact Hrange). reflexivity.
Qed.

Lemma examples_follow_their_rows (t : np_dtype) (labels labels' : option (list Z))
  (observed_configs : list (row pyval)) (positions : list nat) (ex : list example) :
  Forall (fun j => (j < length observed_configs)%nat) positions ->
  match labels, labels' with
  | Some ls, Some ls' =>
      forall k i l, positions !! k = Some i -> ls !! i = Some l -> ls' !! k = Some l
  | None, None => True
  | _, _ => False
  end ->
  rmap (example_of labels) (iterrows t observed_configs) = Ok ex ->
  rmap (example_of labels') (iterrows t (taken_at observed_configs positions))
  = Ok (taken_at ex positions).
Proof.
  intros Hrange Hlabels E.
  pose proof (rmap_length _ _ _ E) as Hlen.
  rewrite iterrows_length in Hlen.
  assert (Hlen' : length ex = length observed_configs) by lia. clear Hlen.
  apply rmap_Ok_Forall2 in E.
  apply rmap_of_Forall2. apply Forall2_same_length_lookup. split.
  - rewrite iterrows_length, !taken_at_length; [lia | | exact Hrange].
    rewrite Hlen'. exact Hrange.
  - intros k [k' r] e Hk He.
    apply iterrows_lookup_inv in Hk as (-> & b & Hb & ->).
    pose proof (lookup_lt_Some _ _ _ Hb) as Hkp.
    rewrite taken_at_length in Hkp by exact Hrange.
    destruct (lookup_lt_is_Some_2 positions k Hkp) as (i & Hi).
    rewrite (taken_at_lookup observed_configs positions k i Hrange Hi) in Hb.
    rewrite (taken_at_lookup ex positions k i) in He; [|rewrite Hlen'; exact Hrange|exact Hi].
    pose proof (iterrows_lookup t _ _ _ Hb) as Hzip.
    pose proof (Forall2_lookup_lr _ _ _ _ _ _ E Hzip He) as Hrow.
    cbn beta iota in Hrow |- *.
    destruct (serialize_row cs (series t b)) as [text|err]; [|discriminate].
    cbn [rbind] in Hrow |- *.
    destruct labels as [ls|], labels' as [ls'|]; try destruct Hlabels; [|exact Hrow].
    destruct (ls !! i) as [l|] eqn:Hl; [|discriminate].
    rewrite (Hlabels k i l Hi Hl). exact Hrow.
Qed.

(** X23. Shuffling only reorders the few-shot examples.  When the
    positions drawn for a seed are a permutation of the rows, the examples
    prepared with this seed are the examples of the unshuffled table, each
    with the text and the label it has there, read in the order of the
    drawn positions. *)
Theorem prepare_configurations_shuffle_reorders (observed_configs : list (row pyval))
  (observed_fvals : option (list pyfloat)) (seed : nat) (ex : list example) :
  let positions := permutation seed (seq 0 (length observed_configs)) in
  positions ≡ₚ seq 0 (length observed_configs) ->
  match observed_fvals with
  | Some fvals => length fvals = length observed_configs
  | None => True
  end ->
  prepare observed_configs observed_fvals None = Ok ex ->
  prepare observed_configs observed_fvals (Some seed) = Ok (taken_at ex positions) /\
  taken_at ex positions ≡ₚ ex.
Proof.
  intros positions Hp Hlen E.
  pose proof (permutation_in_range observed_configs positions Hp) as Hrange.
  rewrite prepare_unshuffled in E.
  assert (Hex : length ex = length observed_configs).
  { destruct (match observed_fvals with Some _ => _ | None => _ end) as [labels|e];
      [|discriminate]. cbn [rbind] in E. apply rmap_length in E.
    rewrite iterrows_length in E. lia. }
  split; [|apply taken_at_Permutation; rewrite Hex; exact Hp].
  rewrite (prepare_shuffled observed_configs observed_fvals seed Hrange Hlen).
  fold positions.
  destruct observed_fvals as [fvals|].
  - destruct (assign_labels lower_is_better top_pct fvals) as [ls|e] eqn:Els; [|discriminate].
    cbn [rbind] in E.
    rewrite (assign_labels_taken_at lower_is_better top_pct fvals positions ls)
      by (rewrite ?Hlen; assumption).
    cbn [rbind].
    apply (examples_follow_their_rows _ (Some ls) (Some (taken_at ls positions))
             observed_configs positions ex Hrange); [|exact E].
    intros k i l Hk Hl. rewrite <- Hl. apply taken_at_lookup; [|exact Hk].
    destruct (assign_labels_length _ _ _ _ Els) as (-> & _). rewrite Hlen. exact Hrange.
  - cbn [rbind] in E |- *.
    apply (examples_follow_their_rows _ None None observed_configs positions ex Hrange I E).
Qed.

(** The labelled examples of a table carry the labels 0 and 1. *)
Lemma examples_labelled (t : np_dtype) (frame : list (row pyval)) (ls : list Z)
  (ex : list example) :
  Forall (fun l => l = 0%Z \/ l = 1%Z) ls ->
  rmap (example_of (Some ls)) (iterrows t frame) = Ok ex ->
  Forall (fun e => exists label, (label = 0%Z \/ label = 1%Z) /\
                     A_text e = Some ("## " ++ Z_to_string label ++ " ##")) ex.
Proof.
  intros Hbits E. apply rmap_Ok_Forall2 in E.
  apply Forall_forall. intros e He. apply list_elem_of_lookup in He as (i & Hi).
  destruct (Forall2_lookup_r _ _ _ _ _ E Hi) as ([k r] & _ & Hrow).
  cbn beta iota in Hrow.
  destruct (serialize_row cs r) as [text|err]; [|discriminate]. cbn [rbind] in Hrow.
  destruct (ls !! k) as [l|] eqn:Hl; [|discriminate]. cbn [rbind] in Hrow.
  injection Hrow as <-. exists l. split; [|reflexivity].
  rewrite Forall_forall in Hbits. apply Hbits. apply list_elem_of_lookup. eauto.
Qed.

(** X24. The label of a few-shot example is written in the format the
    parser of the replies reads: every example prepared from a table with
    fitness values, shuffled or not, carries ["## 0 ##"] or ["## 1 ##"], and
    [process_response] reads this text back as the label, 0.0 or 1.0. *)
Theorem example_labels_are_read_back (observed_configs : list (row pyval))
  (fvals : list pyfloat) (seed : option nat) (ex : list example) :
  prepare observed_configs (Some fvals) seed = Ok ex ->
  Forall (fun e => exists label,
            (label = 0%Z \/ label = 1%Z) /\
            A_text e = Some ("## " ++ Z_to_string label ++ " ##") /\
            forall h, process_response [VStr ("## " ++ Z_to_string label ++ " ##")] h
                      = (Ok [Fin (inject_Z label)], h)) ex.
Proof.
  intros E.
  assert (Hlab : Forall (fun e => exists label, (label = 0%Z \/ label = 1%Z) /\
                           A_text e = Some ("## " ++ Z_to_string label ++ " ##")) ex).
  { unfold prepare_configurations in E. destruct seed as [seed|].
    - destruct (rmap _ (permutation seed _)) as [configs'|e]; [|discriminate].
      cbn [rbind] in E.
      destruct (rmap _ (permutation seed _)) as [fvals'|e]; [|discriminate].
      cbn [rbind] in E.
      destruct (assign_labels lower_is_better top_pct fvals') as [ls|e] eqn:Els;
        [|discriminate].
      cbn [rbind] in E.
      apply (examples_labelled _ configs' ls ex (proj2 (assign_labels_length _ _ _ _ Els)) E).
    - cbn [rbind] in E.
      destruct (assign_labels lower_is_better top_pct fvals) as [ls|e] eqn:Els;
        [|discriminate].
      cbn [rbind] in E.
      apply (examples_labelled _ observed_configs ls ex
               (proj2 (assign_labels_length _ _ _ _ Els)) E). }
  eapply Forall_impl; [exact Hlab|]. intros e (label & Hbit & Ha).
  exists label. split; [exact Hbit|]. split; [exact Ha|].
  intros h. destruct Hbit as [-> | ->]; reflexivity.
Qed.

End Shuffle.

(** The queries: one per candidate, in candidate order, without label. *)
Lemma query_examples_follow_candidates (permutation : nat -> list nat -> list nat)
  (cs : list (string * constraint)) (lower_is_better : bool) (top_pct : Q)
  (candidate_configs : list (row pyval)) (query_examples : list example) :
  prepare_configurations permutation cs lower_is_better top_pct candidate_configs None None
  = Ok query_examples ->
  Forall2 (fun r q =>
             serialize_row cs (series (values_dtype candidate_configs) r) = Ok (Q_text q) /\
             A_text q = None)
          candidate_configs query_examples.
Proof.
  rewrite prepare_unshuffled. cbn [rbind]. intros E.
  pose proof (rmap_length _ _ _ E) as Hlen. rewrite iterrows_length in Hlen.
  apply rmap_Ok_Forall2 in E.
  apply Forall2_same_length_lookup. split; [lia|].
  intros i r q Hr Hq.
  pose proof (iterrows_lookup (values_dtype candidate_configs) _ _ _ Hr) as Hzip.
  pose proof (Forall2_lookup_lr _ _ _ _ _ _ E Hzip Hq) as Hrow. cbn beta iota in Hrow.
  destruct (serialize_row cs (series _ r)) as [text|err]; [|discriminate].
  cbn [rbind] in Hrow. injection Hrow as <-. split; reflexivity.
Qed.

Lemma gen_prompt_tempates_returned (permutation : nat -> list nat -> list nat)
  (tc : task_context) (observed_configs : list (row pyval))
  (observed_fvals : option (list pyfloat)) (candidate_configs : list (row pyval))
  (lower_is_better : bool) (top_pct : Q) (n_prompts : nat)
  (templates : list FewShotPromptTemplate) (query_examples : list example) :
  gen_prompt_tempates permutation tc observed_configs observed_fvals candidate_configs
    lower_is_better top_pct n_prompts = Ok (templates, query_examples) ->
  length templates = n_prompts /\
  exists cs,
    hyperparameter_constraints tc = Some cs /\
    Forall2 (fun r q =>
               serialize_row cs (series (values_dtype candidate_configs) r) = Ok (Q_text q) /\
               A_text q = None)
            candidate_configs query_examples /\
    forall i t, templates !! i = Some t ->
      prepare_configurations permutation cs lower_is_better top_pct observed_configs
        observed_fvals (Some i) = Ok (examples t) /\
      prefix t = prefix_text (custom_task_description tc) top_pct /\
      suffix t = suffix_template /\
      example_separator t = "".
Proof.
  unfold gen_prompt_tempates. destruct (metric tc) as [m|]; [|discriminate].
  cbv zeta. intros E.
  destruct (rmap _ (seq 0 n_prompts)) as [ts|e] eqn:Ets; [|discriminate]. cbn [rbind] in E.
  unfold lookup_constraints in *.
  destruct (hyperparameter_constraints tc) as [cs|]; [|discriminate]. cbn [rbind] in E.
  destruct (prepare_configurations _ _ _ _ candidate_configs None None) as [qs|e] eqn:Eq;
    [|discriminate].
  cbn [rbind] in E. injection E as <- <-.
  split; [rewrite (rmap_length _ _ _ Ets); apply length_seq|].
  exists cs. split; [reflexivity|].
  split; [apply (query_examples_follow_candidates _ _ _ _ _ _ Eq)|].
  intros i t Ht. apply rmap_Ok_Forall2 in Ets.
  destruct (Forall2_lookup_r _ _ _ _ _ Ets Ht) as (j & Hj & Hrow).
  apply lookup_seq in Hj as (Hj & _). simpl in Hj. subst j. cbn [rbind] in Hrow.
  destruct (prepare_configurations _ _ _ _ observed_configs observed_fvals (Some i))
    as [few|e]; [|discriminate].
  cbn [rbind] in Hrow. injection Hrow as <-. repeat split.
Qed.

(** X25. [gen_prompt_tempates] needs the key ["metric"] in the task
    context and raises [KeyError] without it, before it looks at the
    tables.  Whenever it returns, it returns [n_prompts] templates, the
    template of rank [i] holding the observed rows prepared with seed [i],
    and one query per candidate: the serialized candidates in candidate
    order, without label. *)
Theorem gen_prompt_tempates_shape (permutation : nat -> list nat -> list nat)
  (tc : task_context) (observed_configs : list (row pyval))
  (observed_fvals : option (list pyfloat)) (candidate_configs : list (row pyval))
  (lower_is_better : bool) (top_pct : Q) (n_prompts : nat) :
  (metric tc = None ->
   gen_prompt_tempates permutation tc observed_configs observed_fvals candidate_configs
     lower_is_better top_pct n_prompts = Raise (KeyError "metric")) /\
  (forall templates query_examples,
     gen_prompt_tempates permutation tc observed_configs observed_fvals candidate_configs
       lower_is_better top_pct n_prompts = Ok (templates, query_examples) ->
     length templates = n_prompts /\
     exists cs,
       hyperparameter_constraints tc = Some cs /\
       Forall2 (fun r q =>
                  serialize_row cs (series (values_dtype candidate_configs) r)
                  = Ok (Q_text q) /\
                  A_text q = None)
               candidate_configs query_examples /\
       forall i t, templates !! i = Some t ->
         prepare_configurations permutation cs lower_is_better top_pct observed_configs
           observed_fvals (Some i) = Ok (examples t) /\
         prefix t = prefix_text (custom_task_description tc) top_pct /\
         suffix t = suffix_template /\
         example_separator t = "").
Proof.
  split.
  - intros Hm. unfold gen_prompt_tempates. rewrite Hm. reflexivity.
  - intros templates query_examples. apply gen_prompt_tempates_returned.
Qed.

Section EndToEnd.

Variable template_format : FewShotPromptTemplate -> string -> string.
Variable ask : history -> list (string * string) -> pyval * Q.
Variable next_done : history -> nat -> nat.
Variable np_log10 : pyval -> result pyval.
Variable pow10 : pyval -> result pyval.
Variable permutation : nat -> list nat -> list nat.
Variable metric_name : option string.
Variable description : option string.
Variable self : LLMGenerativeSM.

(** X26. A selection round with the prompts of [gen_prompt_tempates].
    Whenever [select_query_point] returns, the evaluation of the warped
    tables has given one probability per row of the candidate table and
    has sent one query per pair of a candidate row and one of the
    [n_templates] templates; the position [np.argmax] selects among the
    probabilities is a row of the candidate table, and the row returned
    is the row at that position of the warped candidate table,
    unwarped. *)
Theorem select_query_point_round (observed_configs : list (row pyval))
  (observed_fvals : list pyfloat) (candidate_configs : list (row pyval))
  (return_raw_preds : bool) (h : history)
  (best_point : list (row pyval)) (raw : option (list pyfloat)) (cost : Q) (h' : history) :
  select_query_point template_format ask next_done np_log10 pow10
    (prompts_for permutation metric_name description) self
    observed_configs observed_fvals candidate_configs return_raw_preds h
  = (Ok (best_point, raw, cost), h') ->
  exists observed warped unwarped pred_probs i chosen,
    _warp_candidate_points np_log10 self observed_configs = Ok observed /\
    _warp_candidate_points np_log10 self candidate_configs = Ok warped /\
    _evaluate_candidate_points template_format ask next_done
      (prompts_for permutation metric_name description) self
      observed observed_fvals warped h = (Ok (pred_probs, cost), h') /\
    _unwarp_candidate_points pow10 self warped = Ok unwarped /\
    length pred_probs = length candidate_configs /\
    length unwarped = length candidate_configs /\
    length (asked h')
    = (length (asked h) + GenerativeSM.n_templates self * length candidate_configs)%nat /\
    np_argmax pred_probs = Ok i /\
    (i < length candidate_configs)%nat /\
    unwarped !! i = Some chosen /\
    best_point = [chosen] /\
    raw = (if return_raw_preds then Some pred_probs else None).
Proof.
  unfold select_query_point, bind, lift. intros E.
  destruct (_warp_candidate_points np_log10 self observed_configs) as [obs|e]; [|discriminate].
  destruct (_warp_candidate_points np_log10 self candidate_configs) as [warped|e] eqn:Ew;
    [|discriminate].
  destruct (_evaluate_candidate_points _ _ _ _ _ _ _ _ h) as [[[probs c]|e] h1] eqn:Ee;
    [|discriminate].
  destruct (np_argmax probs) as [i|e] eqn:Ei; [|discriminate].
  destruct (_unwarp_candidate_points pow10 self warped) as [unwarped|e] eqn:Eu; [|discriminate].
  unfold iloc_row in E. destruct (unwarped !! i) as [chosen|] eqn:Hi; [|discriminate].
  unfold ret in E. injection E as <- <- <- <-.
  pose proof Ee as Ee'.
  unfold _evaluate_candidate_points, bind, lift in Ee'.
  destruct (prompts_for _ _ _ _ _ _ _ _ _ _) as [[templates queries]|e] eqn:Eg; [|discriminate].
  unfold emit in Ee'.
  match type of Ee' with
  | context [_predict template_format ask next_done self templates queries ?hh] =>
      destruct (_predict template_format ask next_done self templates queries hh)
        as [[[[[probs' sr] c'] tok]|e] h1'] eqn:Ep; [|discriminate];
      pose proof (PredictFacts._predict_returned _ _ _ _ _ _ _ _ _ _ _ _ Ep) as (HF & _ & _);
      pose proof (EngineProperties.predict_accounts _ _ _ _ _ _ _ _ _ _ _ _ Ep) as (Hasked & _)
  end.
  unfold ret in Ee'. injection Ee' as -> _ ->.
  unfold prompts_for in Eg.
  destruct (gen_prompt_tempates_returned _ _ _ _ _ _ _ _ _ _ Eg)
    as (Hn & cs & _ & Hq & _).
  pose proof (rmap_length _ _ _ Ew) as Hw. pose proof (rmap_length _ _ _ Eu) as Hu.
  exists obs, warped, unwarped, probs, i, chosen.
  split; [reflexivity|]. split; [reflexivity|]. split; [exact Ee|]. split; [exact Eu|].
  split; [rewrite <- (Forall2_length _ _ _ HF), <- (Forall2_length _ _ _ Hq); exact Hw|].
  split; [lia|].
  split.
  - rewrite (Permutation_length Hasked), length_app, !EngineProperties.asked_app.
    unfold all_messages, messages_for.
    rewrite (EngineProperties.flat_map_constant_length _ (length templates))
      by (intros q; apply length_map).
    rewrite <- (Forall2_length _ _ _ Hq), Hw, Hn. simpl. rewrite !app_nil_r. lia.
  - split; [exact Ei|]. split; [apply lookup_lt_Some in Hi; lia|]. auto.
Qed.

(** X27. An empty candidate table cannot be ranked: [_predict] raises
    [ZeroDivisionError] on an empty list of queries before it sends
    anything, and [select_query_point] with the prompts of
    [gen_prompt_tempates] never returns on an empty candidate table. *)
Theorem select_query_point_without_candidate (observed_configs : list (row pyval))
  (observed_fvals : list pyfloat) (return_raw_preds : bool) (h : history) :
  (forall templates,
     _predict template_format ask next_done self templates [] h
     = (Raise ZeroDivisionError, h)) /\
  exists e,
    (select_query_point template_format ask next_done np_log10 pow10
       (prompts_for permutation metric_name description) self
       observed_configs observed_fvals [] return_raw_preds h).1 = Raise e.
Proof.
  split; [reflexivity|].
  unfold select_query_point, bind, lift.
  destruct (_warp_candidate_points np_log10 self observed_configs) as [obs|e];
    [|exists e; reflexivity].
  change (_warp_candidate_points np_log10 self []) with (Ok (@nil (row pyval))).
  cbv iota. unfold _evaluate_candidate_points, bind, lift.
  destruct (prompts_for _ _ _ _ _ _ _ _ _ _) as [[templates queries]|e] eqn:Eg;
    [|exists e; reflexivity].
  unfold prompts_for in Eg.
  destruct (gen_prompt_tempates_returned _ _ _ _ _ _ _ _ _ _ Eg) as (_ & cs & _ & Hq & _).
  apply Forall2_nil_inv_l in Hq as ->.
  exists ZeroDivisionError. reflexivity.
Qed.

End EndToEnd.

Import Scenario PromptScenario.

Lemma prepare_configurations_shuffle_reorders_witness :
  let positions := reversed 0 (seq 0 (length two_observed)) in
  let ex := [{| Q_text := "x: 0.5000"; A_text := Some "## 0 ##" |};
             {| Q_text := "x: 3.5000"; A_text := Some "## 1 ##" |}] in
  positions ≡ₚ seq 0 (length two_observed) /\
  length two_fvals = length two_observed /\
  prepare_configurations reversed x_constraints true (1 # 2) two_observed (Some two_fvals) None
  = Ok ex /\
  taken_at ex positions
  = [{| Q_text := "x: 3.5000"; A_text := Some "## 1 ##" |};
     {| Q_text := "x: 0.5000"; A_text := Some "## 0 ##" |}] /\
  prepare_configurations reversed x_constraints true (1 # 2) two_observed (Some two_fvals)
    (Some 0%nat) = Ok (taken_at ex positions) /\
  taken_at ex positions ≡ₚ ex.
Proof.
  intros positions ex.
  assert (Hp : positions ≡ₚ seq 0 (length two_observed)).
  { apply (bool_decide_unpack _). vm_compute. reflexivity. }
  assert (E : prepare_configurations reversed x_constraints true (1 # 2) two_observed
                (Some two_fvals) None = Ok ex) by (vm_compute; reflexivity).
  split; [exact Hp|]. split; [reflexivity|]. split; [exact E|]. split; [reflexivity|].
  exact (prepare_configurations_shuffle_reorders reversed x_constraints true (1 # 2)
           two_observed (Some two_fvals) 0 ex Hp eq_refl E).
Defined.

Lemma example_labels_are_read_back_witness :
  let ex := [{| Q_text := "x: 3.5000"; A_text := Some "## 1 ##" |};
             {| Q_text := "x: 0.5000"; A_text := Some "## 0 ##" |}] in
  prepare_configurations reversed x_constraints true (1 # 2) two_observed (Some two_fvals)
    (Some 0%nat) = Ok ex /\
  Forall (fun e => exists label,
            (label = 0%Z \/ label = 1%Z) /\
            A_text e = Some ("## " ++ Z_to_string label ++ " ##") /\
            forall h, process_response [VStr ("## " ++ Z_to_string label ++ " ##")] h
                      = (Ok [Fin (inject_Z label)], h)) ex.
Proof.
  intros ex.
  assert (E : prepare_configurations reversed x_constraints true (1 # 2) two_observed
                (Some two_fvals) (Some 0%nat) = Ok ex) by (vm_compute; reflexivity).
  split; [exact E|].
  exact (example_labels_are_read_back reversed x_constraints true (1 # 2) two_observed
           two_fvals (Some 0%nat) ex E).
Defined.

Lemma gen_prompt_tempates_shape_witness :
  let tc := {| metric := Some "accuracy"; custom_task_description := None;
               hyperparameter_constraints := Some x_constraints |} in
  exists templates query_examples,
    gen_prompt_tempates reversed tc two_observed (Some two_fvals) three_candidates
      true (1 # 2) 2 = Ok (templates, query_examples) /\
    query_examples = map (fun s => {| Q_text := s; A_text := None |})
                         ["x: 0.5000"; "x: 1.5000"; "x: 2.5000"] /\
    length templates = 2%nat.
Proof.
  intros tc.
  destruct (gen_prompt_tempates reversed tc two_observed (Some two_fvals) three_candidates
              true (1 # 2) 2) as [[templates query_examples]|e] eqn:E;
    [|vm_compute in E; discriminate].
  exists templates, query_examples. split; [reflexivity|].
  destruct (proj2 (gen_prompt_tempates_shape reversed tc two_observed (Some two_fvals)
                     three_candidates true (1 # 2) 2) templates query_examples E)
    as (Hn & _).
  split; [|exact Hn].
  vm_compute in E. injection E as _ <-. reflexivity.
Defined.

Lemma select_query_point_round_witness :
  let prompts := prompts_for reversed (Some "accuracy") None in
  let ask := answer_by_query three_answers in
  let run := select_query_point plain_format ask last_first no_log no_log prompts
               (surrogate 2) two_observed two_fvals three_candidates true [] in
  run = (Ok ([[("x", VFloat (Fin (3 # 2)))]],
             Some [Fin (100 # 200); NaN; Fin (180 # 200)], 0%Q), run.2) /\
  exists observed warped unwarped pred_probs i chosen,
    _warp_candidate_points no_log (surrogate 2) two_observed = Ok observed /\
    _warp_candidate_points no_log (surrogate 2) three_candidates = Ok warped /\
    _evaluate_candidate_points plain_format ask last_first prompts (surrogate 2)
      observed two_fvals warped [] = (Ok (pred_probs, 0%Q), run.2) /\
    _unwarp_candidate_points no_log (surrogate 2) warped = Ok unwarped /\
    length pred_probs = length three_candidates /\
    length unwarped = length three_candidates /\
    length (asked run.2)
    = (length (asked []) + GenerativeSM.n_templates (surrogate 2) * length three_candidates)%nat /\
    np_argmax pred_probs = Ok i /\
    (i < length three_candidates)%nat /\
    unwarped !! i = Some chosen /\
    [[("x", VFloat (Fin (3 # 2)))]] = [chosen] /\
    Some [Fin (100 # 200); NaN; Fin (180 # 200)] = (if true then Some pred_probs else None).
Proof.
  intros prompts ask run.
  assert (Hrun : run = (Ok ([[("x", VFloat (Fin (3 # 2)))]],
                            Some [Fin (100 # 200); NaN; Fin (180 # 200)], 0%Q), run.2))
    by (vm_compute; reflexivity).
  split; [exact Hrun|].
  exact (select_query_point_round plain_format ask last_first no_log no_log reversed
           (Some "accuracy") None (surrogate 2) two_observed two_fvals three_candidates
           true [] _ _ _ _ Hrun).
Defined.

End PromptProperties.
